(** * The injected-wallet connector of wagmi (packages/connectors/src/injected.ts)

    A shallow embedding of the connector returned by [injected(parameters)]:
    the provider locator, the connect / disconnect state machine, the
    disconnect shim kept in storage, the switch-or-add chain protocol and the
    asynchronous injection race of [isAuthorized].

    Conventions of the embedding.
    - An [async] method is a computation in the monad [M]: it threads the
      [World] (everything the connector can read or change) and ends in a
      value, a thrown error, or a promise that never settles.  One method runs
      at a time; handlers fired by the wallet while a method is suspended are
      other runs.
    - The wallet, the event bus and the browser are outside the connector.
      What they answer is given by an [Environment]: total functions of the
      history of calls made so far, so every deterministic wallet is covered.
    - A JavaScript number used as a chain id is a [Z]; a property read for its
      truthiness is a [bool]; a function object is named by the order of its
      creation, so that two [bind] results are never the same listener.
    - A string is held as the bytes of its UTF-8 form: the strings of the
      model are the well-formed ones.
    - A callback given to [Array.prototype.map] is called with the element
      and its index: [accounts.map(getAddress)] hands the index to
      [getAddress] as its second argument. *)

From Stdlib Require Import ZArith String Ascii List Bool Lia HexString DecimalString.
From stdpp Require Import base option list strings gmap.

Open Scope string_scope.
Open Scope Z_scope.

(** ** Errors *)

(** The values the connector throws or receives.  [ProviderRpc] is whatever
    object a wallet rejects a request with: [code] and
    [data.originalError.code] are the only fields the connector reads. *)
Inductive Error : Type :=
| ProviderNotFoundError
| ChainNotConfiguredError
| TypeError
| InvalidAddressError (address : string)
| JsError (message : string)
| ProviderRpc (code : option Z) (originalCode : option Z)
| UserRejectedRequestError (cause : Error)
| ResourceUnavailableRpcError (cause : Error)
| SwitchChainError (cause : Error).

(** [error.code]: viem's rpc error classes carry a fixed code. *)
Definition error_code (e : Error) : option Z :=
  match e with
  | ProviderRpc c _ => c
  | UserRejectedRequestError _ => Some 4001
  | ResourceUnavailableRpcError _ => Some (-32002)
  | SwitchChainError _ => Some 4902
  | _ => None
  end.

(** [error?.data?.originalError?.code]: only a wallet's own error has [data]. *)
Definition original_code (e : Error) : option Z :=
  match e with
  | ProviderRpc _ oc => oc
  | _ => None
  end.

(** [x === n] for an optional number [x]. *)
Definition code_is (x : option Z) (n : Z) : bool :=
  match x with
  | Some c => c =? n
  | None => false
  end.

(** ** Data model *)

Definition Address := string.

(** A [WindowProvider] as seen by the locator: the truthiness of each
    capability flag and of MetaMask's private [_events] and [_state]. *)
Record Provider : Type := {
  pid : nat;
  flag : string -> bool;
  _events : bool;
  _state : bool
}.

(** [window.ethereum]: a provider that may list sub-providers. *)
Record Ethereum : Type := {
  self : Provider;
  providers : option (list Provider)
}.

Record Window : Type := {
  coinbaseWalletExtension : option Provider;
  ethereum : option Ethereum;
  phantom : option Provider
}.

(** [windowProvider.provider]: a flag name, a function of the window, or
    [undefined] where the descriptor came from an object without that
    property. *)
Inductive ProviderSpec : Type :=
| ByFlag (name : string)
| ByFunction (f : option Window -> option Provider)
| Undefined.

(** [TargetMap[TargetId] & { id: string }], as an object at run time: [name]
    and [features] may be missing. *)
Record Target : Type := {
  id : string;
  name : option string;
  provider : ProviderSpec;
  features : option (list string)
}.

Inductive TargetParameter : Type :=
| TargetId (target : string)
| TargetFunction (result : option Target).

Inductive AsyncInject : Type :=
| InjectFlag (b : bool)
| InjectTimeout (ms : Z).

Record InjectedParameters : Type := {
  shimDisconnect_ : option bool;
  unstable_shimAsyncInject : option AsyncInject;
  target : option TargetParameter
}.

Record BlockExplorer : Type := {
  be_name : string;
  url : string
}.

Record NativeCurrency : Type := {
  nc_name : string;
  symbol : string;
  decimals : Z
}.

(** The fields of viem's [Chain] that the connector reads.  [blockExplorers]
    is an object: its properties in enumeration order. *)
Record Chain : Type := {
  chain_id : Z;
  chain_name : string;
  nativeCurrency : NativeCurrency;
  rpcUrls_public_http : option (list string);
  blockExplorers : option (list (string * BlockExplorer))
}.

Record AddEthereumChainParameter : Type := {
  p_chainId : string;
  p_chainName : string;
  p_nativeCurrency : NativeCurrency;
  p_rpcUrls : list string;
  p_blockExplorerUrls : list string
}.

Record Caveat : Type := { value : option (list string) }.
Record Permission : Type := { caveats : option (list Caveat) }.

(** [provider.request({ method, params })]. *)
Inductive Request : Type :=
| eth_accounts
| eth_requestAccounts
| eth_chainId
| wallet_requestPermissions
| wallet_switchEthereumChain (chainId : string)
| wallet_addEthereumChain (params : AddEthereumChainParameter).

Definition Reply (r : Request) : Type :=
  match r with
  | eth_accounts | eth_requestAccounts => list string
  | eth_chainId => string
  | wallet_requestPermissions => list Permission
  | wallet_switchEthereumChain _ | wallet_addEthereumChain _ => unit
  end.

Inductive ProviderEvent : Type :=
| accountsChanged
| chainChanged
| connect_
| disconnect_.

(** A listener handed to the provider.  [this.onChainChanged] is one function
    object; every [this.m.bind(this)] is a new one. *)
Inductive Handler : Type :=
| OnChainChanged
| Bound (event : ProviderEvent) (closure : nat).

(** What the connector does to a provider, in order. *)
Inductive Call : Type :=
| CallRequest (p : nat) (r : Request)
| CallOn (p : nat) (event : ProviderEvent) (h : Handler)
| CallRemoveListener (p : nat) (event : ProviderEvent) (h : Handler).

(** [config.emitter.emit]. *)
Inductive BusEvent : Type :=
| EmitConnect (accounts : list Address) (chainId : Z)
| EmitDisconnect
| EmitChangeAccounts (accounts : list Address)
| EmitChangeChain (chainId : Z).

(** A listener for ['ethereum#initialized'] on the window. *)
Record WindowListener : Type := {
  closure : nat;
  once : bool
}.

Record World : Type := {
  window : option Window;
  storage : option (gmap string bool);
  emitted : list BusEvent;
  connectListenerCount : nat;
  calls : list Call;
  windowListeners : list WindowListener;
  closures : nat
}.

(** How an awaited promise ends. *)
Inductive Outcome (A : Type) : Type :=
| Returned (a : A)
| Threw (e : Error)
| Pending.
Arguments Returned {A} a.
Arguments Threw {A} e.
Arguments Pending {A}.

Inductive Signal : Type :=
| InjectionEvent
| Timeout.

(** What the outside answers.
    - [reply p h r]: how provider [p] settles request [r] made after the
      calls [h];
    - [firstChange h]: the [chainId] of the first ['change'] event the bus
      delivers after the calls [h], if one comes and carries a [chainId];
    - [race w timeout]: which signal of the injection race started in [w]
      comes first, and the window object at that moment.
    A request may also never settle. *)
Record Environment : Type := {
  reply : nat -> list Call -> forall r : Request, Outcome (Reply r);
  firstChange : list Call -> option Z;
  race : World -> Z -> Signal * Window
}.

(** The functions imported from viem and @wagmi/core, and the part of the
    language's own library that is a table, taken as given.
    - [numberToHex] is only applied to the id of a chain of the registry and
      [normalizeChainId] to a string.
    - [getAddress(address, chainId?)] throws on a string that is not an
      address; with a [chainId] the checksum it computes is another one.
    - [upperCase c] is [c.toUpperCase()] for a one-character string [c] that
      is not ASCII: the upper-case mapping of Unicode, which may give more
      than one character. *)
Record Imports : Type := {
  numberToHex : Z -> string;
  numberToString : Z -> string;
  normalizeChainId : string -> Z;
  getAddress : string -> option Z -> Error + Address;
  upperCase : string -> string
}.

(** ** The monad of asynchronous methods *)

Definition M (A : Type) : Type := World -> World * Outcome A.

Definition ret {A} (a : A) : M A := fun w => (w, Returned a).

Definition bind {A B} (m : M A) (k : A -> M B) : M B :=
  fun w =>
    match m w with
    | (w', Returned a) => k a w'
    | (w', Threw e) => (w', Threw e)
    | (w', Pending) => (w', Pending)
    end.

Definition throw {A} (e : Error) : M A := fun w => (w, Threw e).

(** [try { m } catch (error) { h error }], and [m.catch(h)]. *)
Definition try_catch {A} (m : M A) (h : Error -> M A) : M A :=
  fun w =>
    match m w with
    | (w', Threw e) => h e w'
    | r => r
    end.

(** A call whose promise is dropped: its effects happen, its outcome is not
    seen by the caller. *)
Definition detached {A} (m : M A) : M unit :=
  fun w => (fst (m w), Returned tt).

Definition gets {A} (f : World -> A) : M A := fun w => (w, Returned (f w)).
Definition modify (f : World -> World) : M unit := fun w => (f w, Returned tt).

Notation "'do' x <- m ; k" := (bind m (fun x => k))
  (at level 10, x name, m at level 100, k at level 200).

Definition when (b : bool) (m : M unit) : M unit := if b then m else ret tt.

(** [xs.map(f)] for an [f] that may throw.  [map] calls [f(x, index, xs)]:
    the callback gets the index of the element as its second argument.
    [map_from] is the part of the loop that starts at [index]. *)
Fixpoint map_from {A B} (f : A -> Z -> Error + B) (index : Z) (xs : list A)
  : Error + list B :=
  match xs with
  | [] => inr []
  | x :: xs' =>
      match f x index with
      | inl e => inl e
      | inr y =>
          match map_from f (index + 1) xs' with
          | inl e => inl e
          | inr ys => inr (y :: ys)
          end
      end
  end.

Definition map_throwing {A B} (f : A -> Z -> Error + B) (xs : list A)
  : Error + list B :=
  map_from f 0 xs.

(** [xs.map(getAddress)]: the second parameter of [getAddress] is [chainId],
    and it receives the index. *)
Definition map_getAddress (imports : Imports) (xs : list string)
  : Error + list Address :=
  map_throwing (fun address index => getAddress imports address (Some index)) xs.

Definition lift {A} (r : Error + A) : M A :=
  match r with
  | inl e => throw e
  | inr a => ret a
  end.

(** ** Provider locator *)

(** [findProvider(window, condition)], the condition given as a predicate;
    [flag_condition] is the predicate of a flag name. *)
Definition findProvider (window : option Window) (condition : Provider -> bool)
  : option Provider :=
  match window with
  | None => None
  | Some win =>
      match ethereum win with
      | None => None
      | Some eth =>
          match providers eth with
          | Some ps => List.find condition ps
          | None => if condition (self eth) then Some (self eth) else None
          end
      end
  end.

Definition flag_condition (name : string) : Provider -> bool :=
  fun p => flag p name.

Definition impersonation_flags : list string :=
  [ "isApexWallet"; "isAvalanche"; "isBitKeep"; "isBlockWallet";
    "isKuCoinWallet"; "isMathWallet"; "isOkxWallet"; "isOKExWallet";
    "isOneInchIOSWallet"; "isOneInchAndroidWallet"; "isOpera"; "isPortal";
    "isRabby"; "isTokenPocket"; "isTokenary"; "isZerion" ].

(** The condition of [targetMap.metaMask.provider]. *)
Definition isMetaMask_condition (windowProvider : Provider) : bool :=
  if negb (flag windowProvider "isMetaMask") then false
  else if flag windowProvider "isBraveWallet"
          && negb (_events windowProvider) && negb (_state windowProvider)
  then false
  else if existsb (flag windowProvider) impersonation_flags then false
  else true.

(** [targetMap.metaMask.provider]. *)
Definition metaMask_provider (window : option Window) : option Provider :=
  findProvider window isMetaMask_condition.

Definition opt_field {A B} (o : option A) (f : A -> option B) : option B :=
  match o with
  | Some a => f a
  | None => None
  end.

Definition coinbaseWallet_target : Target := {|
  id := "coinbaseWallet";
  name := Some "Coinbase Wallet";
  provider := ByFunction (fun window =>
    match opt_field window coinbaseWalletExtension with
    | Some p => Some p
    | None => findProvider window (flag_condition "isCoinbaseWallet")
    end);
  features := None
|}.

Definition metaMask_target : Target := {|
  id := "metaMask";
  name := Some "MetaMask";
  provider := ByFunction metaMask_provider;
  features := Some ["wallet_requestPermissions"]
|}.

Definition phantom_target : Target := {|
  id := "phantom";
  name := Some "Phantom";
  provider := ByFunction (fun window =>
    match opt_field window phantom with
    | Some p => Some p
    | None => findProvider window (flag_condition "isPhantom")
    end);
  features := None
|}.

(** The properties [targetMap], an object literal, inherits from
    [Object.prototype]: eleven functions and, under [__proto__], the
    prototype itself.  A property read finds them like the three entries. *)
Definition inherited_members : list string :=
  [ "constructor"; "hasOwnProperty"; "isPrototypeOf"; "propertyIsEnumerable";
    "toLocaleString"; "toString"; "valueOf"; "__defineGetter__";
    "__defineSetter__"; "__lookupGetter__"; "__lookupSetter__"; "__proto__" ].

(** What [{ ...member }] copies from an inherited member: it has no
    enumerable property of its own, so nothing. *)
Definition inherited_target (target : string) : Target := {|
  id := target;
  name := None;
  provider := Undefined;
  features := None
|}.

(** [targetMap[target]], without the [id]; [None] is [undefined]. *)
Definition targetMap (target : string) : option Target :=
  if String.eqb target "coinbaseWallet" then Some coinbaseWallet_target
  else if String.eqb target "metaMask" then Some metaMask_target
  else if String.eqb target "phantom" then Some phantom_target
  else if existsb (String.eqb target) inherited_members
  then Some (inherited_target target)
  else None.

(** [first_unit c] is the number of bytes of the first character of a
    string that starts with the byte [c], when that character is a single
    UTF-16 code unit: one byte for ASCII, two or three for the rest of the
    Basic Multilingual Plane.  A character beyond that plane is two code
    units ([None]). *)
Definition first_unit (c : ascii) : option nat :=
  let n := nat_of_ascii c in
  if (n <? 128)%nat then Some 1%nat
  else if (n <? 224)%nat then Some 2%nat
  else if (n <? 240)%nat then Some 3%nat
  else None.

(** [c.toUpperCase()] for a one-character string [c]: an ASCII letter by
    arithmetic, another ASCII character unchanged, the rest by the table. *)
Definition toUpperCase (upperCase : string -> string) (c : string) : string :=
  match c with
  | String b EmptyString =>
      let n := nat_of_ascii b in
      if (97 <=? n)%nat && (n <=? 122)%nat
      then String (ascii_of_nat (n - 32)) EmptyString
      else if (n <? 128)%nat then c
      else upperCase c
  | _ => upperCase c
  end.

(** [`${target[0]!.toUpperCase()}${target.slice(1)}`].  [target[0]] is
    [undefined] for the empty string and the call throws.  When the first
    character is two code units, [target[0]] is the first half of the pair,
    which [toUpperCase] returns as it is: the string is unchanged. *)
Definition capitalize (upperCase : string -> string) (target : string)
  : Error + string :=
  match target with
  | EmptyString => inl TypeError
  | String c _ =>
      match first_unit c with
      | Some n =>
          inr (toUpperCase upperCase (substring 0 n target)
               ++ substring n (String.length target - n) target)
      | None => inr target
      end
  end.

Definition injected_target : Target := {|
  id := "injected";
  name := Some "Injected";
  provider := ByFunction (fun window =>
    match opt_field window ethereum with
    | Some eth => Some (self eth)
    | None => None
    end);
  features := None
|}.

(** ** Primitive effects *)

Definition log_call (c : Call) (w : World) : World :=
  {| window := window w; storage := storage w; emitted := emitted w;
     connectListenerCount := connectListenerCount w;
     calls := calls w ++ [c];
     windowListeners := windowListeners w; closures := closures w |}.

Definition log_emit (e : BusEvent) (w : World) : World :=
  {| window := window w; storage := storage w; emitted := emitted w ++ [e];
     connectListenerCount := connectListenerCount w;
     calls := calls w;
     windowListeners := windowListeners w; closures := closures w |}.

Definition set_storage (s : option (gmap string bool)) (w : World) : World :=
  {| window := window w; storage := s; emitted := emitted w;
     connectListenerCount := connectListenerCount w;
     calls := calls w;
     windowListeners := windowListeners w; closures := closures w |}.

Definition set_window (win : option Window) (w : World) : World :=
  {| window := win; storage := storage w; emitted := emitted w;
     connectListenerCount := connectListenerCount w;
     calls := calls w;
     windowListeners := windowListeners w; closures := closures w |}.

Definition set_windowListeners (ls : list WindowListener) (w : World) : World :=
  {| window := window w; storage := storage w; emitted := emitted w;
     connectListenerCount := connectListenerCount w;
     calls := calls w;
     windowListeners := ls; closures := closures w |}.

Definition new_closures (n : nat) (w : World) : World :=
  {| window := window w; storage := storage w; emitted := emitted w;
     connectListenerCount := connectListenerCount w;
     calls := calls w;
     windowListeners := windowListeners w; closures := (closures w + n)%nat |}.

(** [config.emitter.emit(event, payload)]. *)
Definition emit (e : BusEvent) : M unit := modify (log_emit e).

(** [provider.on(event, h)] and [provider.removeListener(event, h)]. *)
Definition on (p : Provider) (event : ProviderEvent) (h : Handler) : M unit :=
  modify (log_call (CallOn (pid p) event h)).

Definition removeListener (p : Provider) (event : ProviderEvent) (h : Handler)
  : M unit :=
  modify (log_call (CallRemoveListener (pid p) event h)).

(** [this.m.bind(this)]: a function object that did not exist before. *)
Definition bind_this (event : ProviderEvent) : M Handler :=
  fun w => (new_closures 1 w, Returned (Bound event (closures w))).

(** [window.removeEventListener('ethereum#initialized', f)]. *)
Definition removeEventListener (f : nat) (w : World) : World :=
  set_windowListeners
    (List.filter (fun l => negb (closure l =? f)%nat) (windowListeners w)) w.

(** [window.addEventListener('ethereum#initialized', f, { once: true })]. *)
Definition addEventListener_once (f : nat) (w : World) : World :=
  set_windowListeners (windowListeners w ++ [{| closure := f; once := true |}]) w.

(** The browser dispatches ['ethereum#initialized']: each listener added with
    [once] is taken off the window as it is called. *)
Definition dispatch_initialized (w : World) : World :=
  set_windowListeners (List.filter (fun l => negb (once l)) (windowListeners w)) w.

(** Truthiness of what [getItem] gave. *)
Definition truthy (v : option bool) : bool :=
  match v with
  | Some b => b
  | None => false
  end.

(** ** The connector made by [injected(parameters)] *)

Module Injected.

Section Connector.

Context (imports : Imports) (env : Environment).
Context (parameters : InjectedParameters) (chains : list Chain).

(** [parameters.shimDisconnect ?? true]. *)
Definition shimDisconnect : bool :=
  match shimDisconnect_ parameters with
  | Some b => b
  | None => true
  end.

Definition getWindowProvider : Error + Target :=
  match target parameters with
  | Some (TargetFunction (Some result)) => inr result
  | Some (TargetId target) =>
      match targetMap target with
      | Some t =>
          inr {| id := target; name := name t; provider := provider t;
                 features := features t |}
      | None =>
          match capitalize (upperCase imports) target with
          | inl e => inl e
          | inr capitalized =>
              inr {| id := target; name := Some capitalized;
                     provider := ByFlag ("is" ++ capitalized);
                     features := None |}
          end
      end
  | _ => inr injected_target
  end.

(** The getter [this.id]. *)
Definition this_id : M string :=
  do windowProvider <- lift getWindowProvider; ret (id windowProvider).

(** [provider.request(r)]: the call is made, then the wallet settles it. *)
Definition request (p : Provider) (r : Request) : M (Reply r) :=
  fun w => (log_call (CallRequest (pid p) r) w, reply env (pid p) (calls w) r).

(** [config.storage?.getItem(`${this.id}.connected`)]: without a storage the
    key is not evaluated. *)
Definition storage_getConnected : M (option bool) :=
  do s <- gets storage;
  match s with
  | None => ret None
  | Some items => do i <- this_id; ret (items !! (i ++ ".connected"))
  end.

(** [config.storage?.setItem(`${this.id}.connected`, true)]. *)
Definition storage_setConnected : M unit :=
  do s <- gets storage;
  match s with
  | None => ret tt
  | Some items =>
      do i <- this_id;
      modify (set_storage (Some (<[i ++ ".connected" := true]> items)))
  end.

(** [config.storage?.removeItem(`${this.id}.connected`)]. *)
Definition storage_removeConnected : M unit :=
  do s <- gets storage;
  match s with
  | None => ret tt
  | Some items =>
      do i <- this_id;
      modify (set_storage (Some (delete (i ++ ".connected") items)))
  end.

Definition getProvider : M (option Provider) :=
  do win <- gets window;
  match win with
  | None => ret None
  | Some _ =>
      do windowProvider <- lift getWindowProvider;
      match provider windowProvider with
      | ByFunction f => ret (f win)
      | ByFlag _ | Undefined => ret (findProvider win (fun _ => true))
      end
  end.

Definition getAccounts : M (list Address) :=
  do provider <- getProvider;
  match provider with
  | None => throw ProviderNotFoundError
  | Some provider =>
      do accounts <- request provider eth_accounts;
      lift (map_getAddress imports accounts)
  end.

Definition getChainId : M Z :=
  do provider <- getProvider;
  match provider with
  | None => throw ProviderNotFoundError
  | Some provider =>
      do hexChainId <- request provider eth_chainId;
      ret (normalizeChainId imports hexChainId)
  end.

(** The promise around [config.emitter.once('change', ...)]: it resolves if
    the first ['change'] event carries the requested chain id, and is never
    settled otherwise. *)
Definition change_confirmed (chainId : Z) : M unit :=
  fun w =>
    match firstChange env (calls w) with
    | Some currentChainId =>
        if currentChainId =? chainId then (w, Returned tt) else (w, Pending)
    | None => (w, Pending)
    end.

(** [{ default: blockExplorer, ...blockExplorers } = chain.blockExplorers ?? {}]
    and the list built from it. *)
Definition is_default (entry : string * BlockExplorer) : bool :=
  String.eqb (fst entry) "default".

Definition blockExplorerUrls (chain : Chain) : list string :=
  let entries := default [] (blockExplorers chain) in
  match List.find is_default entries with
  | Some (_, blockExplorer) =>
      url blockExplorer
        :: map (fun x => url (snd x)) (List.filter (fun x => negb (is_default x)) entries)
  | None => []
  end.

(** [[chain.rpcUrls.public?.http[0] ?? '']]. *)
Definition rpcUrls (chain : Chain) : list string :=
  [ match rpcUrls_public_http chain with
    | Some (first :: _) => first
    | _ => EmptyString
    end ].

Definition addEthereumChainParameter (chain : Chain) (hexId : string)
  : AddEthereumChainParameter :=
  {| p_chainId := hexId;
     p_chainName := chain_name chain;
     p_nativeCurrency := nativeCurrency chain;
     p_rpcUrls := rpcUrls chain;
     p_blockExplorerUrls := blockExplorerUrls chain |}.

(** The inner [try] of [switchChain] (lines 338-367). *)
Definition addChain (provider : Provider) (chain : Chain) (chainId : Z)
    (hexId : string) : M Chain :=
  try_catch
    (do _ <- request provider
               (wallet_addEthereumChain (addEthereumChainParameter chain hexId));
     do currentChainId <- getChainId;
     if negb (currentChainId =? chainId)
     then throw (UserRejectedRequestError
                   (JsError "User rejected switch after adding network."))
     else ret chain)
    (fun error => throw (UserRejectedRequestError error)).

Definition switchChain (chainId : Z) : M Chain :=
  do provider <- getProvider;
  match provider with
  | None => throw ProviderNotFoundError
  | Some provider =>
      match List.find (fun x => chain_id x =? chainId) chains with
      | None => throw (SwitchChainError ChainNotConfiguredError)
      | Some chain =>
          let hexId := numberToHex imports chainId in
          try_catch
            (do _ <- request provider (wallet_switchEthereumChain hexId);
             do _ <- change_confirmed chainId;
             ret chain)
            (fun error =>
               if code_is (error_code error) 4902
                  || code_is (original_code error) 4902
               then addChain provider chain chainId hexId
               else if code_is (error_code error) 4001
               then throw (UserRejectedRequestError error)
               else throw (SwitchChainError error))
      end
  end.

(** ** connect *)

Record ConnectResult : Type := {
  accounts : list Address;
  chainId : Z
}.

(** [a === b] on optional numbers. *)
Definition same_code (a b : option Z) : bool :=
  match a, b with
  | Some x, Some y => x =? y
  | None, None => true
  | _, _ => false
  end.

Definition nonempty {A} (xs : option (list A)) : bool :=
  match xs with
  | Some (_ :: _) => true
  | _ => false
  end.

(** [permissions[0]?.caveats?.[0]?.value]. *)
Definition first_caveat_value (permissions : list Permission) : option (list string) :=
  match permissions with
  | permission :: _ =>
      match caveats permission with
      | Some (caveat :: _) => value caveat
      | _ => None
      end
  | [] => None
  end.

(** The [try] around [wallet_requestPermissions] (lines 161-178); [accounts]
    is what the variable holds when the [try] is entered. *)
Definition selectAccounts (provider : Provider) (accounts : option (list Address))
  : M (option (list Address)) :=
  try_catch
    (do permissions <- request provider wallet_requestPermissions;
     match first_caveat_value permissions with
     | Some addresses =>
         do selected <- lift (map_getAddress imports addresses);
         ret (Some selected)
     | None => ret None
     end)
    (fun error =>
       if code_is (error_code error) 4001
       then throw (UserRejectedRequestError error)
       else if same_code (error_code error)
                 (error_code (ResourceUnavailableRpcError error))
       then throw error
       else ret accounts).

(** Lines 146-186: the accounts [connect] ends up with. *)
Definition resolveAccounts (provider : Provider) : M (list Address) :=
  do windowProvider <- lift getWindowProvider;
  let canSelectAccount :=
    match features windowProvider with
    | Some fs => existsb (String.eqb "wallet_requestPermissions") fs
    | None => false
    end in
  do isDisconnected <-
    (if shimDisconnect
     then do item <- storage_getConnected; ret (negb (truthy item))
     else ret false);
  do accounts <-
    (if canSelectAccount && isDisconnected
     then
       do accounts <- try_catch (do a <- getAccounts; ret (Some a))
                                (fun _ => ret None);
       let isAuthorized := nonempty accounts in
       if isAuthorized then selectAccounts provider accounts else ret accounts
     else ret None);
  match accounts with
  | Some (a :: rest) => ret (a :: rest)
  | _ =>
      do accounts_ <- request provider eth_requestAccounts;
      lift (map_getAddress imports accounts_)
  end.

(** The listeners of a connected connector (lines 188-191 and 402-405). *)
Definition subscribe (provider : Provider) : M unit :=
  do h <- bind_this connect_;
  do _ <- removeListener provider connect_ h;
  do h <- bind_this accountsChanged;
  do _ <- on provider accountsChanged h;
  do _ <- on provider chainChanged OnChainChanged;
  do h <- bind_this disconnect_;
  on provider disconnect_ h.

(** The listeners of a disconnected connector (lines 219-225 and 427-433). *)
Definition unsubscribe (provider : Provider) : M unit :=
  do h <- bind_this accountsChanged;
  do _ <- removeListener provider accountsChanged h;
  do _ <- removeListener provider chainChanged OnChainChanged;
  do h <- bind_this disconnect_;
  do _ <- removeListener provider disconnect_ h;
  do h <- bind_this connect_;
  on provider connect_ h.

(** Truthiness of the optional [chainId] argument. *)
Definition requested (chainId : option Z) : option Z :=
  match chainId with
  | Some c => if c =? 0 then None else Some c
  | None => None
  end.

(** Lines 193-200. *)
Definition switchIfRequested (chainId : option Z) (currentChainId : Z) : M Z :=
  match requested chainId with
  | Some c =>
      if negb (currentChainId =? c)
      then try_catch (do chain <- switchChain c; ret (chain_id chain))
                     (fun _ => ret currentChainId)
      else ret currentChainId
  | None => ret currentChainId
  end.

(** The [catch] of [connect] (lines 207-213). *)
Definition connect_catch {A} (error : Error) : M A :=
  if code_is (error_code error) 4001
  then throw (UserRejectedRequestError error)
  else if code_is (error_code error) (-32002)
  then throw (ResourceUnavailableRpcError error)
  else throw error.

(** The [try] of [connect] (lines 146-206). *)
Definition connect_try (provider : Provider) (chainId : option Z)
  : M ConnectResult :=
  do accounts <- resolveAccounts provider;
  do _ <- subscribe provider;
  do currentChainId <- getChainId;
  do currentChainId <- switchIfRequested chainId currentChainId;
  do _ <- when shimDisconnect storage_setConnected;
  ret {| accounts := accounts; chainId := currentChainId |}.

Definition connect (chainId : option Z) : M ConnectResult :=
  do provider <- getProvider;
  match provider with
  | None => throw ProviderNotFoundError
  | Some provider => try_catch (connect_try provider chainId) connect_catch
  end.

(** ** disconnect *)

Definition disconnect : M unit :=
  do provider <- getProvider;
  match provider with
  | None => throw ProviderNotFoundError
  | Some provider =>
      do _ <- unsubscribe provider;
      when shimDisconnect storage_removeConnected
  end.

(** ** isAuthorized *)

(** [handleEthereum], the closure numbered [h]. *)
Definition handleEthereum (h : nat) : M bool :=
  do win <- gets window;
  do _ <- when (bool_decide (is_Some win)) (modify (removeEventListener h));
  do provider <- getProvider;
  ret (bool_decide (is_Some provider)).

(** [unstable_shimAsyncInject !== undefined && unstable_shimAsyncInject !== false],
    with the timeout chosen at lines 276-279. *)
Definition asyncInject_timeout : option Z :=
  match unstable_shimAsyncInject parameters with
  | None | Some (InjectFlag false) => None
  | Some (InjectFlag true) => Some 1000
  | Some (InjectTimeout ms) => Some ms
  end.

(** [Promise.race] of lines 280-295.  Three closures are made:
    [handleEthereum], the listener [() => resolve(handleEthereum())] that is
    put on the window, and the timer callback.  The listener is not
    [handleEthereum] itself. *)
Definition injectionRace (timeout : Z) : M bool :=
  fun w =>
    let h := closures w in
    let listener := S h in
    match window w with
    | None => handleEthereum h (new_closures 2 w)
    | Some _ =>
        let w1 := addEventListener_once listener (new_closures 3 w) in
        match race env w1 timeout with
        | (InjectionEvent, win) =>
            handleEthereum h (dispatch_initialized (set_window (Some win) w1))
        | (Timeout, win) =>
            handleEthereum h (set_window (Some win) w1)
        end
    end.

(** The [try] of [isAuthorized] (lines 252-302). *)
Definition isAuthorized_try : M bool :=
  do isDisconnected <-
    (if shimDisconnect
     then do item <- storage_getConnected; ret (negb (truthy item))
     else ret false);
  if isDisconnected then ret false
  else
    do provider <- getProvider;
    match provider with
    | None =>
        match asyncInject_timeout with
        | Some timeout =>
            do res <- injectionRace timeout;
            if res then ret true else throw ProviderNotFoundError
        | None => throw ProviderNotFoundError
        end
    | Some _ =>
        do accounts <- getAccounts;
        ret (negb (length accounts =? 0)%nat)
    end.

Definition isAuthorized : M bool :=
  try_catch isAuthorized_try (fun _ => ret false).

(** ** Handlers of provider events *)

Definition onChainChanged (chain : string) : M unit :=
  emit (EmitChangeChain (normalizeChainId imports chain)).

(** [connectInfo] is its [chainId]. *)
Definition onConnect (connectInfo : string) : M unit :=
  do accounts <- getAccounts;
  if (length accounts =? 0)%nat then ret tt
  else
    let chainId := normalizeChainId imports connectInfo in
    do _ <- emit (EmitConnect accounts chainId);
    do provider <- getProvider;
    do _ <- match provider with
            | Some provider => subscribe provider
            | None => ret tt
            end;
    when shimDisconnect storage_setConnected.

Definition onDisconnect (error : option Error) : M unit :=
  do provider <- getProvider;
  do waitForReconnection <-
    match error with
    | Some e =>
        if code_is (error_code e) 1013
        then match provider with
             | Some _ =>
                 do accounts <- getAccounts;
                 ret (negb (length accounts =? 0)%nat)
             | None => ret false
             end
        else ret false
    | None => ret false
    end;
  if (waitForReconnection : bool) then ret tt
  else
    do _ <- emit EmitDisconnect;
    match provider with
    | Some provider => unsubscribe provider
    | None => ret tt
    end.

Definition onAccountsChanged (accounts : list string) : M unit :=
  if (length accounts =? 0)%nat then detached (onDisconnect None)
  else
    do listening <- gets connectListenerCount;
    if negb (listening =? 0)%nat
    then
      do chainId <- getChainId;
      detached (onConnect (numberToString imports chainId))
    else
      do checksummed <- lift (map_getAddress imports accounts);
      emit (EmitChangeAccounts checksummed).

(** ** setup *)

(** Truthiness of [parameters.target]. *)
Definition target_set : bool :=
  match target parameters with
  | Some (TargetId EmptyString) | None => false
  | Some _ => true
  end.

Definition setup : M unit :=
  do provider <- getProvider;
  match provider with
  | Some provider =>
      if target_set
      then
        do h <- bind_this accountsChanged;
        do _ <- on provider accountsChanged h;
        do h <- bind_this connect_;
        on provider connect_ h
      else ret tt
  | None => ret tt
  end.

(** ** The connector as a whole *)

(** The methods of the connector object; a run of the connector is a list of
    them, each called by the application or by a provider event. *)
Inductive Op : Type :=
| OpSetup
| OpConnect (chainId : option Z)
| OpDisconnect
| OpGetAccounts
| OpGetChainId
| OpGetProvider
| OpIsAuthorized
| OpSwitchChain (chainId : Z)
| OpOnAccountsChanged (accounts : list string)
| OpOnChainChanged (chain : string)
| OpOnConnect (connectInfo : string)
| OpOnDisconnect (error : option Error).

Definition forget {A} (m : M A) : M unit := do _ <- m; ret tt.

Definition run (op : Op) : M unit :=
  match op with
  | OpSetup => setup
  | OpConnect chainId => forget (connect chainId)
  | OpDisconnect => disconnect
  | OpGetAccounts => forget getAccounts
  | OpGetChainId => forget getChainId
  | OpGetProvider => forget getProvider
  | OpIsAuthorized => forget isAuthorized
  | OpSwitchChain chainId => forget (switchChain chainId)
  | OpOnAccountsChanged accounts => onAccountsChanged accounts
  | OpOnChainChanged chain => onChainChanged chain
  | OpOnConnect connectInfo => onConnect connectInfo
  | OpOnDisconnect error => onDisconnect error
  end.

(** The world after a run, whatever each call ended in. *)
Fixpoint execute (ops : list Op) (w : World) : World :=
  match ops with
  | [] => w
  | op :: rest => execute rest (fst (run op w))
  end.

End Connector.

End Injected.

Import Injected.

(** [storage?.getItem(key)] read off a world. *)
Definition stored (w : World) (key : string) : option bool :=
  match storage w with
  | Some items => items !! key
  | None => None
  end.

(** ** Sample configurations *)

Module Sample.

(** A stand-in for the checksum of viem.  The empty string is not an
    address.  Without a chain id, and with the chain id 0, the address comes
    back as it is; with another chain id it comes back marked with it, where
    viem gives the checksum of EIP-1191 for that chain. *)
Definition checksum (address : string) (chainId : option Z) : Error + Address :=
  if String.eqb address EmptyString then inl (InvalidAddressError address)
  else match chainId with
       | Some c => if c =? 0 then inr address
                   else inr (address ++ "@" ++ HexString.of_Z c)
       | None => inr address
       end.

(** No sample target starts with a character outside ASCII: the table of
    upper-case forms is not consulted. *)
Definition imports : Imports := {|
  numberToHex := HexString.of_Z;
  numberToString := fun n => NilZero.string_of_int (Z.to_int n);
  normalizeChainId := fun s =>
    if String.prefix "0x" s then HexString.to_Z s
    else match NilZero.int_of_string s with
         | Some n => Z.of_int n
         | None => 0
         end;
  getAddress := checksum;
  upperCase := fun c => c
|}.

Definition ether : NativeCurrency :=
  {| nc_name := "Ether"; symbol := "ETH"; decimals := 18 |}.

Definition mainnet : Chain := {|
  chain_id := 1;
  chain_name := "Ethereum";
  nativeCurrency := ether;
  rpcUrls_public_http := Some ["https://cloudflare-eth.com"];
  blockExplorers := Some
    [ ("etherscan", {| be_name := "Etherscan"; url := "https://etherscan.io" |});
      ("default", {| be_name := "Etherscan"; url := "https://etherscan.io" |}) ]
|}.

Definition polygon : Chain := {|
  chain_id := 137;
  chain_name := "Polygon";
  nativeCurrency := {| nc_name := "MATIC"; symbol := "MATIC"; decimals := 18 |};
  rpcUrls_public_http := Some ["https://polygon-rpc.com"; "https://rpc.ankr.com/polygon"];
  blockExplorers := Some
    [ ("default", {| be_name := "PolygonScan"; url := "https://polygonscan.com" |});
      ("blockscout", {| be_name := "Blockscout"; url := "https://polygon.blockscout.com" |}) ]
|}.

Definition chains : list Chain := [mainnet; polygon].

Definition flags (names : list string) : string -> bool :=
  fun f => existsb (String.eqb f) names.

(** MetaMask itself, [{ isMetaMask: true, _events, _state }]. *)
Definition metaMask : Provider :=
  {| pid := 1; flag := flags ["isMetaMask"]; _events := true; _state := true |}.

Definition rainbow : Provider :=
  {| pid := 2; flag := flags ["isRainbow"]; _events := false; _state := false |}.

Definition window_of (eth : option Ethereum) : Window :=
  {| coinbaseWalletExtension := None; ethereum := eth; phantom := None |}.

Definition single (p : Provider) : Window :=
  window_of (Some {| self := p; providers := None |}).

Definition several (p : Provider) (ps : list Provider) : Window :=
  window_of (Some {| self := p; providers := Some ps |}).

Definition parameters_of (t : option TargetParameter) : InjectedParameters :=
  {| shimDisconnect_ := None; unstable_shimAsyncInject := None; target := t |}.

Definition world_of (win : option Window) (items : option (gmap string bool)) : World :=
  {| window := win; storage := items; emitted := []; connectListenerCount := 0;
     calls := []; windowListeners := []; closures := 0 |}.

(** A wallet that knows chain 1 only, holds one account and approves
    everything except a switch to a chain it does not know, which it rejects
    with code 4902; once a chain has been added it is on that chain. *)
Definition added (h : list Call) : bool :=
  existsb (fun c => match c with
                    | CallRequest _ (wallet_addEthereumChain _) => true
                    | _ => false
                    end) h.

Definition wallet_reply (unrecognized : Error) (h : list Call) (r : Request)
  : Outcome (Reply r) :=
  match r with
  | eth_accounts => Returned ["0xA0Cf798816D4b9b9866b5330EEa46a18382f251e"]
  | eth_requestAccounts => Returned ["0xA0Cf798816D4b9b9866b5330EEa46a18382f251e"]
  | eth_chainId => Returned (if added h then "0x89" else "0x1")
  | wallet_requestPermissions => Threw (ProviderRpc (Some (-32601)) None)
  | wallet_switchEthereumChain c =>
      if String.eqb c "0x1" then Returned tt
      else Threw unrecognized
  | wallet_addEthereumChain _ => Returned tt
  end.

(** No ['change'] event comes, and no wallet is injected later: the timer of
    the injection race fires first. *)
Definition environment_of (unrecognized : Error) : Environment := {|
  reply := fun _ => wallet_reply unrecognized;
  firstChange := fun _ => None;
  race := fun w _ => (Timeout, window_of None)
|}.

Definition wallet : Environment :=
  environment_of (ProviderRpc (Some 4902) None).

(** The same wallet, rejecting an unknown chain with code 4001 and the code
    4902 nested in [data.originalError]. *)
Definition nesting_wallet : Environment :=
  environment_of (ProviderRpc (Some 4001) (Some 4902)).

(** A wallet that rejects every request with [rejection]. *)
Definition rejecting (rejection : Error) : Environment := {|
  reply := fun _ _ _ => Threw rejection;
  firstChange := fun _ => None;
  race := fun w _ => (Timeout, window_of None)
|}.

(** A wallet with no account. *)
Definition locked : Environment := {|
  reply := fun _ h r =>
    match r return Outcome (Reply r) with
    | eth_accounts => Returned []
    | r' => wallet_reply (ProviderRpc (Some 4902) None) h r'
    end;
  firstChange := fun _ => None;
  race := fun w _ => (Timeout, window_of None)
|}.

Definition user_rejected : Error := ProviderRpc (Some 4001) None.

(** The same wallet, where the user declines every switch to another chain. *)
Definition declining : Environment := environment_of user_rejected.

Definition metaMask_parameters : InjectedParameters :=
  parameters_of (Some (TargetId "metaMask")).

Definition rainbow_parameters : InjectedParameters :=
  parameters_of (Some (TargetId "rainbow")).

(** [injected({ shimDisconnect: false, unstable_shimAsyncInject: true })]. *)
Definition async_parameters : InjectedParameters :=
  {| shimDisconnect_ := Some false;
     unstable_shimAsyncInject := Some (InjectFlag true);
     target := None |}.

(** A page with MetaMask, never connected / connected before. *)
Definition fresh : World := world_of (Some (single metaMask)) (Some ∅).

Definition connected : World :=
  world_of (Some (single metaMask)) (Some {[ "metaMask.connected" := true ]}).

(** A page without any wallet, and a run outside the browser. *)
Definition bare : World := world_of (Some (window_of None)) None.

Definition headless : World := world_of None None.

Definition coinbase_parameters : InjectedParameters :=
  parameters_of (Some (TargetId "coinbaseWallet")).

(** A page where the Coinbase extension has its own slot next to MetaMask. *)
Definition with_extension : World :=
  world_of (Some {| coinbaseWalletExtension := Some rainbow;
                    ethereum := Some {| self := metaMask; providers := None |};
                    phantom := None |})
           None.

(** The wallet of [wallet], on a bus where the first ['change'] event carries
    the chain id 1. *)
Definition confirming : Environment := {|
  reply := fun _ => wallet_reply (ProviderRpc (Some 4902) None);
  firstChange := fun _ => Some 1;
  race := fun w _ => (Timeout, window_of None)
|}.

Definition account : string := "0xA0Cf798816D4b9b9866b5330EEa46a18382f251e".

Definition second_account : string := "0x70997970C51812dc3A010C7d01b50e0d17dc79C8".

(** The wallet of [wallet] with two accounts. *)
Definition two_accounts : Environment := {|
  reply := fun _ h r =>
    match r return Outcome (Reply r) with
    | eth_accounts => Returned [account; second_account]
    | eth_requestAccounts => Returned [account; second_account]
    | r' => wallet_reply (ProviderRpc (Some 4902) None) h r'
    end;
  firstChange := fun _ => None;
  race := fun w _ => (Timeout, window_of None)
|}.

(** The wallet of [wallet], where the user dismisses the account selection. *)
Definition dismissing : Environment := {|
  reply := fun _ h r =>
    match r return Outcome (Reply r) with
    | wallet_requestPermissions => Threw user_rejected
    | r' => wallet_reply (ProviderRpc (Some 4902) None) h r'
    end;
  firstChange := fun _ => None;
  race := fun w _ => (Timeout, window_of None)
|}.

(** The wallet of [wallet], refusing to list its accounts before the user
    has been asked. *)
Definition guarded : Environment := {|
  reply := fun _ h r =>
    match r return Outcome (Reply r) with
    | eth_accounts => Threw user_rejected
    | r' => wallet_reply (ProviderRpc (Some 4902) None) h r'
    end;
  firstChange := fun _ => None;
  race := fun w _ => (Timeout, window_of None)
|}.

Definition busy_error : Error := ProviderRpc (Some (-32002)) None.

(** The wallet of [wallet], busy with another request when it is asked for
    its chain. *)
Definition busy : Environment := {|
  reply := fun _ h r =>
    match r return Outcome (Reply r) with
    | eth_chainId => Threw busy_error
    | r' => wallet_reply (ProviderRpc (Some 4902) None) h r'
    end;
  firstChange := fun _ => None;
  race := fun w _ => (Timeout, window_of None)
|}.

(** The two accounts as the stand-in for [getAddress] gives them at the
    positions 0 and 1. *)
Definition two_checksummed : list Address :=
  [account; second_account ++ "@0x1"].

End Sample.

(** ** Vocabulary of the statements *)

(** The same provider object with one more flag set. *)
Definition with_flag (name : string) (p : Provider) : Provider :=
  {| pid := pid p;
     flag := fun f => String.eqb f name || flag p f;
     _events := _events p;
     _state := _state p |}.

(** A window whose [ethereum] lists the sub-providers [ps]. *)
Definition listing (ambient : Provider) (ps : list Provider) : Window :=
  {| coinbaseWalletExtension := None;
     ethereum := Some {| self := ambient; providers := Some ps |};
     phantom := None |}.

(** An outcome that is a thrown [UserRejectedRequestError]. *)
Definition user_rejection {A} (out : Outcome A) : Prop :=
  exists cause, out = Threw (UserRejectedRequestError cause).

(** The entries of [chain.blockExplorers] other than [default], in order. *)
Definition other_explorers (chain : Chain) : list BlockExplorer :=
  map snd (List.filter (fun x => negb (String.eqb (fst x) "default"))
             (default [] (blockExplorers chain))).

Definition default_explorer (chain : Chain) : option BlockExplorer :=
  option_map snd (List.find (fun x => String.eqb (fst x) "default")
                    (default [] (blockExplorers chain))).

(** A call that attaches or detaches a provider listener. *)
Definition listener_call (c : Call) : bool :=
  match c with
  | CallRequest _ _ => false
  | CallOn _ _ _ | CallRemoveListener _ _ _ => true
  end.

(** A computation that never touches the storage. *)
Definition keeps_storage {A} (m : M A) : Prop :=
  forall w, storage (fst (m w)) = storage w.

(** [s'] is [s] after one [setItem(key, true)] / one [removeItem(key)]. *)
Definition item_set (s s' : option (gmap string bool)) : Prop :=
  exists items key, s = Some items /\ s' = Some (<[key := true]> items).

Definition item_removed (s s' : option (gmap string bool)) : Prop :=
  exists items key, s = Some items /\ s' = Some (delete key items).

(** A computation that writes the storage at most once, by a [setItem] of
    [true], and only on its way to returning. *)
Definition sets_on_return {A} (m : M A) : Prop :=
  forall w,
    storage (fst (m w)) = storage w
    \/ (item_set (storage w) (storage (fst (m w)))
        /\ exists a, snd (m w) = Returned a).

(** A computation that changes the storage at most by one [removeItem]. *)
Definition removes_at_most {A} (m : M A) : Prop :=
  forall w,
    storage (fst (m w)) = storage w
    \/ item_removed (storage w) (storage (fst (m w))).

(** The calls after which the shim entry may have appeared. *)
Definition may_set (op : Op) : bool :=
  match op with
  | OpConnect _ | OpOnConnect _ | OpOnAccountsChanged _ => true
  | _ => false
  end.

(** A request of the accounts the wallet already exposes. *)
Definition is_eth_accounts (c : Call) : bool :=
  match c with
  | CallRequest _ eth_accounts => true
  | _ => false
  end.

(** A request that makes the wallet switch to a chain or add one. *)
Definition asks_chain (c : Call) : bool :=
  match c with
  | CallRequest _ (wallet_switchEthereumChain _)
  | CallRequest _ (wallet_addEthereumChain _) => true
  | _ => false
  end.

(** A request that opens the account-selection prompt. *)
Definition asks_permissions (c : Call) : bool :=
  match c with
  | CallRequest _ wallet_requestPermissions => true
  | _ => false
  end.

(** [ys] is [xs] with every address put through [getAddress], called with
    the address and, in the place of [chainId], its position in the list. *)
Definition checksummed_by_position (imports : Imports) (xs : list string)
    (ys : list Address) : Prop :=
  length ys = length xs
  /\ forall (i : nat) (x : string),
       xs !! i = Some x ->
       exists y, ys !! i = Some y
                 /\ getAddress imports x (Some (Z.of_nat i)) = inr y.

(** How an error [e] of the provider is to reach the caller of [connect]: as
    a user rejection when its code is 4001, as a resource-unavailable error
    when its code is -32002, and as it is otherwise. *)
Definition surfaced (e : Error) : Error :=
  if decide (error_code e = Some 4001) then UserRejectedRequestError e
  else if decide (error_code e = Some (-32002)) then ResourceUnavailableRpcError e
  else e.

(** Between the worlds [w] and [w'], and after the calls [before], the
    request [r] was sent to [p], and the wallet rejected it with [error]. *)
Definition rejected_after (env : Environment) (w w' : World)
    (before : list Call) (p : Provider) (r : Request) (error : Error) : Prop :=
  (exists after,
     calls w' = (calls w ++ before ++ CallRequest (pid p) r :: after)%list)
  /\ reply env (pid p) (calls w ++ before) r = Threw error.

Definition is_eth_requestAccounts (c : Call) : bool :=
  match c with
  | CallRequest _ eth_requestAccounts => true
  | _ => false
  end.

Definition is_eth_chainId (c : Call) : bool :=
  match c with
  | CallRequest _ eth_chainId => true
  | _ => false
  end.

(** A computation whose calls to the provider all satisfy [P]. *)
Definition only_calls (P : Call -> bool) {A} (m : M A) : Prop :=
  forall w, exists l,
    calls (fst (m w)) = (calls w ++ l)%list /\ forallb P l = true.

(** A computation that leaves the component [f] of the world alone. *)
Definition keeps_field {B} (f : World -> B) {A} (m : M A) : Prop :=
  forall w, f (fst (m w)) = f w.

(** The numbers of the [bind] results handed to the provider, in order. *)
Definition bound_number (c : Call) : list nat :=
  match c with
  | CallOn _ _ (Bound _ k) | CallRemoveListener _ _ (Bound _ k) => [k]
  | _ => []
  end.

Definition bound_numbers (l : list Call) : list nat := flat_map bound_number l.

(** Every function made by [bind] went to the provider once, and the
    numbers in use are below the next one. *)
Definition well_numbered (w : World) : Prop :=
  NoDup (bound_numbers (calls w))
  /\ Forall (fun k => (k < closures w)%nat) (bound_numbers (calls w)).

(** The methods that the provider's events call. *)
Definition is_handler (op : Op) : bool :=
  match op with
  | OpOnAccountsChanged _ | OpOnChainChanged _ | OpOnConnect _ | OpOnDisconnect _ => true
  | _ => false
  end.

(** A computation that keeps the numbering of [bind] results in order. *)
Definition numbering {A} (m : M A) : Prop :=
  forall w, well_numbered w -> well_numbered (fst (m w)).

(** * Provider locator *)

Lemma existsb_false {A} (f : A -> bool) (l : list A) :
  existsb f l = false <-> (forall x, In x l -> f x = false).
Proof.
  induction l as [|a l IH]; simpl.
  - split; [intros _ x [] | reflexivity].
  - rewrite orb_false_iff, IH. split.
    + intros [Ha Hl] x [<-|Hx]; auto.
    + intros H. split; [apply H; left; reflexivity | intros x Hx; apply H; right; exact Hx].
Qed.

Lemma find_skip {A} (f : A -> bool) (before : list A) (rest : list A) :
  (forall x, In x before -> f x = false) ->
  List.find f (before ++ rest) = List.find f rest.
Proof.
  induction before as [|a before IH]; simpl; intros H; [reflexivity|].
  rewrite (H a) by (left; reflexivity). apply IH. intros x Hx. apply H. right. exact Hx.
Qed.

Lemma metaMask_condition_iff (p : Provider) :
  isMetaMask_condition p = true <->
  flag p "isMetaMask" = true
  /\ (forall f, In f impersonation_flags -> flag p f = false)
  /\ (flag p "isBraveWallet" = true -> _events p = true \/ _state p = true).
Proof.
  unfold isMetaMask_condition. rewrite <- existsb_false.
  destruct (flag p "isMetaMask"), (flag p "isBraveWallet"),
    (_events p), (_state p), (existsb (flag p) impersonation_flags);
    simpl; intuition congruence.
Qed.

Lemma okx_rejected (p : Provider) :
  isMetaMask_condition (with_flag "isOkxWallet" p) = false.
Proof.
  destruct (isMetaMask_condition (with_flag "isOkxWallet" p)) eqn:E; [|reflexivity].
  apply metaMask_condition_iff in E. destruct E as (_ & Himp & _).
  specialize (Himp "isOkxWallet"). simpl in Himp.
  discriminate Himp. tauto.
Qed.

(** C3. The predicate of the metaMask descriptor accepts a provider exactly
    when it has the [isMetaMask] flag, none of the sixteen impersonation
    flags, and, if it has [isBraveWallet], at least one of [_events] and
    [_state].  In particular, such a provider is the one the descriptor
    selects from a provider list in which nothing before it is accepted, and
    the same provider with [isOkxWallet] also set is passed over. *)
Theorem C3_metaMask_predicate (p : Provider) :
  (isMetaMask_condition p = true <->
     flag p "isMetaMask" = true
     /\ (forall f, In f impersonation_flags -> flag p f = false)
     /\ (flag p "isBraveWallet" = true -> _events p = true \/ _state p = true))
  /\ provider metaMask_target = ByFunction metaMask_provider
  /\ (flag p "isMetaMask" = true ->
      (forall f, In f impersonation_flags -> flag p f = false) ->
      (flag p "isBraveWallet" = true -> _events p = true \/ _state p = true) ->
      forall ambient before after,
        (forall q, In q before -> isMetaMask_condition q = false) ->
        metaMask_provider (Some (listing ambient (before ++ p :: after))) = Some p
        /\ metaMask_provider
             (Some (listing ambient (before ++ with_flag "isOkxWallet" p :: after)))
           = List.find isMetaMask_condition after).
Proof.
  split; [apply metaMask_condition_iff|].
  split; [reflexivity|].
  intros Hmm Himp Hbrave ambient before after Hbefore.
  assert (Hp : isMetaMask_condition p = true).
  { apply metaMask_condition_iff. repeat split; assumption. }
  unfold metaMask_provider, findProvider, listing; simpl.
  rewrite !find_skip by assumption. simpl.
  rewrite Hp, okx_rejected. split; reflexivity.
Qed.

(** * The connector *)

Section Properties.

Context (imports : Imports) (env : Environment).
Context (parameters : InjectedParameters) (chains : list Chain).

Local Abbreviation getProvider := (getProvider imports parameters).
Local Abbreviation getWindowProvider := (getWindowProvider imports parameters).
Local Abbreviation getAccounts := (getAccounts imports env parameters).
Local Abbreviation getChainId := (getChainId imports env parameters).
Local Abbreviation switchChain := (switchChain imports env parameters chains).
Local Abbreviation addChain := (addChain imports env parameters).
Local Abbreviation connect := (connect imports env parameters chains).
Local Abbreviation connect_try := (connect_try imports env parameters chains).
Local Abbreviation resolveAccounts := (resolveAccounts imports env parameters).
Local Abbreviation switchIfRequested := (switchIfRequested imports env parameters chains).
Local Abbreviation disconnect := (disconnect imports parameters).
Local Abbreviation isAuthorized := (isAuthorized imports env parameters).
Local Abbreviation isAuthorized_try := (isAuthorized_try imports env parameters).
Local Abbreviation injectionRace := (injectionRace imports env parameters).
Local Abbreviation onConnect := (onConnect imports env parameters).
Local Abbreviation onDisconnect := (onDisconnect imports env parameters).
Local Abbreviation onAccountsChanged := (onAccountsChanged imports env parameters).
Local Abbreviation onChainChanged := (onChainChanged imports).
Local Abbreviation setup := (setup imports parameters).
Local Abbreviation shimDisconnect := (shimDisconnect parameters).
Local Abbreviation run := (run imports env parameters chains).
Local Abbreviation execute := (execute imports env parameters chains).

(** ** Reading the provider changes nothing *)

Lemma getProvider_world (w : World) : fst (getProvider w) = w.
Proof.
  unfold Injected.getProvider, bind, gets, lift, throw, ret.
  destruct (window w); [|reflexivity].
  destruct getWindowProvider as [e|t]; [reflexivity|].
  destruct (provider t); reflexivity.
Qed.

Lemma getProvider_eq (w : World) : getProvider w = (w, snd (getProvider w)).
Proof.
  rewrite <- (getProvider_world w) at 2. apply surjective_pairing.
Qed.

(** A provider is only ever found through a descriptor. *)
Lemma getProvider_found (w : World) (p : Provider) :
  getProvider w = (w, Returned (Some p)) ->
  exists t, getWindowProvider = inr t.
Proof.
  unfold Injected.getProvider, bind, gets, lift, throw, ret.
  destruct (window w); [|discriminate].
  destruct getWindowProvider as [e|t]; [discriminate|]. eauto.
Qed.

Lemma getAccounts_found (w : World) (p : Provider) :
  getProvider w = (w, Returned (Some p)) ->
  getAccounts w =
    match reply env (pid p) (calls w) eth_accounts with
    | Returned accounts =>
        lift (map_getAddress imports accounts)
          (log_call (CallRequest (pid p) eth_accounts) w)
    | Threw e => (log_call (CallRequest (pid p) eth_accounts) w, Threw e)
    | Pending => (log_call (CallRequest (pid p) eth_accounts) w, Pending)
    end.
Proof.
  intros H. unfold Injected.getAccounts, bind. rewrite H.
  unfold request. destruct (reply env (pid p) (calls w) eth_accounts); reflexivity.
Qed.

Lemma getChainId_found (w : World) (p : Provider) :
  getProvider w = (w, Returned (Some p)) ->
  getChainId w =
    (log_call (CallRequest (pid p) eth_chainId) w,
     match reply env (pid p) (calls w) eth_chainId with
     | Returned hexChainId => Returned (normalizeChainId imports hexChainId)
     | Threw e => Threw e
     | Pending => Pending
     end).
Proof.
  intros H. unfold Injected.getChainId, bind. rewrite H.
  unfold request, ret. destruct (reply env (pid p) (calls w) eth_chainId); reflexivity.
Qed.

(** What the locator sees does not depend on the log of calls. *)
Lemma getProvider_log_call (c : Call) (w : World) (out : Outcome (option Provider)) :
  getProvider w = (w, out) ->
  getProvider (log_call c w) = (log_call c w, out).
Proof.
  unfold Injected.getProvider, bind, gets, lift, throw, ret. simpl.
  destruct (window w); [|intros [= <-]; reflexivity].
  destruct getWindowProvider as [e|t]; [intros [= <-]; reflexivity|].
  destruct (provider t); intros [= <-]; reflexivity.
Qed.

(** The locator does not wait for anything. *)
Lemma getProvider_settles (w : World) : snd (getProvider w) <> Pending.
Proof.
  unfold Injected.getProvider, bind, gets, lift, throw, ret.
  destruct (window w); [|discriminate].
  destruct getWindowProvider as [e|t]; [discriminate|].
  destruct (provider t); discriminate.
Qed.

(** ** [map] with a callback that may throw *)

Lemma map_from_length {A C} (g : A -> Z -> Error + C) (i : Z) (xs : list A)
    (ys : list C) :
  map_from g i xs = inr ys -> length ys = length xs.
Proof.
  revert i ys. induction xs as [|x xs IH]; simpl; intros i ys.
  - intros [= <-]. reflexivity.
  - destruct (g x i) as [e|y]; [discriminate|].
    destruct (map_from g (i + 1) xs) as [e|ys'] eqn:E; [discriminate|].
    intros [= <-]. simpl. rewrite (IH _ ys' E). reflexivity.
Qed.

Lemma map_getAddress_length (xs : list string) (ys : list Address) :
  map_getAddress imports xs = inr ys -> length ys = length xs.
Proof. apply map_from_length. Qed.

Lemma map_from_spec {A C} (g : A -> Z -> Error + C) (i : Z) (xs : list A)
    (ys : list C) :
  map_from g i xs = inr ys
  <-> length ys = length xs
      /\ forall (k : nat) (x : A),
           xs !! k = Some x ->
           exists y, ys !! k = Some y /\ g x (i + Z.of_nat k) = inr y.
Proof.
  revert i ys. induction xs as [|x xs IH]; intros i ys; simpl.
  - split.
    + intros [= <-]. split; [reflexivity|]. intros k x H. discriminate H.
    + intros [Hl _]. destruct ys; [reflexivity | discriminate Hl].
  - split.
    + destruct (g x i) as [e|y] eqn:Ex; [discriminate|].
      destruct (map_from g (i + 1) xs) as [e|ys'] eqn:Em; [discriminate|].
      intros [= <-]. apply IH in Em. destruct Em as [Hl Hk].
      split; [simpl; rewrite Hl; reflexivity|].
      intros [|k] x' Hx'; simpl in Hx'.
      * injection Hx' as <-. exists y. split; [reflexivity|].
        rewrite Z.add_0_r. exact Ex.
      * destruct (Hk k x' Hx') as (y' & Hy' & Hg). exists y'. split; [exact Hy'|].
        rewrite <- Hg. f_equal. lia.
    + intros [Hl Hk]. destruct ys as [|y ys']; [discriminate Hl|].
      destruct (Hk 0%nat x eq_refl) as (y0 & Hy0 & Hg).
      simpl in Hy0. injection Hy0 as <-. rewrite Z.add_0_r in Hg. rewrite Hg.
      assert (Em : map_from g (i + 1) xs = inr ys').
      { apply IH. split; [simpl in Hl; lia|].
        intros k x' Hx'. destruct (Hk (S k) x' Hx') as (y' & Hy' & Hg').
        exists y'. split; [exact Hy'|]. rewrite <- Hg'. f_equal. lia. }
      rewrite Em. reflexivity.
Qed.

Lemma map_from_first_failure {A C} (g : A -> Z -> Error + C) (i : Z) (xs : list A)
    (e : Error) :
  map_from g i xs = inl e ->
  exists pre x post,
    xs = (pre ++ x :: post)%list
    /\ g x (i + Z.of_nat (length pre)) = inl e
    /\ forall (k : nat) (x' : A),
         pre !! k = Some x' -> exists y, g x' (i + Z.of_nat k) = inr y.
Proof.
  revert i. induction xs as [|x xs IH]; simpl; intros i; [discriminate|].
  destruct (g x i) as [e'|y] eqn:Ex.
  - intros [= <-]. exists [], x, xs. split; [reflexivity|]. split.
    + simpl. rewrite Z.add_0_r. exact Ex.
    + intros k x' H. discriminate H.
  - destruct (map_from g (i + 1) xs) as [e'|ys] eqn:Em; [|discriminate].
    intros [= <-]. destruct (IH _ Em) as (pre & x0 & post & -> & Hx0 & Hpre).
    exists (x :: pre), x0, post. split; [reflexivity|]. split.
    + rewrite <- Hx0. f_equal. simpl length. lia.
    + intros [|k] x' Hx'; simpl in Hx'.
      * injection Hx' as <-. exists y. rewrite Z.add_0_r. exact Ex.
      * destruct (Hpre k x' Hx') as [y' Hy']. exists y'. rewrite <- Hy'. f_equal. lia.
Qed.

Lemma map_getAddress_spec (xs : list string) (ys : list Address) :
  map_getAddress imports xs = inr ys <-> checksummed_by_position imports xs ys.
Proof.
  unfold map_getAddress, map_throwing, checksummed_by_position.
  rewrite map_from_spec. reflexivity.
Qed.

(** An address refused at its position makes the whole [map] throw. *)
Lemma map_getAddress_refused (xs : list string) (i : nat) (x : string) (e : Error) :
  xs !! i = Some x ->
  getAddress imports x (Some (Z.of_nat i)) = inl e ->
  exists e', map_getAddress imports xs = inl e'.
Proof.
  intros Hx He. destruct (map_getAddress imports xs) as [e'|ys] eqn:Em; [eauto|].
  apply map_getAddress_spec in Em. destruct Em as [_ Hk].
  destruct (Hk i x Hx) as (y & _ & Hy). congruence.
Qed.

(** ** The provider-originated connect handler *)

(** C10. When [onConnect] runs and the provider answers [eth_accounts] with
    an empty list, it returns at once: the only thing it has done is that
    request.  Nothing is emitted on the bus, no provider listener is attached
    or detached, the storage is not written, and the rest of the world is the
    same. *)
Theorem C10_onConnect_without_accounts
    (w : World) (p : Provider) (connectInfo : string) :
  getProvider w = (w, Returned (Some p)) ->
  reply env (pid p) (calls w) eth_accounts = Returned [] ->
  onConnect connectInfo w
    = (log_call (CallRequest (pid p) eth_accounts) w, Returned tt)
  /\ let w' := fst (onConnect connectInfo w) in
     emitted w' = emitted w
     /\ storage w' = storage w
     /\ List.filter listener_call (calls w') = List.filter listener_call (calls w)
     /\ window w' = window w
     /\ windowListeners w' = windowListeners w
     /\ closures w' = closures w.
Proof.
  intros Hp Hr.
  assert (E : onConnect connectInfo w
              = (log_call (CallRequest (pid p) eth_accounts) w, Returned tt)).
  { unfold Injected.onConnect, bind. rewrite (getAccounts_found w p Hp), Hr.
    reflexivity. }
  split; [exact E|]. rewrite E. simpl.
  rewrite List.filter_app. simpl. rewrite app_nil_r. repeat split; reflexivity.
Qed.

(** ** The chain switch protocol *)

Lemma blockExplorerUrls_default (chain : Chain) :
  blockExplorerUrls chain
  = match default_explorer chain with
    | Some d => url d :: map url (other_explorers chain)
    | None => []
    end.
Proof.
  unfold blockExplorerUrls, default_explorer, other_explorers, is_default.
  destruct (List.find _ _) as [[k d]|]; simpl; [|reflexivity].
  rewrite map_map. reflexivity.
Qed.

Lemma code_is_true (x : option Z) (n : Z) : code_is x n = true <-> x = Some n.
Proof.
  destruct x as [c|]; simpl.
  - rewrite Z.eqb_eq. split; congruence.
  - split; discriminate.
Qed.

Lemma code_is_false (x : option Z) (n : Z) : code_is x n = false <-> x <> Some n.
Proof.
  rewrite <- code_is_true. destruct (code_is x n); split; congruence.
Qed.

(** What [switchChain] does once the provider and the chain are there and the
    switch request is rejected. *)
Lemma switchChain_rejected
    (w : World) (provider : Provider) (chain : Chain) (chainId : Z) (error : Error) :
  getProvider w = (w, Returned (Some provider)) ->
  List.find (fun x => chain_id x =? chainId) chains = Some chain ->
  reply env (pid provider) (calls w)
    (wallet_switchEthereumChain (numberToHex imports chainId)) = Threw error ->
  let hexId := numberToHex imports chainId in
  let w1 := log_call (CallRequest (pid provider) (wallet_switchEthereumChain hexId)) w in
  switchChain chainId w
  = if code_is (error_code error) 4902 || code_is (original_code error) 4902
    then addChain provider chain chainId hexId w1
    else if code_is (error_code error) 4001
    then (w1, Threw (UserRejectedRequestError error))
    else (w1, Threw (SwitchChainError error)).
Proof.
  intros Hp Hc Hr. cbv zeta.
  unfold Injected.switchChain, bind. rewrite Hp, Hc.
  unfold try_catch, bind, request. rewrite Hr.
  destruct (code_is (error_code error) 4902 || code_is (original_code error) 4902);
    [reflexivity|].
  destruct (code_is (error_code error) 4001); reflexivity.
Qed.

(** What the add-chain step does once the provider is there. *)
Lemma addChain_found
    (w : World) (provider : Provider) (chain : Chain) (chainId : Z) (hexId : string) :
  getProvider w = (w, Returned (Some provider)) ->
  let params := addEthereumChainParameter chain hexId in
  let w2 := log_call (CallRequest (pid provider) (wallet_addEthereumChain params)) w in
  let w3 := log_call (CallRequest (pid provider) eth_chainId) w2 in
  addChain provider chain chainId hexId w
  = match reply env (pid provider) (calls w) (wallet_addEthereumChain params) with
    | Returned _ =>
        match reply env (pid provider) (calls w2) eth_chainId with
        | Returned hexChainId =>
            (w3, if normalizeChainId imports hexChainId =? chainId
                 then Returned chain
                 else Threw (UserRejectedRequestError
                               (UserRejectedRequestError
                                  (JsError "User rejected switch after adding network."))))
        | Threw e => (w3, Threw (UserRejectedRequestError e))
        | Pending => (w3, Pending)
        end
    | Threw e => (w2, Threw (UserRejectedRequestError e))
    | Pending => (w2, Pending)
    end.
Proof.
  intros Hp params w2 w3.
  assert (Hp2 : getProvider w2 = (w2, Returned (Some provider)))
    by apply getProvider_log_call, Hp.
  unfold Injected.addChain, try_catch, bind, request. fold params. fold w2.
  destruct (reply env (pid provider) (calls w) (wallet_addEthereumChain params))
    as [[]|e|]; cbv beta iota; try reflexivity.
  rewrite (getChainId_found w2 provider Hp2). fold w3.
  destruct (reply env (pid provider) (calls w2) eth_chainId) as [hex|e|];
    cbv beta iota; try reflexivity.
  destruct (normalizeChainId imports hex =? chainId); reflexivity.
Qed.

(** C1. When the chain is in the registry and the switch request is rejected
    with code 4902, as the error's own code or at [data.originalError.code],
    the next call is [wallet_addEthereumChain] with the hex id, the name, the
    native currency, one RPC URL and the block-explorer URLs, the default
    explorer's first and the others' after it.  If the wallet accepts it, the
    chain id is queried again: the chain descriptor is returned when it is
    the requested id; a different id, a failed query or a rejected add-chain
    request all end in a [UserRejectedRequestError]. *)
Theorem C1_switchChain_adds_unrecognized_chain
    (w : World) (provider : Provider) (chain : Chain) (chainId : Z) (error : Error) :
  getProvider w = (w, Returned (Some provider)) ->
  List.find (fun x => chain_id x =? chainId) chains = Some chain ->
  reply env (pid provider) (calls w)
    (wallet_switchEthereumChain (numberToHex imports chainId)) = Threw error ->
  error_code error = Some 4902 \/ original_code error = Some 4902 ->
  let hexId := numberToHex imports chainId in
  let params :=
    {| p_chainId := hexId;
       p_chainName := chain_name chain;
       p_nativeCurrency := nativeCurrency chain;
       p_rpcUrls := [ match rpcUrls_public_http chain with
                      | Some (first :: _) => first
                      | _ => EmptyString
                      end ];
       p_blockExplorerUrls :=
         match default_explorer chain with
         | Some d => url d :: map url (other_explorers chain)
         | None => []
         end |} in
  let switch := CallRequest (pid provider) (wallet_switchEthereumChain hexId) in
  let add := CallRequest (pid provider) (wallet_addEthereumChain params) in
  let requery := CallRequest (pid provider) eth_chainId in
  let w' := fst (switchChain chainId w) in
  let out := snd (switchChain chainId w) in
  match reply env (pid provider) (calls w ++ [switch])%list
          (wallet_addEthereumChain params) with
  | Returned _ =>
      calls w' = (calls w ++ [switch; add; requery])%list
      /\ match reply env (pid provider) (calls w ++ [switch; add])%list eth_chainId with
         | Returned hexChainId =>
             if normalizeChainId imports hexChainId =? chainId
             then out = Returned chain
             else user_rejection out
         | Threw _ => user_rejection out
         | Pending => out = Pending
         end
  | Threw _ => calls w' = (calls w ++ [switch; add])%list /\ user_rejection out
  | Pending => calls w' = (calls w ++ [switch; add])%list /\ out = Pending
  end.
Proof.
  intros Hp Hc Hr Hcode hexId params switch add requery w' out.
  assert (Hcond : code_is (error_code error) 4902
                  || code_is (original_code error) 4902 = true).
  { apply orb_true_iff. rewrite !code_is_true. exact Hcode. }
  pose proof (switchChain_rejected w provider chain chainId error Hp Hc Hr) as E.
  cbv zeta in E. rewrite Hcond in E. fold hexId switch in E.
  assert (Hparams : addEthereumChainParameter chain hexId = params).
  { unfold addEthereumChainParameter, params, rpcUrls.
    rewrite blockExplorerUrls_default. reflexivity. }
  assert (Hp1 : getProvider (log_call switch w)
                = (log_call switch w, Returned (Some provider)))
    by apply getProvider_log_call, Hp.
  rewrite (addChain_found _ provider chain chainId hexId Hp1) in E.
  cbv zeta in E. rewrite Hparams in E. fold add requery in E.
  change (calls (log_call switch w)) with (calls w ++ [switch])%list in E.
  change (calls (log_call add (log_call switch w)))
    with ((calls w ++ [switch]) ++ [add])%list in E.
  rewrite <- app_assoc in E. change ([switch] ++ [add])%list with [switch; add] in E.
  subst w' out. rewrite E. clear E.
  assert (L2 : calls (log_call add (log_call switch w))
               = (calls w ++ [switch; add])%list).
  { unfold log_call; simpl. rewrite <- app_assoc. reflexivity. }
  assert (L3 : calls (log_call requery (log_call add (log_call switch w)))
               = (calls w ++ [switch; add; requery])%list).
  { unfold log_call; simpl. rewrite <- !app_assoc. reflexivity. }
  destruct (reply env (pid provider) (calls w ++ [switch])%list
              (wallet_addEthereumChain params)) as [[]|e|].
  - destruct (reply env (pid provider) (calls w ++ [switch; add])%list eth_chainId)
      as [hex|e|]; cbn [fst snd]; (split; [exact L3|]).
    + destruct (normalizeChainId imports hex =? chainId);
        [reflexivity | eexists; reflexivity].
    + eexists; reflexivity.
    + reflexivity.
  - cbn [fst snd]. split; [exact L2 | eexists; reflexivity].
  - cbn [fst snd]. split; [exact L2 | reflexivity].
Qed.

(** C8, as the code has it.  With a provider resolved, [switchChain] throws
    a [SwitchChainError] around [ChainNotConfiguredError] when the chain is
    not in the registry.  When the switch request is rejected with an error
    that carries 4902 neither as its code nor at [data.originalError.code],
    the code 4001 gives a [UserRejectedRequestError] and every other error is
    wrapped in a [SwitchChainError]. *)
Theorem C8_switchChain_errors (w : World) (provider : Provider) (chainId : Z) :
  getProvider w = (w, Returned (Some provider)) ->
  (List.find (fun x => chain_id x =? chainId) chains = None ->
   switchChain chainId w = (w, Threw (SwitchChainError ChainNotConfiguredError)))
  /\ (forall chain error,
        List.find (fun x => chain_id x =? chainId) chains = Some chain ->
        reply env (pid provider) (calls w)
          (wallet_switchEthereumChain (numberToHex imports chainId)) = Threw error ->
        error_code error <> Some 4902 ->
        original_code error <> Some 4902 ->
        (error_code error = Some 4001 ->
         snd (switchChain chainId w) = Threw (UserRejectedRequestError error))
        /\ (error_code error <> Some 4001 ->
            snd (switchChain chainId w) = Threw (SwitchChainError error))).
Proof.
  intros Hp. split.
  - intros Hc. unfold Injected.switchChain, bind. rewrite Hp, Hc. reflexivity.
  - intros chain error Hc Hr Hown Hnested.
    pose proof (switchChain_rejected w provider chain chainId error Hp Hc Hr) as E.
    cbv zeta in E.
    apply code_is_false in Hown, Hnested. rewrite Hown, Hnested in E.
    cbn [orb] in E. rewrite E. split; intros H4001.
    + apply code_is_true in H4001. rewrite H4001. reflexivity.
    + apply code_is_false in H4001. rewrite H4001. reflexivity.
Qed.

(** ** Who touches the storage *)

Lemma keeps_ret {A} (a : A) : keeps_storage (ret a).
Proof. intros w. reflexivity. Qed.

Lemma keeps_throw {A} (e : Error) : keeps_storage (@throw A e).
Proof. intros w. reflexivity. Qed.

Lemma keeps_gets {A} (f : World -> A) : keeps_storage (gets f).
Proof. intros w. reflexivity. Qed.

Lemma keeps_lift {A} (r : Error + A) : keeps_storage (lift r).
Proof. destruct r; intros w; reflexivity. Qed.

Lemma keeps_modify (f : World -> World) :
  (forall w, storage (f w) = storage w) -> keeps_storage (modify f).
Proof. intros H w. apply H. Qed.

Lemma keeps_bind {A B} (m : M A) (k : A -> M B) :
  keeps_storage m -> (forall a, keeps_storage (k a)) -> keeps_storage (bind m k).
Proof.
  intros Hm Hk w. unfold bind. specialize (Hm w).
  destruct (m w) as [w1 [a|e|]]; simpl in *; try exact Hm.
  rewrite Hk. exact Hm.
Qed.

Lemma keeps_try_catch {A} (m : M A) (h : Error -> M A) :
  keeps_storage m -> (forall e, keeps_storage (h e)) -> keeps_storage (try_catch m h).
Proof.
  intros Hm Hh w. unfold try_catch. specialize (Hm w).
  destruct (m w) as [w1 [a|e|]]; simpl in *; try exact Hm.
  rewrite Hh. exact Hm.
Qed.

Lemma keeps_detached {A} (m : M A) : keeps_storage m -> keeps_storage (detached m).
Proof. intros Hm w. apply Hm. Qed.

Lemma keeps_forget {A} (m : M A) : keeps_storage m -> keeps_storage (forget m).
Proof. intros Hm. apply keeps_bind; [exact Hm | intros; apply keeps_ret]. Qed.

Lemma keeps_when (b : bool) (m : M unit) :
  keeps_storage m -> keeps_storage (when b m).
Proof. intros Hm. destruct b; [exact Hm | apply keeps_ret]. Qed.

Lemma keeps_emit (e : BusEvent) : keeps_storage (emit e).
Proof. intros w. reflexivity. Qed.

Lemma keeps_on (p : Provider) (ev : ProviderEvent) (h : Handler) :
  keeps_storage (on p ev h).
Proof. intros w. reflexivity. Qed.

Lemma keeps_removeListener (p : Provider) (ev : ProviderEvent) (h : Handler) :
  keeps_storage (removeListener p ev h).
Proof. intros w. reflexivity. Qed.

Lemma keeps_bind_this (ev : ProviderEvent) : keeps_storage (bind_this ev).
Proof. intros w. reflexivity. Qed.

Lemma keeps_request (p : Provider) (r : Request) : keeps_storage (request env p r).
Proof. intros w. reflexivity. Qed.

Lemma keeps_change_confirmed (c : Z) : keeps_storage (change_confirmed env c).
Proof.
  intros w. unfold change_confirmed.
  destruct (firstChange env (calls w)) as [c'|]; [destruct (c' =? c)|]; reflexivity.
Qed.

Create HintDb frame discriminated.
#[local] Hint Resolve keeps_ret keeps_throw keeps_gets keeps_lift keeps_emit
  keeps_on keeps_removeListener keeps_bind_this keeps_request
  keeps_change_confirmed : frame.

(** One step of a frame proof: follow the shape of the computation. *)
Ltac frame_step :=
  match goal with
  | |- keeps_storage (bind _ _) => apply keeps_bind; [|intros]
  | |- keeps_storage (try_catch _ _) => apply keeps_try_catch; [|intros]
  | |- keeps_storage (detached _) => apply keeps_detached
  | |- keeps_storage (forget _) => apply keeps_forget
  | |- keeps_storage (when _ _) => apply keeps_when
  | |- keeps_storage (match ?x with _ => _ end) => destruct x
  | |- keeps_storage _ => solve [auto with frame]
  end.

Ltac frame := repeat frame_step.

Lemma keeps_getProvider : keeps_storage getProvider.
Proof. unfold Injected.getProvider. frame. Qed.

Lemma keeps_this_id : keeps_storage (this_id imports parameters).
Proof. unfold this_id. frame. Qed.

#[local] Hint Resolve keeps_getProvider keeps_this_id : frame.

Lemma keeps_storage_getConnected : keeps_storage (storage_getConnected imports parameters).
Proof. unfold storage_getConnected. frame. Qed.

Lemma keeps_getAccounts : keeps_storage getAccounts.
Proof. unfold Injected.getAccounts. frame. Qed.

Lemma keeps_getChainId : keeps_storage getChainId.
Proof. unfold Injected.getChainId. frame. Qed.

#[local] Hint Resolve keeps_storage_getConnected keeps_getAccounts
  keeps_getChainId : frame.

Lemma keeps_addChain (p : Provider) (chain : Chain) (c : Z) (hexId : string) :
  keeps_storage (addChain p chain c hexId).
Proof. unfold Injected.addChain. frame. Qed.

#[local] Hint Resolve keeps_addChain : frame.

Lemma keeps_switchChain (c : Z) : keeps_storage (switchChain c).
Proof. unfold Injected.switchChain. frame. Qed.

#[local] Hint Resolve keeps_switchChain : frame.

Lemma keeps_selectAccounts (p : Provider) (a : option (list Address)) :
  keeps_storage (selectAccounts imports env p a).
Proof. unfold selectAccounts. frame. Qed.

#[local] Hint Resolve keeps_selectAccounts : frame.

Lemma keeps_resolveAccounts (p : Provider) : keeps_storage (resolveAccounts p).
Proof. unfold Injected.resolveAccounts. frame. Qed.

Lemma keeps_subscribe (p : Provider) : keeps_storage (subscribe p).
Proof. unfold subscribe. frame. Qed.

Lemma keeps_unsubscribe (p : Provider) : keeps_storage (unsubscribe p).
Proof. unfold unsubscribe. frame. Qed.

Lemma keeps_switchIfRequested (c : option Z) (current : Z) :
  keeps_storage (switchIfRequested c current).
Proof. unfold Injected.switchIfRequested. frame. Qed.

#[local] Hint Resolve keeps_resolveAccounts keeps_subscribe keeps_unsubscribe
  keeps_switchIfRequested : frame.

Lemma keeps_handleEthereum (h : nat) : keeps_storage (handleEthereum imports parameters h).
Proof.
  unfold handleEthereum. frame. apply keeps_modify. reflexivity.
Qed.

Lemma keeps_injectionRace (timeout : Z) : keeps_storage (injectionRace timeout).
Proof.
  intros w. unfold Injected.injectionRace.
  destruct (window w).
  - destruct (race env _ timeout) as [[] win]; rewrite keeps_handleEthereum; reflexivity.
  - rewrite keeps_handleEthereum. reflexivity.
Qed.

#[local] Hint Resolve keeps_handleEthereum keeps_injectionRace : frame.

Lemma keeps_isAuthorized : keeps_storage isAuthorized.
Proof. unfold Injected.isAuthorized, Injected.isAuthorized_try. frame. Qed.

Lemma keeps_onChainChanged (chain : string) : keeps_storage (onChainChanged chain).
Proof. unfold Injected.onChainChanged. frame. Qed.

Lemma keeps_onDisconnect (error : option Error) : keeps_storage (onDisconnect error).
Proof. unfold Injected.onDisconnect. frame. Qed.

Lemma keeps_setup : keeps_storage setup.
Proof. unfold Injected.setup. frame. Qed.

Lemma sets_of_keeps {A} (m : M A) : keeps_storage m -> sets_on_return m.
Proof. intros H w. left. apply H. Qed.

Lemma sets_bind {A B} (m : M A) (k : A -> M B) :
  keeps_storage m -> (forall a, sets_on_return (k a)) -> sets_on_return (bind m k).
Proof.
  intros Hm Hk w. unfold bind. specialize (Hm w).
  destruct (m w) as [w1 [a|e|]]; simpl in *; try (left; exact Hm).
  specialize (Hk a w1). rewrite Hm in Hk. exact Hk.
Qed.

(** A handler that only throws again cannot add a write. *)
Lemma sets_try_rethrow {A} (m : M A) (h : Error -> M A) :
  sets_on_return m ->
  (forall e w, exists e', h e w = (w, Threw e')) ->
  sets_on_return (try_catch m h).
Proof.
  intros Hm Hh w. unfold try_catch. specialize (Hm w).
  destruct (m w) as [w1 [a|e|]]; simpl in *; try exact Hm.
  destruct (Hh e w1) as [e' ->]. simpl.
  destruct Hm as [Hm|[_ [a Ha]]]; [left; exact Hm | discriminate Ha].
Qed.

Lemma sets_storage_setConnected :
  sets_on_return (when shimDisconnect (storage_setConnected imports parameters)).
Proof.
  destruct shimDisconnect; simpl; [|apply sets_of_keeps, keeps_ret].
  intros w. unfold storage_setConnected, bind, gets, this_id, lift, throw, ret, modify.
  destruct (storage w) as [items|] eqn:Es; simpl; [|left; exact Es].
  destruct getWindowProvider as [e|t]; simpl; [left; exact Es|].
  right. split; [|eexists; reflexivity].
  exists items, (id t ++ ".connected"). split; reflexivity.
Qed.

Lemma sets_connect_try (p : Provider) (c : option Z) :
  sets_on_return (connect_try p c).
Proof.
  unfold Injected.connect_try.
  repeat (apply sets_bind; [solve [auto with frame] | intros]).
  intros w. destruct (sets_storage_setConnected w) as [H|[H [[] Hr]]].
  - left. unfold bind. destruct (when _ _ w) as [w1 [[]|e|]]; exact H.
  - right. unfold bind. rewrite (surjective_pairing (when _ _ w)), Hr. simpl.
    split; [exact H | eexists; reflexivity].
Qed.

Lemma connect_catch_throws {A} (e : Error) (w : World) :
  exists e', @connect_catch A e w = (w, Threw e').
Proof.
  unfold connect_catch.
  destruct (code_is (error_code e) 4001); [eexists; reflexivity|].
  destruct (code_is (error_code e) (-32002)); eexists; reflexivity.
Qed.

Lemma sets_connect (c : option Z) : sets_on_return (connect c).
Proof.
  unfold Injected.connect. apply sets_bind; [solve [auto with frame]|].
  intros [p|]; [|apply sets_of_keeps, keeps_throw].
  apply sets_try_rethrow; [apply sets_connect_try | apply @connect_catch_throws].
Qed.

Lemma sets_onConnect (connectInfo : string) : sets_on_return (onConnect connectInfo).
Proof.
  unfold Injected.onConnect. apply sets_bind; [solve [auto with frame]|]. intros accounts.
  destruct (length accounts =? 0)%nat; [apply sets_of_keeps, keeps_ret|].
  apply sets_bind; [solve [auto with frame]|]. intros _.
  apply sets_bind; [solve [auto with frame]|]. intros provider.
  apply sets_bind; [destruct provider; auto with frame|]. intros _.
  apply sets_storage_setConnected.
Qed.

Lemma sets_detached {A} (m : M A) : sets_on_return m -> sets_on_return (detached m).
Proof.
  intros Hm w. destruct (Hm w) as [H|[H _]]; [left; exact H|].
  right. split; [exact H | eexists; reflexivity].
Qed.

Lemma sets_onAccountsChanged (accounts : list string) :
  sets_on_return (onAccountsChanged accounts).
Proof.
  unfold Injected.onAccountsChanged.
  destruct (length accounts =? 0)%nat.
  - apply sets_of_keeps, keeps_detached, keeps_onDisconnect.
  - apply sets_bind; [solve [auto with frame]|]. intros listening.
    destruct (negb (listening =? 0)%nat).
    + apply sets_bind; [solve [auto with frame]|]. intros chainId.
      apply sets_detached, sets_onConnect.
    + apply sets_of_keeps. frame.
Qed.

(** Without a listener on the bus, or without accounts, the accounts handler
    does not reach [onConnect]. *)
Lemma keeps_onAccountsChanged_idle (accounts : list string) (w : World) :
  accounts = [] \/ connectListenerCount w = 0%nat ->
  storage (fst (onAccountsChanged accounts w)) = storage w.
Proof.
  intros H. unfold Injected.onAccountsChanged.
  destruct (length accounts =? 0)%nat eqn:El.
  - apply keeps_detached, keeps_onDisconnect.
  - destruct H as [->|H]; [discriminate El|].
    unfold bind at 1, gets. rewrite H. simpl.
    assert (K : keeps_storage
                  (do checksummed <- lift (map_getAddress imports accounts);
                   emit (EmitChangeAccounts checksummed))) by frame.
    apply K.
Qed.

Lemma removes_disconnect : removes_at_most disconnect.
Proof.
  intros w. unfold Injected.disconnect, bind.
  rewrite (getProvider_eq w). destruct (snd (getProvider w)) as [[p|]|e|];
    simpl; try (left; reflexivity).
  destruct shimDisconnect; simpl; [|left; reflexivity].
  unfold storage_removeConnected, bind, gets, this_id, lift, throw, ret, modify.
  simpl.
  destruct (storage w) as [items|] eqn:Es; simpl; [|left; congruence].
  destruct getWindowProvider as [e|t]; simpl; [left; congruence|].
  right. exists items, (id t ++ ".connected"). split; congruence.
Qed.

Lemma forget_fst {A} (m : M A) (w : World) : fst (forget m w) = fst (m w).
Proof. unfold forget, bind, ret. destruct (m w) as [w1 [a|e|]]; reflexivity. Qed.

Lemma stored_same (w w' : World) (key : string) :
  storage w' = storage w -> stored w' key = stored w key.
Proof. unfold stored. intros ->. reflexivity. Qed.

Lemma stored_item_set (w w' : World) (key : string) :
  item_set (storage w) (storage w') ->
  stored w' key = stored w key \/ stored w' key = Some true.
Proof.
  intros (items & k & Hs & Hs'). unfold stored. rewrite Hs, Hs'.
  destruct (decide (k = key)) as [->|Hne].
  - right. apply lookup_insert_eq.
  - left. apply lookup_insert_ne, Hne.
Qed.

Lemma stored_item_removed (w w' : World) (key : string) :
  item_removed (storage w) (storage w') ->
  stored w' key = stored w key \/ stored w' key = None.
Proof.
  intros (items & k & Hs & Hs'). unfold stored. rewrite Hs, Hs'.
  destruct (decide (k = key)) as [->|Hne].
  - right. apply lookup_delete_eq.
  - left. apply lookup_delete_ne, Hne.
Qed.

(** The three ways a call can leave the storage. *)
Lemma run_storage (op : Op) (w : World) :
  let w' := fst (run op w) in
  storage w' = storage w
  \/ (item_set (storage w) (storage w')
      /\ ((exists c r, op = OpConnect c /\ snd (connect c w) = Returned r)
          \/ (exists connectInfo, op = OpOnConnect connectInfo)
          \/ (exists accounts, op = OpOnAccountsChanged accounts
                /\ accounts <> [] /\ connectListenerCount w <> 0%nat)))
  \/ (item_removed (storage w) (storage w') /\ op = OpDisconnect).
Proof.
  intros w'. subst w'.
  destruct op as [|c| | | | | |c|accts|chain|connectInfo|error];
    cbn [Injected.run];
    try rewrite forget_fst;
    try (left; first [ apply keeps_setup | apply keeps_getAccounts
                     | apply keeps_getChainId | apply keeps_getProvider
                     | apply keeps_isAuthorized | apply keeps_switchChain
                     | apply keeps_onChainChanged | apply keeps_onDisconnect ]).
  - destruct (sets_connect c w) as [H|[H [r Hr]]]; [left; exact H|].
    right; left. split; [exact H|]. left. eauto.
  - destruct (removes_disconnect w) as [H|H]; [left; exact H|].
    right; right. split; [exact H | reflexivity].
  - destruct accts as [|a accts].
    { left. apply keeps_onAccountsChanged_idle. left. reflexivity. }
    destruct (connectListenerCount w) as [|n] eqn:En.
    { left. apply keeps_onAccountsChanged_idle. right. exact En. }
    destruct (sets_onAccountsChanged (a :: accts) w) as [H|[H _]]; [left; exact H|].
    right; left. split; [exact H|]. right; right.
    exists (a :: accts). repeat split; discriminate.
  - destruct (sets_onConnect connectInfo w) as [H|[H _]]; [left; exact H|].
    right; left. split; [exact H|]. right; left. eauto.
Qed.

Lemma run_may_set (op : Op) (w : World) (key : string) :
  stored w key = None -> stored (fst (run op w)) key <> None -> may_set op = true.
Proof.
  intros H0 H1. destruct (run_storage op w) as [H|[[H Hop]|[H ->]]].
  - rewrite (stored_same _ _ key H) in H1. contradiction.
  - destruct Hop as [(c & r & -> & _)|[(ci & ->)|(a & -> & _)]]; reflexivity.
  - destruct (stored_item_removed _ _ key H) as [E|E]; rewrite E in H1; contradiction.
Qed.

Lemma run_removed (op : Op) (w : World) (key : string) :
  stored w key <> None -> stored (fst (run op w)) key = None -> op = OpDisconnect.
Proof.
  intros H0 H1. destruct (run_storage op w) as [H|[[H _]|[_ E]]]; [| |exact E].
  - rewrite (stored_same _ _ key H) in H1. contradiction.
  - destruct (stored_item_set _ _ key H) as [E|E]; rewrite E in H1;
      [contradiction | discriminate].
Qed.

Lemma execute_removed (ops : list Op) (w : World) (key : string) :
  stored w key <> None -> stored (execute ops w) key = None -> In OpDisconnect ops.
Proof.
  revert w. induction ops as [|op ops IH]; simpl; intros w H0 H1; [contradiction|].
  destruct (stored (fst (run op w)) key) eqn:E.
  - right. apply (IH (fst (run op w))); [rewrite E; discriminate | exact H1].
  - left. apply (run_removed op w key H0 E).
Qed.

Lemma execute_set (ops : list Op) (w : World) (key : string) :
  stored w key = None -> stored (execute ops w) key <> None ->
  exists op, In op ops /\ may_set op = true.
Proof.
  revert w. induction ops as [|op ops IH]; simpl; intros w H0 H1; [contradiction|].
  destruct (stored (fst (run op w)) key) eqn:E.
  - exists op. split; [left; reflexivity|].
    apply (run_may_set op w key H0). rewrite E. discriminate.
  - destruct (IH (fst (run op w)) E H1) as (op' & Hin & Hop).
    exists op'. split; [right; exact Hin | exact Hop].
Qed.

(** C6. Whatever the parameters, a call of the connector changes a storage
    entry in two ways only.  An entry appears or changes, to [true], only in
    a [connect] that returns, in [onConnect], or in [onAccountsChanged] on
    its way through [onConnect] (accounts present and a listener for
    ['connect'] on the bus).  An entry disappears only in [disconnect].  The
    handler of the provider's disconnect event leaves the storage as it is.
    Over a whole run: an entry that is gone had a [disconnect] in the run, and
    an entry that has appeared had one of the three calls above. *)
Theorem C6_shim_entry_writers (op : Op) (w : World) (key : string) :
  let w' := fst (run op w) in
  (stored w' key <> stored w key -> stored w' key <> None ->
   stored w' key = Some true
   /\ ((exists c r, op = OpConnect c /\ snd (connect c w) = Returned r)
       \/ (exists connectInfo, op = OpOnConnect connectInfo)
       \/ (exists accounts, op = OpOnAccountsChanged accounts
             /\ accounts <> [] /\ connectListenerCount w <> 0%nat)))
  /\ (stored w key <> None -> stored w' key = None -> op = OpDisconnect)
  /\ (forall error, op = OpOnDisconnect error -> storage w' = storage w)
  /\ (forall ops, stored w key <> None -> stored (execute ops w) key = None ->
      In OpDisconnect ops)
  /\ (forall ops, stored w key = None -> stored (execute ops w) key <> None ->
      exists op', In op' ops /\ may_set op' = true).
Proof.
  intros w'. subst w'. split; [|split; [|split; [|split]]].
  - intros Hne Hsome. destruct (run_storage op w) as [H|[[H Hop]|[H _]]].
    + rewrite (stored_same _ _ key H) in Hne. contradiction.
    + split; [|exact Hop].
      destruct (stored_item_set _ _ key H) as [E|E]; [contradiction | exact E].
    + destruct (stored_item_removed _ _ key H) as [E|E]; contradiction.
  - apply run_removed.
  - intros error ->. apply keeps_onDisconnect.
  - intros ops. apply execute_removed.
  - intros ops. apply execute_set.
Qed.

(** ** connect *)

Lemma storage_setConnected_returns (w : World) (t : Target) :
  getWindowProvider = inr t ->
  exists w', when shimDisconnect (storage_setConnected imports parameters) w = (w', Returned tt).
Proof.
  intros Ht. destruct shimDisconnect; simpl; [|eexists; reflexivity].
  unfold storage_setConnected, bind, gets, this_id, lift, ret, modify.
  destruct (storage w); simpl; [|eexists; reflexivity].
  rewrite Ht. simpl. eexists; reflexivity.
Qed.

(** C7. Take a [connect] that has its accounts, has attached its listeners
    and has read the current chain id.  If a chain id was asked for, differs
    from the current one, and [switchChain] throws, whatever the error,
    [connect] returns, with the accounts and the chain id read before the
    switch. *)
Theorem C7_connect_survives_switch_failure
    (w w1 w2 w3 w4 : World) (provider : Provider) (accts : list Address)
    (current requestedId : Z) (error : Error) :
  getProvider w = (w, Returned (Some provider)) ->
  resolveAccounts provider w = (w1, Returned accts) ->
  subscribe provider w1 = (w2, Returned tt) ->
  getChainId w2 = (w3, Returned current) ->
  requestedId <> 0 ->
  requestedId <> current ->
  switchChain requestedId w3 = (w4, Threw error) ->
  exists w5,
    connect (Some requestedId) w
    = (w5, Returned {| accounts := accts; chainId := current |}).
Proof.
  intros Hp Ha Hs Hc Hnz Hne Hsw.
  destruct (getProvider_found w provider Hp) as [t Ht].
  destruct (storage_setConnected_returns w4 t Ht) as [w5 H5].
  exists w5.
  unfold Injected.connect, bind. rewrite Hp.
  unfold try_catch, Injected.connect_try, bind. rewrite Ha, Hs, Hc.
  unfold Injected.switchIfRequested, requested.
  apply Z.eqb_neq in Hnz. rewrite Hnz.
  assert (Hne' : (current =? requestedId) = false) by (apply Z.eqb_neq; congruence).
  rewrite Hne'. cbn [negb].
  unfold try_catch, bind. rewrite Hsw. unfold ret at 1. rewrite H5. reflexivity.
Qed.

(** ** isAuthorized *)

(** The first statement of [isAuthorized] and of the body of [connect]. *)
Lemma read_shim (w : World) (t : Target) :
  getWindowProvider = inr t ->
  (if shimDisconnect
   then do item <- storage_getConnected imports parameters; ret (negb (truthy item))
   else ret false) w
  = (w, Returned (shimDisconnect
                  && negb (truthy (stored w (id t ++ ".connected"))))).
Proof.
  intros Ht. destruct shimDisconnect; [|reflexivity].
  unfold storage_getConnected, bind, gets, this_id, lift, ret, stored.
  destruct (storage w); simpl; [|reflexivity].
  rewrite Ht. reflexivity.
Qed.

Lemma isAuthorized_disconnected (w : World) :
  shimDisconnect = true ->
  (forall t, getWindowProvider = inr t ->
             truthy (stored w (id t ++ ".connected")) = false) ->
  isAuthorized w = (w, Returned false).
Proof.
  intros Hshim Hflag.
  unfold Injected.isAuthorized, try_catch, Injected.isAuthorized_try, bind.
  rewrite Hshim.
  unfold storage_getConnected, bind, gets, this_id, lift, throw, ret.
  specialize Hflag. unfold stored in Hflag.
  destruct (storage w) as [items|]; simpl; [|reflexivity].
  destruct getWindowProvider as [e|t]; simpl; [reflexivity|].
  rewrite (Hflag t eq_refl). reflexivity.
Qed.

Lemma disconnect_returned (w w' : World) :
  shimDisconnect = true ->
  disconnect w = (w', Returned tt) ->
  forall t, getWindowProvider = inr t -> stored w' (id t ++ ".connected") = None.
Proof.
  intros Hshim Hd t Ht. revert Hd.
  unfold Injected.disconnect, bind. rewrite (getProvider_eq w).
  destruct (snd (getProvider w)) as [[p|]|e|]; simpl; try discriminate.
  rewrite Hshim. simpl.
  unfold storage_removeConnected, bind, gets, this_id, lift, throw, ret, modify, stored.
  simpl. destruct (storage w) as [items|] eqn:Es; simpl.
  - rewrite Ht. simpl. intros [= <-]. simpl. apply lookup_delete_eq.
  - intros [= <-]. simpl. rewrite Es. reflexivity.
Qed.

(** The shim is read first, and the read changes nothing: either it settles
    the answer, [false], or the rest of the body runs in the same world. *)
Lemma isAuthorized_cases (w : World) :
  isAuthorized w = (w, Returned false)
  \/ isAuthorized w
     = try_catch
         (do provider <- getProvider;
          match provider with
          | None =>
              match asyncInject_timeout parameters with
              | Some timeout =>
                  do res <- injectionRace timeout;
                  if res then ret true else throw ProviderNotFoundError
              | None => throw ProviderNotFoundError
              end
          | Some _ =>
              do accounts <- getAccounts;
              ret (negb (length accounts =? 0)%nat)
          end)
         (fun _ => ret false) w.
Proof.
  destruct getWindowProvider as [e|t] eqn:Et.
  - destruct shimDisconnect eqn:Es.
    + left. unfold Injected.isAuthorized, try_catch, Injected.isAuthorized_try.
      unfold storage_getConnected, this_id, bind, gets, lift, throw, ret.
      rewrite Es, Et. destruct (storage w); reflexivity.
    + right. unfold Injected.isAuthorized, try_catch, Injected.isAuthorized_try.
      unfold bind at 1. rewrite Es. reflexivity.
  - assert (E : forall rest : M bool,
               bind (if shimDisconnect
                     then do item <- storage_getConnected imports parameters;
                          ret (negb (truthy item))
                     else ret false)
                    (fun isDisconnected : bool =>
                       if isDisconnected then ret false else rest) w
               = (if shimDisconnect
                     && negb (truthy (stored w (id t ++ ".connected")))
                  then ret false else rest) w).
    { intros rest. unfold bind at 1. rewrite (read_shim w t Et). reflexivity. }
    unfold Injected.isAuthorized, Injected.isAuthorized_try.
    unfold try_catch at 1 2. rewrite E.
    destruct (shimDisconnect && _); [left | right]; reflexivity.
Qed.

(** [handleEthereum] settles, and says [true] only with a provider in hand,
    which takes a descriptor. *)
Lemma handleEthereum_outcome (h : nat) (w : World) :
  snd (handleEthereum imports parameters h w) <> Pending
  /\ (snd (handleEthereum imports parameters h w) = Returned true ->
      exists t, getWindowProvider = inr t).
Proof.
  assert (E : exists w1,
             handleEthereum imports parameters h w
             = (w1, match snd (getProvider w1) with
                    | Returned a => Returned (bool_decide (is_Some a))
                    | Threw e => Threw e
                    | Pending => Pending
                    end)).
  { unfold handleEthereum, bind, gets, when, modify, ret.
    destruct (bool_decide (is_Some (window w))).
    - exists (removeEventListener h w).
      rewrite (getProvider_eq (removeEventListener h w)).
      destruct (snd (getProvider _)); reflexivity.
    - exists w. rewrite (getProvider_eq w) at 1.
      destruct (snd (getProvider w)); reflexivity. }
  destruct E as [w1 ->]. cbn [snd].
  pose proof (getProvider_settles w1) as Hs.
  destruct (snd (getProvider w1)) as [[q|]|e|] eqn:Eq.
  - split; [discriminate|]. intros _.
    apply (getProvider_found w1 q). rewrite (getProvider_eq w1), Eq. reflexivity.
  - split; discriminate.
  - split; discriminate.
  - contradiction.
Qed.

Lemma injectionRace_outcome (timeout : Z) (w : World) :
  snd (injectionRace timeout w) <> Pending
  /\ (snd (injectionRace timeout w) = Returned true ->
      exists t, getWindowProvider = inr t).
Proof.
  unfold Injected.injectionRace. destruct (window w).
  - destruct (race env _ timeout) as [[] win]; apply handleEthereum_outcome.
  - apply handleEthereum_outcome.
Qed.

(** The three ways [isAuthorized] ends. *)
Lemma isAuthorized_outcome (w : World) :
  snd (isAuthorized w) = Returned false
  \/ (exists p,
        getProvider w = (w, Returned (Some p))
        /\ snd (isAuthorized w)
           = match reply env (pid p) (calls w) eth_accounts with
             | Returned accts =>
                 match map_getAddress imports accts with
                 | inr checksummed => Returned (negb (length checksummed =? 0)%nat)
                 | inl _ => Returned false
                 end
             | Threw _ => Returned false
             | Pending => Pending
             end)
  \/ (getProvider w = (w, Returned None)
      /\ snd (isAuthorized w) = Returned true
      /\ exists timeout,
           asyncInject_timeout parameters = Some timeout
           /\ snd (injectionRace timeout w) = Returned true).
Proof.
  destruct (isAuthorized_cases w) as [E|E]; rewrite E; [left; reflexivity|].
  unfold try_catch, bind. pose proof (getProvider_eq w) as Hp.
  destruct (snd (getProvider w)) as [[p|]|e|] eqn:Eo.
  - right; left. exists p. split; [exact Hp|].
    rewrite Hp, (getAccounts_found w p Hp).
    destruct (reply env (pid p) (calls w) eth_accounts) as [accts|e|]; try reflexivity.
    unfold lift. destruct (map_getAddress imports accts); reflexivity.
  - rewrite Hp.
    destruct (asyncInject_timeout parameters) as [timeout|]; [|left; reflexivity].
    pose proof (proj1 (injectionRace_outcome timeout w)) as Hs.
    destruct (injectionRace timeout w) as [w1 [[]|e|]] eqn:Er; simpl in *.
    + right; right. split; [reflexivity|]. split; [reflexivity|].
      exists timeout. split; [reflexivity | rewrite Er; reflexivity].
    + left. reflexivity.
    + left. reflexivity.
    + contradiction.
  - rewrite Hp. left. reflexivity.
  - exfalso. exact (getProvider_settles w Eo).
Qed.

(** C5. [isAuthorized] does not throw.  It returns [false]
    - when the shim is on and the entry ["<id>.connected"] is missing from
      the storage (or there is no storage);
    - when the provider answers [eth_accounts] with no account;
    - when a step of its body throws: the provider rejects [eth_accounts],
      whatever the error; [getAddress] refuses one of the accounts; the
      descriptor or the provider lookup throws; no provider is found and the
      injection race is off, or does not find one either.
    It returns [true] in two cases only: the provider found answered
    [eth_accounts] with at least one account and [getAddress] accepted all of
    them, or no provider was found and the injection race found one.  After a
    [disconnect] that returned, with the shim on, [isAuthorized] returns
    [false] whatever the wallet would answer. *)
Theorem C5_isAuthorized_false (w : World) :
  (forall error, snd (isAuthorized w) <> Threw error)
  /\ (shimDisconnect = true ->
      (forall t, getWindowProvider = inr t ->
                 truthy (stored w (id t ++ ".connected")) = false) ->
      isAuthorized w = (w, Returned false))
  /\ (forall p,
        getProvider w = (w, Returned (Some p)) ->
        reply env (pid p) (calls w) eth_accounts = Returned [] ->
        snd (isAuthorized w) = Returned false)
  /\ (forall p error,
        getProvider w = (w, Returned (Some p)) ->
        reply env (pid p) (calls w) eth_accounts = Threw error ->
        snd (isAuthorized w) = Returned false)
  /\ (forall p accts (i : nat) x error,
        getProvider w = (w, Returned (Some p)) ->
        reply env (pid p) (calls w) eth_accounts = Returned accts ->
        accts !! i = Some x ->
        getAddress imports x (Some (Z.of_nat i)) = inl error ->
        snd (isAuthorized w) = Returned false)
  /\ (forall error,
        getWindowProvider = inl error \/ getProvider w = (w, Threw error) ->
        snd (isAuthorized w) = Returned false)
  /\ (getProvider w = (w, Returned None) ->
      match asyncInject_timeout parameters with
      | Some timeout => snd (injectionRace timeout w) <> Returned true
      | None => True
      end ->
      snd (isAuthorized w) = Returned false)
  /\ (snd (isAuthorized w) = Returned true ->
      (exists p accts checksummed,
         getProvider w = (w, Returned (Some p))
         /\ reply env (pid p) (calls w) eth_accounts = Returned accts
         /\ accts <> []
         /\ checksummed_by_position imports accts checksummed)
      \/ (getProvider w = (w, Returned None)
          /\ exists timeout,
               asyncInject_timeout parameters = Some timeout
               /\ snd (injectionRace timeout w) = Returned true))
  /\ (shimDisconnect = true ->
      forall w', disconnect w = (w', Returned tt) ->
                 isAuthorized w' = (w', Returned false)).
Proof.
  pose proof (isAuthorized_outcome w) as Hout.
  split; [|split; [|split; [|split; [|split; [|split; [|split; [|split]]]]]]].
  - intros error. unfold Injected.isAuthorized, try_catch.
    destruct (isAuthorized_try w) as [w1 [b|e|]]; discriminate.
  - apply isAuthorized_disconnected.
  - intros p Hp Hr. destruct Hout as [E|[(q & Hq & E)|(Hq & _)]];
      [exact E | | congruence].
    assert (q = p) as -> by congruence. rewrite E, Hr. reflexivity.
  - intros p error Hp Hr. destruct Hout as [E|[(q & Hq & E)|(Hq & _)]];
      [exact E | | congruence].
    assert (q = p) as -> by congruence. rewrite E, Hr. reflexivity.
  - intros p accts i x error Hp Hr Hx He.
    destruct Hout as [E|[(q & Hq & E)|(Hq & _)]]; [exact E | | congruence].
    assert (q = p) as -> by congruence. rewrite E, Hr.
    destruct (map_getAddress_refused accts i x error Hx He) as [e' ->]. reflexivity.
  - intros error H.
    destruct Hout as [E|[(q & Hq & E)|(Hq & _ & timeout & _ & Hr)]]; [exact E | |].
    + exfalso. destruct H as [H|H]; [|congruence].
      destruct (getProvider_found w q Hq) as [t Ht]. congruence.
    + exfalso. destruct H as [H|H]; [|congruence].
      destruct (proj2 (injectionRace_outcome timeout w) Hr) as [t Ht]. congruence.
  - intros Hp Hrace.
    destruct Hout as [E|[(q & Hq & E)|(_ & _ & timeout & Ht & Hr)]];
      [exact E | congruence |].
    rewrite Ht in Hrace. contradiction.
  - intros Htrue.
    destruct Hout as [E|[(p & Hp & E)|(Hp & _ & timeout & Ht & Hr)]].
    + congruence.
    + left. rewrite E in Htrue.
      destruct (reply env (pid p) (calls w) eth_accounts) as [accts|e|] eqn:Hr;
        try discriminate.
      destruct (map_getAddress imports accts) as [e|checksummed] eqn:Hm;
        try discriminate.
      exists p, accts, checksummed. split; [exact Hp|]. split; [exact Hr|].
      split; [|apply map_getAddress_spec, Hm].
      intros ->. cbv in Hm. injection Hm as <-. discriminate Htrue.
    + right. split; [exact Hp|]. exists timeout. split; assumption.
  - intros Hshim w' Hd. apply isAuthorized_disconnected; [exact Hshim|].
    intros t Ht. rewrite (disconnect_returned w w' Hshim Hd t Ht). reflexivity.
Qed.

Lemma In_filter_keep {A} (f : A -> bool) (x : A) (l : list A) :
  f x = true -> In x l -> In x (List.filter f l).
Proof. intros Hf Hx. apply filter_In. split; assumption. Qed.

(** The listener of the race that the timer wins stays on the window; the
    one of a race that the injection event wins is taken off by [once]. *)
Lemma injectionRace_timeout (w : World) (win win' : Window) (timeout : Z) :
  window w = Some win ->
  race env (addEventListener_once (S (closures w)) (new_closures 3 w)) timeout
    = (Timeout, win') ->
  windowListeners (fst (injectionRace timeout w))
  = List.filter (fun l => negb (closure l =? closures w)%nat)
      (windowListeners w ++ [{| closure := S (closures w); once := true |}]).
Proof.
  intros Hw Hr. unfold Injected.injectionRace. rewrite Hw, Hr.
  unfold handleEthereum, bind, gets, when, modify. simpl.
  rewrite (getProvider_eq (removeEventListener _ _)).
  destruct (snd (getProvider _)); reflexivity.
Qed.

Lemma injectionRace_event (w : World) (win win' : Window) (timeout : Z) :
  window w = Some win ->
  race env (addEventListener_once (S (closures w)) (new_closures 3 w)) timeout
    = (InjectionEvent, win') ->
  ~ In {| closure := S (closures w); once := true |}
       (windowListeners (fst (injectionRace timeout w))).
Proof.
  intros Hw Hr. unfold Injected.injectionRace. rewrite Hw, Hr.
  unfold handleEthereum, bind, gets, when, modify. simpl.
  rewrite (getProvider_eq (removeEventListener _ _)).
  assert (H : ~ In {| closure := S (closures w); once := true |}
                (windowListeners
                   (removeEventListener (closures w)
                      (dispatch_initialized
                         (set_window (Some win')
                            (addEventListener_once (S (closures w))
                               (new_closures 3 w))))))).
  { unfold removeEventListener, dispatch_initialized. simpl.
    rewrite !filter_In. simpl. intros [[_ H] _]. discriminate H. }
  destruct (snd (getProvider _)); exact H.
Qed.

Lemma filter_all {A} (f : A -> bool) (l : list A) :
  Forall (fun x => f x = true) l -> List.filter f l = l.
Proof.
  induction 1 as [|x l Hx _ IH]; simpl; [reflexivity|]. rewrite Hx, IH. reflexivity.
Qed.

(** C9, where the code departs from it.  [isAuthorized] enters the injection
    race when the shim does not say disconnected, no provider is found and
    [unstable_shimAsyncInject] is on.  If the timer fires before the
    ['ethereum#initialized'] event, the listener the race put on the window is
    still there when [isAuthorized] is done: [handleEthereum] removes itself,
    and it is not the function that was added.  With closure numbers in
    order, the window has exactly one more listener than before. *)
Theorem C9_timeout_leaves_listener
    (w : World) (win win' : Window) (timeout : Z) :
  window w = Some win ->
  (shimDisconnect = false
   \/ exists t, getWindowProvider = inr t
               /\ stored w (id t ++ ".connected") = Some true) ->
  getProvider w = (w, Returned None) ->
  asyncInject_timeout parameters = Some timeout ->
  race env (addEventListener_once (S (closures w)) (new_closures 3 w)) timeout
    = (Timeout, win') ->
  let installed := {| closure := S (closures w); once := true |} in
  In installed (windowListeners (fst (isAuthorized w)))
  /\ (Forall (fun l => (closure l < closures w)%nat) (windowListeners w) ->
      windowListeners (fst (isAuthorized w)) = (windowListeners w ++ [installed])%list).
Proof.
  intros Hw Hshim Hp Ht Hr installed.
  assert (E : windowListeners (fst (isAuthorized w))
              = windowListeners (fst (injectionRace timeout w))).
  { unfold Injected.isAuthorized, try_catch, Injected.isAuthorized_try.
    unfold bind at 1.
    assert (Hd : (if shimDisconnect
                  then do item <- storage_getConnected imports parameters;
                       ret (negb (truthy item))
                  else ret false) w = (w, Returned false)).
    { destruct Hshim as [Hoff|(t & Hwp & Hst)].
      - rewrite Hoff. reflexivity.
      - rewrite (read_shim w t Hwp), Hst. apply f_equal, f_equal, andb_false_r. }
    rewrite Hd. unfold bind. rewrite Hp, Ht.
    destruct (injectionRace timeout w) as [w1 [[]|e|]]; reflexivity. }
  rewrite E, (injectionRace_timeout w win win' timeout Hw Hr).
  subst installed. split.
  - apply In_filter_keep.
    + cbn [closure]. apply negb_true_iff, Nat.eqb_neq. lia.
    + apply in_or_app. right. left. reflexivity.
  - intros Hwf. apply filter_all. apply Forall_app. split.
    + eapply Forall_impl; [exact Hwf|]. cbn beta. intros l Hl.
      apply negb_true_iff, Nat.eqb_neq. lia.
    + constructor; [|constructor]. cbn [closure].
      apply negb_true_iff, Nat.eqb_neq. lia.
Qed.

(** * Further properties *)

(** ** The locator *)

Lemma findProvider_some (window : option Window) (condition : Provider -> bool)
    (p : Provider) :
  findProvider window condition = Some p ->
  condition p = true
  /\ exists win eth,
       window = Some win /\ ethereum win = Some eth
       /\ match providers eth with
          | Some ps => In p ps
          | None => p = self eth
          end.
Proof.
  unfold findProvider.
  destruct window as [win|]; [|discriminate].
  destruct (ethereum win) as [eth|] eqn:Ee; [|discriminate].
  destruct (providers eth) as [ps|] eqn:Ep.
  - intros H. apply find_some in H. destruct H as [Hin Hc].
    split; [exact Hc|]. exists win, eth. rewrite Ep. auto.
  - destruct (condition (self eth)) eqn:Ec; [|discriminate].
    intros [= <-]. split; [exact Ec|]. exists win, eth. rewrite Ep. auto.
Qed.

(** X1. What [findProvider] returns satisfies the condition.  It is an entry
    of the sub-provider list when [window.ethereum] has one, and
    [window.ethereum] itself otherwise; with a list in which no entry
    satisfies the condition nothing is returned, whatever the ambient
    provider is. *)
Theorem X1_findProvider_sound (window : option Window) (condition : Provider -> bool) :
  (forall p, findProvider window condition = Some p ->
     condition p = true
     /\ exists win eth,
          window = Some win /\ ethereum win = Some eth
          /\ match providers eth with
             | Some ps => In p ps
             | None => p = self eth
             end)
  /\ (forall win eth ps,
        window = Some win -> ethereum win = Some eth -> providers eth = Some ps ->
        (forall q, In q ps -> condition q = false) ->
        findProvider window condition = None).
Proof.
  split; [intros p; apply findProvider_some|].
  intros win eth ps -> Ee Ep Hall. unfold findProvider. rewrite Ee, Ep.
  destruct (List.find condition ps) as [q|] eqn:Ef; [|reflexivity].
  apply find_some in Ef. destruct Ef as [Hin Hc].
  rewrite (Hall q Hin) in Hc. discriminate Hc.
Qed.

(** The locator only reads the window. *)
Lemma getProvider_window (w1 w2 : World) :
  window w1 = window w2 -> snd (getProvider w1) = snd (getProvider w2).
Proof.
  intros H. unfold Injected.getProvider, bind, gets, lift, throw, ret. rewrite H.
  destruct (window w2); [|reflexivity].
  destruct getWindowProvider as [e|t]; [reflexivity|].
  destruct (provider t); reflexivity.
Qed.

(** X2. With the target ['metaMask'], the provider that [getProvider]
    returns has the [isMetaMask] flag and none of the impersonation flags. *)
Theorem X2_metaMask_target_sound (w w' : World) (p : Provider) :
  target parameters = Some (TargetId "metaMask") ->
  getProvider w = (w', Returned (Some p)) ->
  flag p "isMetaMask" = true
  /\ (forall f, In f impersonation_flags -> flag p f = false)
  /\ (flag p "isBraveWallet" = true -> _events p = true \/ _state p = true).
Proof.
  intros Ht. unfold Injected.getProvider, Injected.getWindowProvider, bind, gets.
  rewrite Ht. simpl. destruct (window w) as [win|]; [|discriminate].
  simpl. intros [= _ H].
  apply (findProvider_some (Some win) isMetaMask_condition) in H.
  apply metaMask_condition_iff, H.
Qed.

(** X3. With the target ['coinbaseWallet'], [window.coinbaseWalletExtension]
    is returned when it is there, whatever its flags and whatever
    [window.ethereum] holds; without it the provider returned has the
    [isCoinbaseWallet] flag.  The same goes for ['phantom'] with
    [window.phantom.ethereum] and [isPhantom]. *)
Theorem X3_extension_slots_first (w : World) (win : Window) :
  window w = Some win ->
  (target parameters = Some (TargetId "coinbaseWallet") ->
   (forall p, coinbaseWalletExtension win = Some p ->
              getProvider w = (w, Returned (Some p)))
   /\ (forall p, coinbaseWalletExtension win = None ->
                 getProvider w = (w, Returned (Some p)) ->
                 flag p "isCoinbaseWallet" = true))
  /\ (target parameters = Some (TargetId "phantom") ->
      (forall p, phantom win = Some p ->
                 getProvider w = (w, Returned (Some p)))
      /\ (forall p, phantom win = None ->
                    getProvider w = (w, Returned (Some p)) ->
                    flag p "isPhantom" = true)).
Proof.
  intros Hw. split; intros Ht;
    unfold Injected.getProvider, Injected.getWindowProvider, bind, gets;
    rewrite Ht, Hw; simpl; split; intros p Hslot.
  - rewrite Hslot. reflexivity.
  - rewrite Hslot. intros [= H].
    apply (findProvider_some (Some win) (flag_condition "isCoinbaseWallet")) in H.
    apply H.
  - rewrite Hslot. reflexivity.
  - rewrite Hslot. intros [= H].
    apply (findProvider_some (Some win) (flag_condition "isPhantom")) in H.
    apply H.
Qed.

(** X4. Outside a browser ([window] undefined) [getProvider] returns
    nothing, whatever the target, and [setup] does nothing;
    [connect], [disconnect], [getAccounts], [getChainId] and [switchChain]
    throw [ProviderNotFoundError] and leave the world as it is;
    [isAuthorized] returns [false], even with [unstable_shimAsyncInject],
    without a call to a provider and without a listener on a window. *)
Theorem X4_without_window (w : World) :
  window w = None ->
  getProvider w = (w, Returned None)
  /\ setup w = (w, Returned tt)
  /\ (forall c, connect c w = (w, Threw ProviderNotFoundError))
  /\ disconnect w = (w, Threw ProviderNotFoundError)
  /\ getAccounts w = (w, Threw ProviderNotFoundError)
  /\ getChainId w = (w, Threw ProviderNotFoundError)
  /\ (forall c, switchChain c w = (w, Threw ProviderNotFoundError))
  /\ (snd (isAuthorized w) = Returned false
      /\ calls (fst (isAuthorized w)) = calls w
      /\ windowListeners (fst (isAuthorized w)) = windowListeners w).
Proof.
  intros Hw.
  assert (E : getProvider w = (w, Returned None)).
  { unfold Injected.getProvider, bind, gets. rewrite Hw. reflexivity. }
  split; [exact E|].
  do 6 (split; [intros;
    unfold Injected.setup, Injected.connect, Injected.disconnect,
      Injected.getAccounts, Injected.getChainId, Injected.switchChain, bind;
    rewrite E; reflexivity|]).
  assert (H : exists w', isAuthorized w = (w', Returned false)
                         /\ calls w' = calls w
                         /\ windowListeners w' = windowListeners w).
  { unfold Injected.isAuthorized, try_catch, Injected.isAuthorized_try.
    unfold bind at 1.
    assert (R : exists out,
               (if shimDisconnect
                then do item <- storage_getConnected imports parameters;
                     ret (negb (truthy item))
                else ret false) w = (w, out) /\ out <> Pending).
    { destruct shimDisconnect; [|eexists; split; [reflexivity|discriminate]].
      unfold storage_getConnected, bind, gets, this_id, lift, throw, ret.
      destruct (storage w); simpl; [|eexists; split; [reflexivity|discriminate]].
      destruct getWindowProvider; simpl; eexists; (split; [reflexivity|discriminate]). }
    destruct R as (out & -> & Hout).
    destruct out as [[|]|e|]; [| | |contradiction];
      try (eexists; repeat split; reflexivity).
    unfold bind. rewrite E.
    destruct (asyncInject_timeout parameters) as [timeout|];
      [|eexists; repeat split; reflexivity].
    unfold Injected.injectionRace. rewrite Hw.
    unfold handleEthereum, bind, gets, when, ret. simpl. rewrite Hw. simpl.
    assert (E2 : getProvider (new_closures 2 w) = (new_closures 2 w, Returned None)).
    { unfold Injected.getProvider, bind, gets. simpl. rewrite Hw. reflexivity. }
    rewrite E2. simpl. eexists; repeat split; reflexivity. }
  destruct H as (w' & -> & Hc & Hl). repeat split; assumption.
Qed.


(** ** What a method leaves alone *)

Lemma bind_returned {A B} (m : M A) (k : A -> M B) (w w' : World) (b : B) :
  bind m k w = (w', Returned b) ->
  exists a w1, m w = (w1, Returned a) /\ k a w1 = (w', Returned b).
Proof.
  unfold bind. destruct (m w) as [w1 [a|e|]]; try discriminate. eauto.
Qed.

Section Field.

Context {B : Type} (f : World -> B).
Hypothesis f_log_call : forall c w, f (log_call c w) = f w.
Hypothesis f_set_storage : forall s w, f (set_storage s w) = f w.
Hypothesis f_new_closures : forall n w, f (new_closures n w) = f w.

Lemma field_ret {A} (a : A) : keeps_field f (ret a).
Proof. intros w. reflexivity. Qed.

Lemma field_throw {A} (e : Error) : keeps_field f (@throw A e).
Proof. intros w. reflexivity. Qed.

Lemma field_gets {A} (g : World -> A) : keeps_field f (gets g).
Proof. intros w. reflexivity. Qed.

Lemma field_lift {A} (r : Error + A) : keeps_field f (lift r).
Proof. destruct r; intros w; reflexivity. Qed.

Lemma field_bind {A C} (m : M A) (k : A -> M C) :
  keeps_field f m -> (forall a, keeps_field f (k a)) -> keeps_field f (bind m k).
Proof.
  intros Hm Hk w. unfold bind. specialize (Hm w).
  destruct (m w) as [w1 [a|e|]]; simpl in *; try exact Hm.
  rewrite Hk. exact Hm.
Qed.

Lemma field_try_catch {A} (m : M A) (h : Error -> M A) :
  keeps_field f m -> (forall e, keeps_field f (h e)) -> keeps_field f (try_catch m h).
Proof.
  intros Hm Hh w. unfold try_catch. specialize (Hm w).
  destruct (m w) as [w1 [a|e|]]; simpl in *; try exact Hm.
  rewrite Hh. exact Hm.
Qed.

Lemma field_when (b : bool) (m : M unit) :
  keeps_field f m -> keeps_field f (when b m).
Proof. intros Hm. destruct b; [exact Hm | apply field_ret]. Qed.

Lemma field_forget {A} (m : M A) : keeps_field f m -> keeps_field f (forget m).
Proof. intros Hm. apply field_bind; [exact Hm | intros; apply field_ret]. Qed.

Lemma field_request (p : Provider) (r : Request) : keeps_field f (request env p r).
Proof. intros w. apply f_log_call. Qed.

Lemma field_on (p : Provider) (ev : ProviderEvent) (h : Handler) :
  keeps_field f (on p ev h).
Proof. intros w. apply f_log_call. Qed.

Lemma field_removeListener (p : Provider) (ev : ProviderEvent) (h : Handler) :
  keeps_field f (removeListener p ev h).
Proof. intros w. apply f_log_call. Qed.

Lemma field_bind_this (ev : ProviderEvent) : keeps_field f (bind_this ev).
Proof. intros w. apply f_new_closures. Qed.

Lemma field_set_storage (s : option (gmap string bool)) :
  keeps_field f (modify (set_storage s)).
Proof. intros w. apply f_set_storage. Qed.

Lemma field_change_confirmed (c : Z) : keeps_field f (change_confirmed env c).
Proof.
  intros w. unfold change_confirmed.
  destruct (firstChange env (calls w)) as [c'|]; [destruct (c' =? c)|]; reflexivity.
Qed.

Create HintDb field discriminated.
#[local] Hint Resolve field_ret field_throw field_gets field_lift field_request
  field_on field_removeListener field_bind_this field_set_storage
  field_change_confirmed : field.

Ltac field_step :=
  match goal with
  | |- keeps_field _ (bind _ _) => apply field_bind; [|intros]
  | |- keeps_field _ (try_catch _ _) => apply field_try_catch; [|intros]
  | |- keeps_field _ (forget _) => apply field_forget
  | |- keeps_field _ (when _ _) => apply field_when
  | |- keeps_field _ (match ?x with _ => _ end) => destruct x
  | |- keeps_field _ _ => solve [auto with field]
  end.

Ltac field_frame := repeat field_step.

Lemma field_getProvider : keeps_field f getProvider.
Proof. unfold Injected.getProvider. field_frame. Qed.

Lemma field_this_id : keeps_field f (this_id imports parameters).
Proof. unfold this_id. field_frame. Qed.

#[local] Hint Resolve field_getProvider field_this_id : field.

Lemma field_storage_getConnected : keeps_field f (storage_getConnected imports parameters).
Proof. unfold storage_getConnected. field_frame. Qed.

Lemma field_storage_setConnected : keeps_field f (storage_setConnected imports parameters).
Proof. unfold storage_setConnected. field_frame. Qed.

Lemma field_storage_removeConnected :
  keeps_field f (storage_removeConnected imports parameters).
Proof. unfold storage_removeConnected. field_frame. Qed.

Lemma field_getAccounts : keeps_field f getAccounts.
Proof. unfold Injected.getAccounts. field_frame. Qed.

Lemma field_getChainId : keeps_field f getChainId.
Proof. unfold Injected.getChainId. field_frame. Qed.

#[local] Hint Resolve field_storage_getConnected field_storage_setConnected
  field_storage_removeConnected field_getAccounts field_getChainId : field.

Lemma field_addChain (p : Provider) (chain : Chain) (c : Z) (hexId : string) :
  keeps_field f (addChain p chain c hexId).
Proof. unfold Injected.addChain. field_frame. Qed.

#[local] Hint Resolve field_addChain : field.

Lemma field_switchChain (c : Z) : keeps_field f (switchChain c).
Proof. unfold Injected.switchChain. field_frame. Qed.

Lemma field_selectAccounts (p : Provider) (a : option (list Address)) :
  keeps_field f (selectAccounts imports env p a).
Proof. unfold selectAccounts. field_frame. Qed.

#[local] Hint Resolve field_switchChain field_selectAccounts : field.

Lemma field_resolveAccounts (p : Provider) : keeps_field f (resolveAccounts p).
Proof. unfold Injected.resolveAccounts. field_frame. Qed.

Lemma field_subscribe (p : Provider) : keeps_field f (subscribe p).
Proof. unfold subscribe. field_frame. Qed.

Lemma field_unsubscribe (p : Provider) : keeps_field f (unsubscribe p).
Proof. unfold unsubscribe. field_frame. Qed.

Lemma field_switchIfRequested (c : option Z) (current : Z) :
  keeps_field f (switchIfRequested c current).
Proof. unfold Injected.switchIfRequested. field_frame. Qed.

#[local] Hint Resolve field_resolveAccounts field_subscribe field_unsubscribe
  field_switchIfRequested : field.

Lemma field_connect_catch {A} (e : Error) : keeps_field f (@connect_catch A e).
Proof. unfold connect_catch. field_frame. Qed.

#[local] Hint Resolve field_connect_catch : field.

Lemma field_connect (c : option Z) : keeps_field f (connect c).
Proof.
  unfold Injected.connect, Injected.connect_try. field_frame.
Qed.

Lemma field_disconnect : keeps_field f disconnect.
Proof. unfold Injected.disconnect. field_frame. Qed.

Lemma field_setup : keeps_field f setup.
Proof. unfold Injected.setup. field_frame. Qed.

(** The injection race changes the window and its listeners only. *)
Lemma field_isAuthorized :
  (forall win w, f (set_window win w) = f w) ->
  (forall ls w, f (set_windowListeners ls w) = f w) ->
  keeps_field f isAuthorized.
Proof.
  intros f_window f_listeners.
  assert (Hh : forall h, keeps_field f (handleEthereum imports parameters h)).
  { intros h. unfold handleEthereum. field_frame.
    intros w. apply f_listeners. }
  assert (Hr : forall timeout, keeps_field f (injectionRace timeout)).
  { intros timeout w. unfold Injected.injectionRace.
    destruct (window w).
    - destruct (race env _ timeout) as [[] win]; rewrite Hh;
        unfold dispatch_initialized, addEventListener_once;
        rewrite ?f_listeners, f_window, f_listeners, f_new_closures; reflexivity.
    - rewrite Hh. apply f_new_closures. }
  unfold Injected.isAuthorized, Injected.isAuthorized_try. field_frame; apply Hr.
Qed.

End Field.

(** X5. The methods that the application calls never emit on the event bus:
    only the handlers of provider events do. *)
Theorem X5_methods_do_not_emit (op : Op) (w : World) :
  is_handler op = false ->
  emitted (fst (run op w)) = emitted w.
Proof.
  destruct op as [|c| | | | | |c|accts|chain|connectInfo|error];
    try discriminate; intros _; cbn [Injected.run]; try rewrite forget_fst.
  - apply (field_setup emitted); reflexivity.
  - apply (field_connect emitted); reflexivity.
  - apply (field_disconnect emitted); reflexivity.
  - apply (field_getAccounts emitted); reflexivity.
  - apply (field_getChainId emitted); reflexivity.
  - apply (field_getProvider emitted).
  - apply (field_isAuthorized emitted); reflexivity.
  - apply (field_switchChain emitted); reflexivity.
Qed.

(** ** The shim entry, written and read back *)

(** A [connect] that returns went through its whole body; the storage and
    the window were not touched before the last statement. *)
Lemma connect_returned (c : option Z) (w w' : World) (r : ConnectResult) :
  connect c w = (w', Returned r) ->
  exists p w4,
    getProvider w = (w, Returned (Some p))
    /\ storage w4 = storage w
    /\ window w4 = window w
    /\ when shimDisconnect (storage_setConnected imports parameters) w4 = (w', Returned tt).
Proof.
  unfold Injected.connect. intros H.
  apply bind_returned in H. destruct H as (o & w0 & Hp & H).
  assert (w0 = w) as -> by (rewrite <- (getProvider_world w), Hp; reflexivity).
  destruct o as [p|]; [|discriminate H].
  assert (Ht : connect_try p c w = (w', Returned r)).
  { revert H. unfold try_catch.
    destruct (connect_try p c w) as [w1 [r'|e|]]; [auto| |discriminate].
    intros H. destruct (@connect_catch_throws ConnectResult e w1) as [e' He].
    rewrite He in H. discriminate H. }
  clear H. unfold Injected.connect_try in Ht.
  apply bind_returned in Ht. destruct Ht as (accts & w1 & H1 & Ht).
  apply bind_returned in Ht. destruct Ht as ([] & w2 & H2 & Ht).
  apply bind_returned in Ht. destruct Ht as (current & w3 & H3 & Ht).
  apply bind_returned in Ht. destruct Ht as (current' & w4 & H4 & Ht).
  apply bind_returned in Ht. destruct Ht as ([] & w5 & H5 & Ht).
  injection Ht as <- _.
  exists p, w4. split; [exact Hp|]. split; [|split; [|exact H5]].
  - pose proof (keeps_resolveAccounts p w) as K1. rewrite H1 in K1.
    pose proof (keeps_subscribe p w1) as K2. rewrite H2 in K2.
    pose proof (keeps_getChainId w2) as K3. rewrite H3 in K3.
    pose proof (keeps_switchIfRequested c current w3) as K4. rewrite H4 in K4.
    simpl in *. congruence.
  - assert (K1 : window (fst (resolveAccounts p w)) = window w)
      by (apply (field_resolveAccounts window); reflexivity).
    assert (K2 : window (fst (subscribe p w1)) = window w1)
      by (apply (field_subscribe window); reflexivity).
    assert (K3 : window (fst (getChainId w2)) = window w2)
      by (apply (field_getChainId window); reflexivity).
    assert (K4 : window (fst (switchIfRequested c current w3)) = window w3)
      by (apply (field_switchIfRequested window); reflexivity).
    rewrite H1 in K1. rewrite H2 in K2. rewrite H3 in K3. rewrite H4 in K4.
    simpl in *. congruence.
Qed.

Lemma setConnected_returned (w w' : World) (t : Target) :
  getWindowProvider = inr t ->
  when shimDisconnect (storage_setConnected imports parameters) w = (w', Returned tt) ->
  window w' = window w
  /\ storage w'
     = if shimDisconnect
       then match storage w with
            | Some items => Some (<[id t ++ ".connected" := true]> items)
            | None => None
            end
       else storage w.
Proof.
  intros Ht. destruct shimDisconnect; simpl.
  - unfold storage_setConnected, bind, gets, this_id, lift, ret, modify.
    destruct (storage w) as [items|] eqn:Es; simpl.
    + rewrite Ht. simpl. intros [= <-]. split; reflexivity.
    + intros [= <-]. split; [reflexivity | exact Es].
  - intros [= <-]. split; reflexivity.
Qed.

(** X6. After a [connect] that returned, with the shim on and a storage, the
    storage is the one before the call with [true] under
    ["<id>.connected"]: that entry reads [true] and every other entry is what
    it was. *)
Theorem X6_connect_writes_entry
    (c : option Z) (w w' : World) (r : ConnectResult) (items : gmap string bool) :
  connect c w = (w', Returned r) ->
  shimDisconnect = true ->
  storage w = Some items ->
  exists t,
    getWindowProvider = inr t
    /\ storage w' = Some (<[id t ++ ".connected" := true]> items)
    /\ stored w' (id t ++ ".connected") = Some true
    /\ (forall key, key <> id t ++ ".connected" -> stored w' key = stored w key).
Proof.
  intros Hc Hshim Hs.
  destruct (connect_returned c w w' r Hc) as (p & w4 & Hp & Hs4 & _ & Hset).
  destruct (getProvider_found w p Hp) as [t Ht]. exists t.
  destruct (setConnected_returned w4 w' t Ht Hset) as [_ E].
  rewrite Hshim, Hs4, Hs in E.
  split; [exact Ht|]. split; [exact E|]. unfold stored. rewrite E, Hs. split.
  - apply lookup_insert_eq.
  - intros key Hne. apply lookup_insert_ne. congruence.
Qed.

Lemma disconnect_storage (w w' : World) (t : Target) :
  getWindowProvider = inr t ->
  disconnect w = (w', Returned tt) ->
  storage w'
  = if shimDisconnect
    then match storage w with
         | Some items => Some (delete (id t ++ ".connected") items)
         | None => None
         end
    else storage w.
Proof.
  intros Ht. unfold Injected.disconnect, bind. rewrite (getProvider_eq w).
  destruct (snd (getProvider w)) as [[p|]|e|]; simpl; try discriminate.
  destruct shimDisconnect; simpl.
  - unfold storage_removeConnected, bind, gets, this_id, lift, throw, ret, modify.
    simpl. destruct (storage w) as [items|] eqn:Es; simpl.
    + rewrite Ht. simpl. intros [= <-]. reflexivity.
    + intros [= <-]. simpl. exact Es.
  - intros [= <-]. reflexivity.
Qed.

(** X7. A [connect] that returned followed by a [disconnect] that returned
    leaves the storage without the entry ["<id>.connected"] and with every
    other entry unchanged; if the entry was not there before the [connect],
    the storage is back to what it was. *)
Theorem X7_connect_disconnect_storage
    (c : option Z) (w w1 w2 : World) (r : ConnectResult) :
  connect c w = (w1, Returned r) ->
  disconnect w1 = (w2, Returned tt) ->
  exists t,
    getWindowProvider = inr t
    /\ stored w2 (id t ++ ".connected")
       = (if shimDisconnect then None else stored w (id t ++ ".connected"))
    /\ (forall key, key <> id t ++ ".connected" -> stored w2 key = stored w key)
    /\ (stored w (id t ++ ".connected") = None -> storage w2 = storage w).
Proof.
  intros Hc Hd.
  destruct (connect_returned c w w1 r Hc) as (p & w4 & Hp & Hs4 & _ & Hset).
  destruct (getProvider_found w p Hp) as [t Ht]. exists t.
  destruct (setConnected_returned w4 w1 t Ht Hset) as [_ E1].
  pose proof (disconnect_storage w1 w2 t Ht Hd) as E2.
  rewrite Hs4 in E1. rewrite E1 in E2. clear E1.
  split; [exact Ht|]. unfold stored. rewrite E2.
  destruct shimDisconnect; [|repeat split; reflexivity].
  destruct (storage w) as [items|]; [|repeat split; reflexivity].
  split; [apply lookup_delete_eq|]. split.
  - intros key Hne. rewrite lookup_delete_ne by congruence.
    apply lookup_insert_ne. congruence.
  - intros Habs. rewrite (delete_insert_id items _ true Habs). reflexivity.
Qed.

Lemma keeps_connect_off (c : option Z) :
  shimDisconnect = false -> keeps_storage (connect c).
Proof.
  intros Hoff. unfold Injected.connect, Injected.connect_try. rewrite Hoff.
  cbn [when]. frame. unfold connect_catch. frame.
Qed.

Lemma keeps_onConnect_off (connectInfo : string) :
  shimDisconnect = false -> keeps_storage (onConnect connectInfo).
Proof.
  intros Hoff. unfold Injected.onConnect. rewrite Hoff. cbn [when]. frame.
Qed.

Lemma keeps_onAccountsChanged_off (accts : list string) :
  shimDisconnect = false -> keeps_storage (onAccountsChanged accts).
Proof.
  intros Hoff. unfold Injected.onAccountsChanged. frame.
  - apply keeps_onDisconnect.
  - apply keeps_onConnect_off, Hoff.
Qed.

Lemma keeps_disconnect_off :
  shimDisconnect = false -> keeps_storage disconnect.
Proof.
  intros Hoff. unfold Injected.disconnect. rewrite Hoff. cbn [when]. frame.
Qed.

(** X8. With [shimDisconnect: false] no method of the connector changes the
    storage, over any run. *)
Theorem X8_shim_off_storage_untouched (ops : list Op) (w : World) :
  shimDisconnect = false ->
  storage (execute ops w) = storage w.
Proof.
  intros Hoff.
  assert (Hstep : forall op w0, storage (fst (run op w0)) = storage w0).
  { intros op w0.
    destruct op as [|c| | | | | |c|accts|chain|connectInfo|error];
      cbn [Injected.run]; try rewrite forget_fst.
    - apply keeps_setup.
    - apply keeps_connect_off, Hoff.
    - apply keeps_disconnect_off, Hoff.
    - apply keeps_getAccounts.
    - apply keeps_getChainId.
    - apply keeps_getProvider.
    - apply keeps_isAuthorized.
    - apply keeps_switchChain.
    - apply keeps_onAccountsChanged_off, Hoff.
    - apply keeps_onChainChanged.
    - apply keeps_onConnect_off, Hoff.
    - apply keeps_onDisconnect. }
  revert w. induction ops as [|op ops IH]; intros w; simpl; [reflexivity|].
  rewrite IH. apply Hstep.
Qed.


(** X9. After a [connect] that returned, with a storage or with the shim
    off, [isAuthorized] is not stopped by the shim: it asks the provider for
    its accounts and returns whether there are any. *)
Theorem X9_connect_then_isAuthorized
    (c : option Z) (w w' : World) (r : ConnectResult) (p : Provider)
    (accts : list string) (checksummed : list Address) :
  connect c w = (w', Returned r) ->
  (shimDisconnect = true -> storage w <> None) ->
  getProvider w = (w, Returned (Some p)) ->
  reply env (pid p) (calls w') eth_accounts = Returned accts ->
  map_getAddress imports accts = inr checksummed ->
  isAuthorized w'
  = (log_call (CallRequest (pid p) eth_accounts) w',
     Returned (negb (length accts =? 0)%nat)).
Proof.
  intros Hc Hst Hp Hr Hm.
  destruct (connect_returned c w w' r Hc) as (p0 & w4 & _ & Hs4 & Hw4 & Hset).
  destruct (getProvider_found w p Hp) as [t Ht].
  destruct (setConnected_returned w4 w' t Ht Hset) as [Hw' E].
  assert (Hp' : getProvider w' = (w', Returned (Some p))).
  { rewrite (getProvider_eq w').
    rewrite (getProvider_window w' w) by congruence. rewrite Hp. reflexivity. }
  unfold Injected.isAuthorized, try_catch, Injected.isAuthorized_try.
  unfold bind at 1. rewrite (read_shim w' t Ht).
  assert (Hread : shimDisconnect
                  && negb (truthy (stored w' (id t ++ ".connected"))) = false).
  { destruct shimDisconnect eqn:Es; [|reflexivity].
    unfold stored. rewrite E, Hs4.
    destruct (storage w) as [items|]; [|exfalso; apply Hst; reflexivity].
    rewrite lookup_insert_eq. reflexivity. }
  rewrite Hread. unfold bind. rewrite Hp'.
  rewrite (getAccounts_found w' p Hp'), Hr. unfold lift. rewrite Hm. simpl.
  rewrite (map_getAddress_length _ _ Hm). reflexivity.
Qed.

(** ** What a method asks of the provider *)

Lemma only_keep (P : Call -> bool) {A} (m : M A) :
  (forall w, calls (fst (m w)) = calls w) -> only_calls P m.
Proof.
  intros H w. exists []. rewrite app_nil_r. split; [apply H | reflexivity].
Qed.

Lemma only_ret (P : Call -> bool) {A} (a : A) : only_calls P (ret a).
Proof. apply only_keep. reflexivity. Qed.

Lemma only_throw (P : Call -> bool) {A} (e : Error) : only_calls P (@throw A e).
Proof. apply only_keep. reflexivity. Qed.

Lemma only_gets (P : Call -> bool) {A} (g : World -> A) : only_calls P (gets g).
Proof. apply only_keep. reflexivity. Qed.

Lemma only_lift (P : Call -> bool) {A} (r : Error + A) : only_calls P (lift r).
Proof. destruct r; apply only_keep; reflexivity. Qed.

Lemma only_emit (P : Call -> bool) (e : BusEvent) : only_calls P (emit e).
Proof. apply only_keep. reflexivity. Qed.

Lemma only_bind_this (P : Call -> bool) (ev : ProviderEvent) :
  only_calls P (bind_this ev).
Proof. apply only_keep. reflexivity. Qed.

Lemma only_set_storage (P : Call -> bool) (s : option (gmap string bool)) :
  only_calls P (modify (set_storage s)).
Proof. apply only_keep. reflexivity. Qed.

Lemma only_removeEventListener (P : Call -> bool) (h : nat) :
  only_calls P (modify (removeEventListener h)).
Proof. apply only_keep. reflexivity. Qed.

Lemma only_change_confirmed (P : Call -> bool) (c : Z) :
  only_calls P (change_confirmed env c).
Proof.
  apply only_keep. intros w. unfold change_confirmed.
  destruct (firstChange env (calls w)) as [c'|]; [destruct (c' =? c)|]; reflexivity.
Qed.

Lemma only_log (P : Call -> bool) (c : Call) :
  P c = true -> only_calls P (modify (log_call c)).
Proof.
  intros H w. exists [c]. split; [reflexivity|]. simpl. rewrite H. reflexivity.
Qed.

Lemma only_request (P : Call -> bool) (p : Provider) (r : Request) :
  P (CallRequest (pid p) r) = true -> only_calls P (request env p r).
Proof.
  intros H w. exists [CallRequest (pid p) r]. split; [reflexivity|].
  simpl. rewrite H. reflexivity.
Qed.

Lemma only_bind (P : Call -> bool) {A C} (m : M A) (k : A -> M C) :
  only_calls P m -> (forall a, only_calls P (k a)) -> only_calls P (bind m k).
Proof.
  intros Hm Hk w. unfold bind. destruct (Hm w) as (l & Hl & HP).
  destruct (m w) as [w1 [a|e|]]; simpl in *; try (exists l; split; assumption).
  destruct (Hk a w1) as (l' & Hl' & HP'). exists (l ++ l')%list.
  rewrite Hl', Hl, app_assoc. split; [reflexivity|].
  rewrite forallb_app, HP, HP'. reflexivity.
Qed.

Lemma only_try_catch (P : Call -> bool) {A} (m : M A) (h : Error -> M A) :
  only_calls P m -> (forall e, only_calls P (h e)) -> only_calls P (try_catch m h).
Proof.
  intros Hm Hh w. unfold try_catch. destruct (Hm w) as (l & Hl & HP).
  destruct (m w) as [w1 [a|e|]]; simpl in *; try (exists l; split; assumption).
  destruct (Hh e w1) as (l' & Hl' & HP'). exists (l ++ l')%list.
  rewrite Hl', Hl, app_assoc. split; [reflexivity|].
  rewrite forallb_app, HP, HP'. reflexivity.
Qed.

Lemma only_detached (P : Call -> bool) {A} (m : M A) :
  only_calls P m -> only_calls P (detached m).
Proof. intros Hm w. apply Hm. Qed.

Lemma only_when (P : Call -> bool) (b : bool) (m : M unit) :
  only_calls P m -> only_calls P (when b m).
Proof. intros Hm. destruct b; [exact Hm | apply only_ret]. Qed.

Lemma only_injectionRace (P : Call -> bool) (timeout : Z) :
  only_calls P (injectionRace timeout).
Proof.
  assert (Hh : forall h w, calls (fst (handleEthereum imports parameters h w)) = calls w).
  { intros h w. unfold handleEthereum, bind, gets, when, modify, ret.
    destruct (bool_decide (is_Some (window w))); simpl.
    - rewrite (getProvider_eq (removeEventListener h w)).
      destruct (snd (getProvider _)); reflexivity.
    - rewrite (getProvider_eq w). destruct (snd (getProvider _)); reflexivity. }
  apply only_keep. intros w. unfold Injected.injectionRace.
  destruct (window w).
  - destruct (race env _ timeout) as [[] win]; rewrite Hh; reflexivity.
  - rewrite Hh. reflexivity.
Qed.

Create HintDb only discriminated.
#[local] Hint Resolve only_ret only_throw only_gets only_lift only_emit
  only_bind_this only_set_storage only_removeEventListener only_change_confirmed
  only_injectionRace : only.

(** One step of a proof about the calls of a computation: follow its shape,
    check each call against the condition, open the connector's own
    functions. *)
Ltac only_step :=
  match goal with
  | |- only_calls _ (bind _ _) => apply only_bind; [|intros]
  | |- only_calls _ (try_catch _ _) => apply only_try_catch; [|intros]
  | |- only_calls _ (detached _) => apply only_detached
  | |- only_calls _ (when _ _) => apply only_when
  | |- only_calls _ (request _ _ _) => apply only_request; reflexivity
  | |- only_calls _ (on _ _ _) => apply only_log; reflexivity
  | |- only_calls _ (removeListener _ _ _) => apply only_log; reflexivity
  | |- only_calls _ (match ?x with _ => _ end) => destruct x
  | |- only_calls _ _ => solve [auto with only]
  | |- only_calls _ _ =>
      progress unfold Injected.getProvider, this_id, storage_getConnected,
        storage_setConnected, storage_removeConnected, Injected.getAccounts,
        Injected.getChainId, selectAccounts, Injected.resolveAccounts,
        subscribe, unsubscribe, handleEthereum, connect_catch
  end.

Ltac only_frame := repeat only_step.

(** X10. All that [isAuthorized] does to the provider is to ask for
    [eth_accounts]: it opens no prompt ([eth_requestAccounts],
    [wallet_requestPermissions]) and attaches or detaches no listener. *)
Theorem X10_isAuthorized_only_reads_accounts :
  only_calls is_eth_accounts isAuthorized.
Proof.
  unfold Injected.isAuthorized, Injected.isAuthorized_try. only_frame.
Qed.

(** X11. [disconnect] sends no request to the provider: its calls are
    [on] and [removeListener] only.  The only request [onDisconnect] can
    send is [eth_accounts]. *)
Theorem X11_disconnect_sends_no_request :
  only_calls listener_call disconnect
  /\ (forall error,
        only_calls (fun c => listener_call c || is_eth_accounts c)
          (onDisconnect error)).
Proof.
  split.
  - unfold Injected.disconnect. only_frame.
  - intros error. unfold Injected.onDisconnect. only_frame.
Qed.

(** X12. A [connect] without a chain id, or with the chain id 0, never asks
    the wallet to switch to a chain or to add one. *)
Theorem X12_connect_without_chain (c : option Z) :
  requested c = None ->
  only_calls (fun x => negb (asks_chain x)) (connect c).
Proof.
  intros Hreq. unfold Injected.connect, Injected.connect_try,
    Injected.switchIfRequested. rewrite Hreq. only_frame.
Qed.

(** ** The switch request *)

(** What [switchChain] does once the provider and the chain are there and the
    switch request is accepted, or never settled. *)
Lemma switchChain_accepted
    (w : World) (provider : Provider) (chain : Chain) (chainId : Z) :
  getProvider w = (w, Returned (Some provider)) ->
  List.find (fun x => chain_id x =? chainId) chains = Some chain ->
  let w1 := log_call (CallRequest (pid provider)
                        (wallet_switchEthereumChain (numberToHex imports chainId))) w in
  switchChain chainId w
  = match reply env (pid provider) (calls w)
            (wallet_switchEthereumChain (numberToHex imports chainId)) with
    | Returned _ =>
        (w1, match firstChange env (calls w1) with
             | Some currentChainId =>
                 if currentChainId =? chainId then Returned chain else Pending
             | None => Pending
             end)
    | Threw error =>
        if code_is (error_code error) 4902 || code_is (original_code error) 4902
        then addChain provider chain chainId (numberToHex imports chainId) w1
        else if code_is (error_code error) 4001
        then (w1, Threw (UserRejectedRequestError error))
        else (w1, Threw (SwitchChainError error))
    | Pending => (w1, Pending)
    end.
Proof.
  intros Hp Hc. cbv zeta.
  destruct (reply env (pid provider) (calls w) _) as [[]|error|] eqn:Hr.
  - unfold Injected.switchChain, bind. rewrite Hp, Hc.
    unfold try_catch, bind, request. rewrite Hr. unfold change_confirmed.
    destruct (firstChange env _) as [c'|]; [|reflexivity].
    destruct (c' =? chainId); reflexivity.
  - apply (switchChain_rejected w provider chain chainId error Hp Hc Hr).
  - unfold Injected.switchChain, bind. rewrite Hp, Hc.
    unfold try_catch, bind, request. rewrite Hr. reflexivity.
Qed.

(** X13. The chain that [switchChain] returns is a chain of the registry
    and has the requested id. *)
Theorem X13_switchChain_returns_requested
    (chainId : Z) (w w' : World) (chain : Chain) :
  switchChain chainId w = (w', Returned chain) ->
  In chain chains /\ chain_id chain = chainId.
Proof.
  intros H.
  assert (Hp : exists p, getProvider w = (w, Returned (Some p))).
  { revert H. unfold Injected.switchChain, bind. rewrite (getProvider_eq w).
    destruct (snd (getProvider w)) as [[p|]|e|]; simpl; try discriminate. eauto. }
  destruct Hp as [p Hp].
  destruct (List.find (fun x => chain_id x =? chainId) chains) as [chain0|] eqn:Hc.
  - assert (chain = chain0) as ->.
    { rewrite (switchChain_accepted w p chain0 chainId Hp Hc) in H. cbv zeta in H.
      destruct (reply env (pid p) (calls w) _) as [[]|error|].
      - destruct (firstChange env _) as [c'|]; [|discriminate H].
        destruct (c' =? chainId); [|discriminate H]. congruence.
      - destruct (code_is (error_code error) 4902
                  || code_is (original_code error) 4902).
        + rewrite (addChain_found _ p chain0 chainId _
                     (getProvider_log_call _ _ _ Hp)) in H. cbv zeta in H.
          destruct (reply env (pid p) _ (wallet_addEthereumChain _)) as [[]|e|];
            try discriminate H.
          destruct (reply env (pid p) _ eth_chainId) as [hex|e|];
            try discriminate H.
          destruct (normalizeChainId imports hex =? chainId);
            [congruence | discriminate H].
        + destruct (code_is (error_code error) 4001); discriminate H.
      - discriminate H. }
    apply find_some in Hc. destruct Hc as [Hin Hid].
    split; [exact Hin | apply Z.eqb_eq, Hid].
  - revert H. unfold Injected.switchChain, bind. rewrite Hp, Hc. discriminate.
Qed.

(** X14. When the wallet accepts the switch request, [switchChain] returns
    the chain only if the first ['change'] event on the bus carries the
    requested chain id; otherwise its promise is never settled.  No other
    request is sent. *)
Theorem X14_switchChain_waits_for_change
    (w : World) (provider : Provider) (chain : Chain) (chainId : Z) :
  getProvider w = (w, Returned (Some provider)) ->
  List.find (fun x => chain_id x =? chainId) chains = Some chain ->
  reply env (pid provider) (calls w)
    (wallet_switchEthereumChain (numberToHex imports chainId)) = Returned tt ->
  let w1 := log_call (CallRequest (pid provider)
                        (wallet_switchEthereumChain (numberToHex imports chainId))) w in
  (firstChange env (calls w1) = Some chainId ->
   switchChain chainId w = (w1, Returned chain))
  /\ (firstChange env (calls w1) <> Some chainId ->
      switchChain chainId w = (w1, Pending)).
Proof.
  intros Hp Hc Hr w1.
  pose proof (switchChain_accepted w provider chain chainId Hp Hc) as E.
  cbv zeta in E. rewrite Hr in E. fold w1 in E. rewrite E. split.
  - intros ->. rewrite Z.eqb_refl. reflexivity.
  - intros Hne. destruct (firstChange env (calls w1)) as [c'|]; [|reflexivity].
    destruct (c' =? chainId) eqn:Ec; [|reflexivity].
    apply Z.eqb_eq in Ec. congruence.
Qed.

(** ** The handlers *)

(** X15. [onDisconnect] with an error of code 1013, while the provider still
    has accounts, waits for the reconnection: it returns after its
    [eth_accounts] request, with nothing emitted and no listener changed.
    Without an error, or with another code, it emits ['disconnect'] once,
    detaches the three listeners, attaches the ['connect'] one, sends no
    request and leaves the storage as it is. *)
Theorem X15_onDisconnect (w : World) (p : Provider) :
  getProvider w = (w, Returned (Some p)) ->
  (forall error accts a rest,
     error_code error = Some 1013 ->
     reply env (pid p) (calls w) eth_accounts = Returned accts ->
     map_getAddress imports accts = inr (a :: rest) ->
     onDisconnect (Some error) w
     = (log_call (CallRequest (pid p) eth_accounts) w, Returned tt))
  /\ (forall error,
        match error with
        | Some e => error_code e <> Some 1013
        | None => True
        end ->
        snd (onDisconnect error w) = Returned tt
        /\ emitted (fst (onDisconnect error w)) = (emitted w ++ [EmitDisconnect])%list
        /\ calls (fst (onDisconnect error w))
           = (calls w
              ++ [ CallRemoveListener (pid p) accountsChanged
                     (Bound accountsChanged (closures w));
                   CallRemoveListener (pid p) chainChanged OnChainChanged;
                   CallRemoveListener (pid p) disconnect_
                     (Bound disconnect_ (S (closures w)));
                   CallOn (pid p) connect_ (Bound connect_ (S (S (closures w)))) ])%list
        /\ storage (fst (onDisconnect error w)) = storage w).
Proof.
  intros Hp. split.
  - intros error accts a rest Hcode Hr Hm.
    unfold Injected.onDisconnect, bind. rewrite Hp.
    apply code_is_true in Hcode. rewrite Hcode.
    rewrite (getAccounts_found w p Hp), Hr. unfold lift. rewrite Hm. reflexivity.
  - intros error Herr.
    assert (E : onDisconnect error w
                = (do _ <- emit EmitDisconnect; unsubscribe p) w).
    { unfold Injected.onDisconnect. unfold bind at 1. rewrite Hp.
      destruct error as [e|]; [|reflexivity].
      apply code_is_false in Herr. rewrite Herr. reflexivity. }
    rewrite E. repeat split.
    unfold bind, emit, modify, unsubscribe, bind_this, removeListener, on, log_call.
    simpl. rewrite <- !app_assoc, !Nat.add_1_r. reflexivity.
Qed.

(** X16. [onAccountsChanged([])] runs the disconnect path: ['disconnect'] is
    emitted once and no request is sent to the provider.  With accounts and
    nobody listening for ['connect'] on the bus, it emits one ['change'] and
    does nothing else; the accounts of the event are what [getAddress] gives
    when it is called with each address and, as [chainId], the position of
    the address in the list.  If [getAddress] refuses an address at its
    position, the handler throws and emits nothing. *)
Theorem X16_onAccountsChanged (w : World) :
  (forall o,
     getProvider w = (w, Returned o) ->
     snd (onAccountsChanged [] w) = Returned tt
     /\ emitted (fst (onAccountsChanged [] w)) = (emitted w ++ [EmitDisconnect])%list
     /\ List.filter (fun c => negb (listener_call c))
          (calls (fst (onAccountsChanged [] w)))
        = List.filter (fun c => negb (listener_call c)) (calls w))
  /\ (forall a rest checksummed,
        connectListenerCount w = 0%nat ->
        checksummed_by_position imports (a :: rest) checksummed ->
        onAccountsChanged (a :: rest) w
        = (log_emit (EmitChangeAccounts checksummed) w, Returned tt))
  /\ (forall a rest (i : nat) x e,
        connectListenerCount w = 0%nat ->
        (a :: rest) !! i = Some x ->
        getAddress imports x (Some (Z.of_nat i)) = inl e ->
        exists e', onAccountsChanged (a :: rest) w = (w, Threw e')).
Proof.
  assert (E : forall a rest,
             connectListenerCount w = 0%nat ->
             onAccountsChanged (a :: rest) w
             = match map_getAddress imports (a :: rest) with
               | inr checksummed =>
                   (log_emit (EmitChangeAccounts checksummed) w, Returned tt)
               | inl e => (w, Threw e)
               end).
  { intros a rest Hn. unfold Injected.onAccountsChanged. cbn [length Nat.eqb].
    unfold bind at 1, gets. rewrite Hn. cbn [Nat.eqb negb].
    unfold bind, lift.
    destruct (map_getAddress imports (a :: rest)); reflexivity. }
  split; [|split].
  - intros o Hp. unfold Injected.onAccountsChanged. cbn [length Nat.eqb].
    unfold detached, Injected.onDisconnect, bind. rewrite Hp. simpl.
    destruct o as [p|]; simpl; (split; [reflexivity | split; [reflexivity|]]);
      rewrite ?List.filter_app; simpl; rewrite ?app_nil_r; reflexivity.
  - intros a rest checksummed Hn Hm. apply map_getAddress_spec in Hm.
    rewrite (E a rest Hn), Hm. reflexivity.
  - intros a rest i x e Hn Hx He.
    destruct (map_getAddress_refused (a :: rest) i x e Hx He) as [e' He'].
    exists e'. rewrite (E a rest Hn), He'. reflexivity.
Qed.

(** ** The account-selection prompt *)

(** X17. Take a [connect] that enters the account re-selection: the target
    has the feature [wallet_requestPermissions], the shim says disconnected
    and [eth_accounts] gives at least one account.  If the wallet rejects
    [wallet_requestPermissions] with code 4001, [connect] throws a
    [UserRejectedRequestError] (around the one thrown inside); with code
    -32002 it throws a [ResourceUnavailableRpcError]; with any other error
    the accounts of [eth_accounts] are kept, as [getAddress] gave them when
    called with each address and its position in the list, and
    [eth_requestAccounts] is not sent. *)
Theorem X17_reselection_errors
    (w : World) (p : Provider) (t : Target) (fs : list string)
    (accts : list string) (a : Address) (rest : list Address) (error : Error)
    (c : option Z) :
  getProvider w = (w, Returned (Some p)) ->
  getWindowProvider = inr t ->
  features t = Some fs ->
  existsb (String.eqb "wallet_requestPermissions") fs = true ->
  shimDisconnect = true ->
  truthy (stored w (id t ++ ".connected")) = false ->
  reply env (pid p) (calls w) eth_accounts = Returned accts ->
  checksummed_by_position imports accts (a :: rest) ->
  let w1 := log_call (CallRequest (pid p) eth_accounts) w in
  let w2 := log_call (CallRequest (pid p) wallet_requestPermissions) w1 in
  reply env (pid p) (calls w1) wallet_requestPermissions = Threw error ->
  (error_code error = Some 4001 ->
   connect c w
   = (w2, Threw (UserRejectedRequestError (UserRejectedRequestError error))))
  /\ (error_code error = Some (-32002) ->
      connect c w = (w2, Threw (ResourceUnavailableRpcError error)))
  /\ (error_code error <> Some 4001 -> error_code error <> Some (-32002) ->
      resolveAccounts p w = (w2, Returned (a :: rest))).
Proof.
  intros Hp Ht Hf Hfs Hshim Hflag Hr Hm w1 w2 Hperm.
  apply map_getAddress_spec in Hm.
  assert (Hsel : resolveAccounts p w
                 = (w2,
                    if code_is (error_code error) 4001
                    then Threw (UserRejectedRequestError error)
                    else if code_is (error_code error) (-32002)
                    then Threw error
                    else Returned (a :: rest))).
  { assert (E1 : try_catch (do a0 <- getAccounts; ret (Some a0))
                   (fun _ => ret None) w
                 = (w1, Returned (Some (a :: rest)))).
    { unfold try_catch, bind. rewrite (getAccounts_found w p Hp), Hr.
      unfold lift. rewrite Hm. reflexivity. }
    assert (E2 : selectAccounts imports env p (Some (a :: rest)) w1
                 = (w2,
                    if code_is (error_code error) 4001
                    then Threw (UserRejectedRequestError error)
                    else if code_is (error_code error) (-32002)
                    then Threw error
                    else Returned (Some (a :: rest)))).
    { unfold selectAccounts, try_catch, bind, request. rewrite Hperm. fold w2.
      destruct (code_is (error_code error) 4001); [reflexivity|].
      unfold same_code. cbn [error_code].
      destruct (error_code error) as [code|]; [|reflexivity].
      cbn [code_is]. destruct (code =? -32002); reflexivity. }
    unfold Injected.resolveAccounts. unfold bind at 1. rewrite Ht. cbn [lift ret].
    rewrite Hf, Hfs. unfold bind at 1. rewrite (read_shim w t Ht), Hshim, Hflag.
    cbn [andb negb]. unfold bind at 1. unfold bind at 1. rewrite E1.
    cbn [nonempty]. rewrite E2.
    destruct (code_is (error_code error) 4001); [reflexivity|].
    destruct (code_is (error_code error) (-32002)); reflexivity. }
  assert (Hconn : forall e, resolveAccounts p w = (w2, Threw e) ->
                            connect c w = connect_catch e w2).
  { intros e He. unfold Injected.connect, bind. rewrite Hp.
    unfold try_catch, Injected.connect_try, bind. rewrite He. reflexivity. }
  split; [|split].
  - intros H. apply code_is_true in H. rewrite H in Hsel.
    rewrite (Hconn _ Hsel). reflexivity.
  - intros H.
    assert (H1 : code_is (error_code error) 4001 = false).
    { apply code_is_false. rewrite H. discriminate. }
    apply code_is_true in H. rewrite H1, H in Hsel.
    rewrite (Hconn _ Hsel). unfold connect_catch. rewrite H1, H. reflexivity.
  - intros H1 H2. apply code_is_false in H1, H2. rewrite H1, H2 in Hsel. exact Hsel.
Qed.

(** ** The injection race *)

(** X18. When [isAuthorized] goes through the injection race, whichever
    signal comes first, it sends no request to a provider and returns whether
    a provider is found in the window as it is then; the accounts are not
    asked for. *)
Theorem X18_injection_race_result
    (w : World) (win win' : Window) (timeout : Z) (signal : Signal) :
  window w = Some win ->
  (shimDisconnect = false
   \/ exists t, getWindowProvider = inr t
               /\ stored w (id t ++ ".connected") = Some true) ->
  getProvider w = (w, Returned None) ->
  asyncInject_timeout parameters = Some timeout ->
  race env (addEventListener_once (S (closures w)) (new_closures 3 w)) timeout
    = (signal, win') ->
  calls (fst (isAuthorized w)) = calls w
  /\ snd (isAuthorized w)
     = match snd (getProvider (set_window (Some win') w)) with
       | Returned (Some _) => Returned true
       | _ => Returned false
       end.
Proof.
  intros Hw Hshim Hp Ht Hr.
  assert (Hd : (if shimDisconnect
                then do item <- storage_getConnected imports parameters;
                     ret (negb (truthy item))
                else ret false) w = (w, Returned false)).
  { destruct Hshim as [Hoff|(t & Hwp & Hst)].
    - rewrite Hoff. reflexivity.
    - rewrite (read_shim w t Hwp), Hst. apply f_equal, f_equal, andb_false_r. }
  assert (E : exists w2,
             window w2 = Some win' /\ calls w2 = calls w
             /\ injectionRace timeout w
                = (w2, match snd (getProvider w2) with
                       | Returned o => Returned (bool_decide (is_Some o))
                       | Threw e => Threw e
                       | Pending => Pending
                       end)).
  { unfold Injected.injectionRace. rewrite Hw, Hr.
    unfold handleEthereum, bind, gets, when, modify, ret.
    destruct signal; simpl;
      match goal with
      | |- context [getProvider ?x] =>
          exists x; split; [reflexivity|]; split; [reflexivity|];
          rewrite (getProvider_eq x); destruct (snd (getProvider x)); reflexivity
      end. }
  destruct E as (w2 & Hw2 & Hc2 & E).
  assert (Hsame : snd (getProvider w2) = snd (getProvider (set_window (Some win') w))).
  { apply getProvider_window. rewrite Hw2. reflexivity. }
  assert (R : isAuthorized w
              = (w2, match snd (getProvider w2) with
                     | Returned (Some _) => Returned true
                     | _ => Returned false
                     end)).
  { unfold Injected.isAuthorized, try_catch, Injected.isAuthorized_try.
    unfold bind at 1. rewrite Hd. unfold bind. rewrite Hp, Ht, E.
    pose proof (getProvider_settles w2) as Hset.
    destruct (snd (getProvider w2)) as [[q|]|e|];
      [reflexivity | reflexivity | reflexivity | contradiction]. }
  rewrite R, <- Hsame. split; [exact Hc2 | reflexivity].
Qed.

(** ** Functions made by [bind] *)

Lemma bound_numbers_app (l1 l2 : list Call) :
  bound_numbers (l1 ++ l2) = (bound_numbers l1 ++ bound_numbers l2)%list.
Proof. apply flat_map_app. Qed.

Lemma well_numbered_keep (w w' : World) :
  calls w' = calls w -> (closures w <= closures w')%nat ->
  well_numbered w -> well_numbered w'.
Proof.
  intros Hc Hn [Hd Hb]. unfold well_numbered. rewrite Hc. split; [exact Hd|].
  eapply Forall_impl; [exact Hb|]. cbn beta. intros k Hk. lia.
Qed.

(** New calls whose [bind] results are new keep the numbering. *)
Lemma well_numbered_fresh (w w' : World) (l : list Call) :
  well_numbered w ->
  calls w' = (calls w ++ l)%list ->
  NoDup (bound_numbers l) ->
  Forall (fun k => (closures w <= k < closures w')%nat) (bound_numbers l) ->
  (closures w <= closures w')%nat ->
  well_numbered w'.
Proof.
  intros [Hd Hb] Hc Hdl Hfl Hn. unfold well_numbered.
  rewrite Hc, bound_numbers_app. split.
  - apply NoDup_app. split; [exact Hd|]. split; [|exact Hdl].
    intros k Hk Hk'.
    rewrite Forall_forall in Hb, Hfl.
    specialize (Hb k Hk). specialize (Hfl k Hk'). cbn beta in *. lia.
  - apply Forall_app. split.
    + eapply Forall_impl; [exact Hb|]. cbn beta. intros k Hk. lia.
    + eapply Forall_impl; [exact Hfl|]. cbn beta. intros k Hk. lia.
Qed.

Lemma numbering_keep {A} (m : M A) :
  (forall w, calls (fst (m w)) = calls w
             /\ (closures w <= closures (fst (m w)))%nat) ->
  numbering m.
Proof.
  intros H w Hw. destruct (H w) as [Hc Hn].
  exact (well_numbered_keep w _ Hc Hn Hw).
Qed.

Lemma numbering_ret {A} (a : A) : numbering (ret a).
Proof. apply numbering_keep. intros w. split; [reflexivity | simpl; lia]. Qed.

Lemma numbering_throw {A} (e : Error) : numbering (@throw A e).
Proof. apply numbering_keep. intros w. split; [reflexivity | simpl; lia]. Qed.

Lemma numbering_gets {A} (g : World -> A) : numbering (gets g).
Proof. apply numbering_keep. intros w. split; [reflexivity | simpl; lia]. Qed.

Lemma numbering_lift {A} (r : Error + A) : numbering (lift r).
Proof. destruct r; [apply numbering_throw | apply numbering_ret]. Qed.

Lemma numbering_emit (e : BusEvent) : numbering (emit e).
Proof. apply numbering_keep. intros w. split; [reflexivity | simpl; lia]. Qed.

Lemma numbering_set_storage (s : option (gmap string bool)) :
  numbering (modify (set_storage s)).
Proof. apply numbering_keep. intros w. split; [reflexivity | simpl; lia]. Qed.

Lemma numbering_change_confirmed (c : Z) : numbering (change_confirmed env c).
Proof.
  apply numbering_keep. intros w. unfold change_confirmed.
  destruct (firstChange env (calls w)) as [c'|]; [destruct (c' =? c)|];
    (split; [reflexivity | simpl; lia]).
Qed.

Lemma numbering_request (p : Provider) (r : Request) : numbering (request env p r).
Proof.
  intros w Hw.
  apply (well_numbered_fresh w _ [CallRequest (pid p) r] Hw);
    [reflexivity | constructor | constructor | simpl; lia].
Qed.

Lemma numbering_bind {A C} (m : M A) (k : A -> M C) :
  numbering m -> (forall a, numbering (k a)) -> numbering (bind m k).
Proof.
  intros Hm Hk w Hw. unfold bind. specialize (Hm w Hw).
  destruct (m w) as [w1 [a|e|]]; simpl in *; try exact Hm.
  apply Hk, Hm.
Qed.

Lemma numbering_try_catch {A} (m : M A) (h : Error -> M A) :
  numbering m -> (forall e, numbering (h e)) -> numbering (try_catch m h).
Proof.
  intros Hm Hh w Hw. unfold try_catch. specialize (Hm w Hw).
  destruct (m w) as [w1 [a|e|]]; simpl in *; try exact Hm.
  apply Hh, Hm.
Qed.

Lemma numbering_detached {A} (m : M A) : numbering m -> numbering (detached m).
Proof. intros Hm w Hw. apply Hm, Hw. Qed.

Lemma numbering_forget {A} (m : M A) : numbering m -> numbering (forget m).
Proof. intros Hm. apply numbering_bind; [exact Hm | intros; apply numbering_ret]. Qed.

Lemma numbering_when (b : bool) (m : M unit) : numbering m -> numbering (when b m).
Proof. intros Hm. destruct b; [exact Hm | apply numbering_ret]. Qed.

Lemma NoDup_three (n : nat) : NoDup [n; (n + 1)%nat; (n + 1 + 1)%nat].
Proof.
  repeat constructor; rewrite ?list_elem_of_In; simpl; lia.
Qed.

Lemma numbering_subscribe (p : Provider) : numbering (subscribe p).
Proof.
  intros w Hw.
  apply (well_numbered_fresh w _
           [ CallRemoveListener (pid p) connect_ (Bound connect_ (closures w));
             CallOn (pid p) accountsChanged
               (Bound accountsChanged (closures w + 1));
             CallOn (pid p) chainChanged OnChainChanged;
             CallOn (pid p) disconnect_ (Bound disconnect_ (closures w + 1 + 1)) ]
           Hw).
  - unfold subscribe, bind, bind_this, removeListener, on, modify, log_call.
    simpl. rewrite <- !app_assoc. reflexivity.
  - apply NoDup_three.
  - simpl. repeat constructor; lia.
  - simpl. lia.
Qed.

Lemma numbering_unsubscribe (p : Provider) : numbering (unsubscribe p).
Proof.
  intros w Hw.
  apply (well_numbered_fresh w _
           [ CallRemoveListener (pid p) accountsChanged
               (Bound accountsChanged (closures w));
             CallRemoveListener (pid p) chainChanged OnChainChanged;
             CallRemoveListener (pid p) disconnect_
               (Bound disconnect_ (closures w + 1));
             CallOn (pid p) connect_ (Bound connect_ (closures w + 1 + 1)) ]
           Hw).
  - unfold unsubscribe, bind, bind_this, removeListener, on, modify, log_call.
    simpl. rewrite <- !app_assoc. reflexivity.
  - apply NoDup_three.
  - simpl. repeat constructor; lia.
  - simpl. lia.
Qed.

Lemma numbering_injectionRace (timeout : Z) : numbering (injectionRace timeout).
Proof.
  assert (Hh : forall h w, calls (fst (handleEthereum imports parameters h w)) = calls w
                           /\ closures (fst (handleEthereum imports parameters h w))
                              = closures w).
  { intros h w. unfold handleEthereum, bind, gets, when, modify, ret.
    destruct (bool_decide (is_Some (window w))); simpl.
    - rewrite (getProvider_eq (removeEventListener h w)).
      destruct (snd (getProvider _)); split; reflexivity.
    - rewrite (getProvider_eq w). destruct (snd (getProvider _)); split; reflexivity. }
  apply numbering_keep. intros w. unfold Injected.injectionRace.
  destruct (window w).
  - destruct (race env _ timeout) as [signal win]. destruct signal.
    + destruct (Hh (closures w)
                  (dispatch_initialized
                     (set_window (Some win)
                        (addEventListener_once (S (closures w)) (new_closures 3 w)))))
        as [H1 H2].
      rewrite H1, H2. simpl. split; [reflexivity | lia].
    + destruct (Hh (closures w)
                  (set_window (Some win)
                     (addEventListener_once (S (closures w)) (new_closures 3 w))))
        as [H1 H2].
      rewrite H1, H2. simpl. split; [reflexivity | lia].
  - destruct (Hh (closures w) (new_closures 2 w)) as [H1 H2].
    rewrite H1, H2. simpl. split; [reflexivity | lia].
Qed.

Create HintDb numbers discriminated.
#[local] Hint Resolve numbering_ret numbering_throw numbering_gets numbering_lift
  numbering_emit numbering_set_storage numbering_change_confirmed
  numbering_request numbering_subscribe numbering_unsubscribe
  numbering_injectionRace : numbers.

Ltac numbering_step :=
  match goal with
  | |- numbering (bind _ _) => apply numbering_bind; [|intros]
  | |- numbering (try_catch _ _) => apply numbering_try_catch; [|intros]
  | |- numbering (detached _) => apply numbering_detached
  | |- numbering (forget _) => apply numbering_forget
  | |- numbering (when _ _) => apply numbering_when
  | |- numbering (match ?x with _ => _ end) => destruct x
  | |- numbering _ => solve [auto with numbers]
  | |- numbering _ =>
      progress unfold Injected.getProvider, this_id, storage_getConnected,
        storage_setConnected, storage_removeConnected, Injected.getAccounts,
        Injected.getChainId, selectAccounts, Injected.resolveAccounts,
        Injected.addChain, Injected.switchChain, Injected.switchIfRequested,
        connect_catch, Injected.connect_try, Injected.connect,
        Injected.disconnect, Injected.isAuthorized, Injected.isAuthorized_try,
        Injected.onChainChanged, Injected.onConnect, Injected.onDisconnect,
        Injected.onAccountsChanged
  end.

Ltac numbering_frame := repeat numbering_step.

Lemma numbering_setup : numbering setup.
Proof.
  intros w Hw. unfold Injected.setup, bind. rewrite (getProvider_eq w).
  destruct (snd (getProvider w)) as [[p|]|e|]; try exact Hw.
  destruct (target_set parameters); [|exact Hw].
  apply (well_numbered_fresh w _
           [ CallOn (pid p) accountsChanged (Bound accountsChanged (closures w));
             CallOn (pid p) connect_ (Bound connect_ (closures w + 1)) ]
           Hw).
  - unfold bind_this, on, modify, log_call. simpl. rewrite <- !app_assoc.
    reflexivity.
  - repeat constructor; rewrite ?list_elem_of_In; simpl; lia.
  - simpl. repeat constructor; lia.
  - simpl. lia.
Qed.

Lemma numbering_run (op : Op) : numbering (run op).
Proof.
  destruct op as [|c| | | | | |c|accts|chain|connectInfo|error];
    cbn [Injected.run]; try apply numbering_setup; numbering_frame.
Qed.

Lemma In_both_split {A} (a b : A) (l : list A) :
  In a l -> In b l -> a <> b ->
  exists l1 l2 l3,
    l = (l1 ++ a :: l2 ++ b :: l3)%list \/ l = (l1 ++ b :: l2 ++ a :: l3)%list.
Proof.
  intros Ha Hb Hne.
  apply in_split in Ha. destruct Ha as (l1 & l2 & ->).
  apply in_app_or in Hb. destruct Hb as [Hb|[Hb|Hb]].
  - apply in_split in Hb. destruct Hb as (m1 & m2 & ->).
    exists m1, m2, l2. right. rewrite <- app_assoc. reflexivity.
  - contradiction.
  - apply in_split in Hb. destruct Hb as (m1 & m2 & ->).
    exists l1, m1, m2. left. reflexivity.
Qed.

(** X19. In any run that starts from a world whose listeners are numbered in
    order (an empty log, for one), every function made by [bind] is handed to
    the provider exactly once.  So a [removeListener] with a bound function
    never names a function that an [on] has attached: of the listeners of a
    connection only [chainChanged], which is not bound, is removed with the
    function it was attached with. *)
Theorem X19_bound_listeners_never_reused (ops : list Op) (w : World) :
  well_numbered w ->
  well_numbered (execute ops w)
  /\ (forall p ev p' ev' e k,
        In (CallOn p ev (Bound e k)) (calls (execute ops w)) ->
        ~ In (CallRemoveListener p' ev' (Bound e k)) (calls (execute ops w))).
Proof.
  intros Hw.
  assert (Hex : well_numbered (execute ops w)).
  { revert w Hw. induction ops as [|op ops IH]; intros w Hw; simpl; [exact Hw|].
    apply IH, numbering_run, Hw. }
  split; [exact Hex|].
  intros p ev p' ev' e k Hon Hoff. destruct Hex as [Hd _].
  destruct (In_both_split _ _ _ Hon Hoff) as (l1 & l2 & l3 & [E|E]);
    [discriminate| |]; rewrite E in Hd;
    rewrite !bound_numbers_app in Hd; simpl in Hd;
    rewrite !bound_numbers_app in Hd; simpl in Hd;
    apply NoDup_app in Hd; destruct Hd as (_ & _ & Hd);
    apply NoDup_cons in Hd; destruct Hd as [Hd _]; apply Hd;
    rewrite list_elem_of_In; apply in_or_app; right; left; reflexivity.
Qed.

(** ** Accounts, names, reconnection *)

(** X20. [getAccounts] returns the accounts of [eth_accounts] one for one
    and in order.  Each is what [getAddress] gives when it is called with
    the address and, as [chainId], the position of the address in the list:
    that is what [accounts.map(getAddress)] passes.  If [getAccounts] throws
    on a provider that answered, the error is the one of the first address
    that [getAddress] refuses at its position. *)
Theorem X20_getAccounts_in_order (w : World) (p : Provider) (accts : list string) :
  getProvider w = (w, Returned (Some p)) ->
  reply env (pid p) (calls w) eth_accounts = Returned accts ->
  (forall checksummed,
     snd (getAccounts w) = Returned checksummed
     <-> checksummed_by_position imports accts checksummed)
  /\ (forall e,
        snd (getAccounts w) = Threw e ->
        exists pre x post,
          accts = (pre ++ x :: post)%list
          /\ getAddress imports x (Some (Z.of_nat (length pre))) = inl e
          /\ forall (i : nat) (x' : string),
               pre !! i = Some x' ->
               exists y, getAddress imports x' (Some (Z.of_nat i)) = inr y).
Proof.
  intros Hp Hr. rewrite (getAccounts_found w p Hp), Hr. unfold lift. split.
  - intros checksummed. rewrite <- map_getAddress_spec.
    destruct (map_getAddress imports accts); simpl; split; congruence.
  - intros e. destruct (map_getAddress imports accts) as [e'|ys] eqn:Em;
      simpl; [|discriminate].
    intros [= <-]. apply map_from_first_failure in Em. exact Em.
Qed.

(** X22. [onConnect], when the provider has accounts, emits ['connect']
    once with the normalized chain id and the accounts as [getAddress] gives
    them when called with each address and its position in the list, calls
    [removeListener] for ['connect'] with a new function, attaches the three
    listeners of a connection, and with the shim on writes [true] under
    ["<id>.connected"]. *)
Theorem X22_onConnect_with_accounts
    (w : World) (p : Provider) (t : Target) (connectInfo : string)
    (accts : list string) (a : Address) (rest : list Address) :
  getProvider w = (w, Returned (Some p)) ->
  getWindowProvider = inr t ->
  reply env (pid p) (calls w) eth_accounts = Returned accts ->
  checksummed_by_position imports accts (a :: rest) ->
  snd (onConnect connectInfo w) = Returned tt
  /\ emitted (fst (onConnect connectInfo w))
     = (emitted w
        ++ [EmitConnect (a :: rest) (normalizeChainId imports connectInfo)])%list
  /\ calls (fst (onConnect connectInfo w))
     = (calls w
        ++ [ CallRequest (pid p) eth_accounts;
             CallRemoveListener (pid p) connect_ (Bound connect_ (closures w));
             CallOn (pid p) accountsChanged
               (Bound accountsChanged (S (closures w)));
             CallOn (pid p) chainChanged OnChainChanged;
             CallOn (pid p) disconnect_
               (Bound disconnect_ (S (S (closures w)))) ])%list
  /\ storage (fst (onConnect connectInfo w))
     = if shimDisconnect
       then match storage w with
            | Some items => Some (<[id t ++ ".connected" := true]> items)
            | None => None
            end
       else storage w.
Proof.
  intros Hp Ht Hr Hm. apply map_getAddress_spec in Hm.
  set (w1 := log_emit (EmitConnect (a :: rest) (normalizeChainId imports connectInfo))
               (log_call (CallRequest (pid p) eth_accounts) w)).
  assert (Hp1 : getProvider w1 = (w1, Returned (Some p))).
  { rewrite (getProvider_eq w1), (getProvider_window w1 w) by reflexivity.
    rewrite Hp. reflexivity. }
  assert (E : onConnect connectInfo w
              = (do _ <- subscribe p;
                 when shimDisconnect (storage_setConnected imports parameters)) w1).
  { unfold Injected.onConnect. unfold bind at 1.
    rewrite (getAccounts_found w p Hp), Hr. unfold lift. rewrite Hm.
    cbn [ret length Nat.eqb]. unfold bind at 1. unfold emit, modify. fold w1.
    unfold bind at 1. rewrite Hp1. reflexivity. }
  rewrite E. clear E. unfold bind at 1 2 3 4.
  destruct (subscribe p w1) as [w2 out] eqn:Es.
  assert (Hs : out = Returned tt
               /\ emitted w2 = emitted w1 /\ storage w2 = storage w1
               /\ calls w2
                  = (calls w1
                     ++ [ CallRemoveListener (pid p) connect_
                            (Bound connect_ (closures w));
                          CallOn (pid p) accountsChanged
                            (Bound accountsChanged (S (closures w)));
                          CallOn (pid p) chainChanged OnChainChanged;
                          CallOn (pid p) disconnect_
                            (Bound disconnect_ (S (S (closures w)))) ])%list).
  { revert Es. unfold subscribe, bind, bind_this, removeListener, on, modify, log_call.
    simpl. intros [= <- <-]. simpl. rewrite <- !app_assoc, !Nat.add_1_r.
    repeat split. }
  destruct Hs as (-> & He & Hst & Hc).
  destruct (storage_setConnected_returns w2 t Ht) as [w3 H3]. rewrite H3.
  destruct (setConnected_returned w2 w3 t Ht H3) as [_ E3].
  assert (F : emitted w3 = emitted w2 /\ calls w3 = calls w2).
  { revert H3. destruct shimDisconnect; simpl.
    - unfold storage_setConnected, bind, gets, this_id, lift, ret, modify.
      destruct (storage w2); simpl.
      + rewrite Ht. simpl. intros [= <-]. split; reflexivity.
      + intros [= <-]. split; reflexivity.
    - intros [= <-]. split; reflexivity. }
  destruct F as [F1 F2]. simpl.
  split; [reflexivity|]. split; [rewrite F1, He; reflexivity|].
  split; [rewrite F2, Hc; unfold w1; simpl; rewrite <- !app_assoc; reflexivity|].
  rewrite E3, Hst. reflexivity.
Qed.

(** ** When the selection prompt is opened *)

Lemma only_calls_ext (P : Call -> bool) {A} (m m' : M A) :
  (forall w, m w = m' w) -> only_calls P m' -> only_calls P m.
Proof. intros E H w. rewrite E. apply H. Qed.

(** X23. Unless the target has the feature [wallet_requestPermissions] and
    the shim is on, [connect] goes straight to [eth_requestAccounts]: it
    sends neither [eth_accounts] nor [wallet_requestPermissions]. *)
Theorem X23_no_reselection (c : option Z) :
  shimDisconnect = false
  \/ (forall t fs, getWindowProvider = inr t -> features t = Some fs ->
                   existsb (String.eqb "wallet_requestPermissions") fs = false) ->
  only_calls (fun x => negb (asks_permissions x || is_eth_accounts x)) (connect c).
Proof.
  intros Hno.
  assert (Hres : forall p,
             only_calls (fun x => negb (asks_permissions x || is_eth_accounts x))
               (resolveAccounts p)).
  { intros p.
    apply (only_calls_ext _ _
             (do windowProvider <- lift getWindowProvider;
              do isDisconnected <-
                (if shimDisconnect
                 then do item <- storage_getConnected imports parameters;
                      ret (negb (truthy item))
                 else ret false);
              do accounts_ <- request env p eth_requestAccounts;
              lift (map_getAddress imports accounts_))).
    - intros w. unfold Injected.resolveAccounts, bind, lift.
      destruct getWindowProvider as [e|t] eqn:Et; [reflexivity|].
      cbn [ret throw].
      destruct Hno as [Hoff|Hfeat].
      + rewrite Hoff. cbn [ret]. rewrite andb_false_r. reflexivity.
      + assert (Hcan : match features t with
                       | Some fs => existsb (String.eqb "wallet_requestPermissions") fs
                       | None => false
                       end = false).
        { destruct (features t) as [fs|] eqn:Ef; [|reflexivity].
          apply (Hfeat t fs eq_refl Ef). }
        rewrite Hcan. cbn [andb].
        destruct shimDisconnect; [|reflexivity].
        destruct (storage_getConnected imports parameters w) as [w1 [b|e|]]; reflexivity.
    - only_frame. }
  unfold Injected.connect, Injected.connect_try, Injected.switchIfRequested,
    Injected.switchChain, Injected.addChain.
  only_frame.
Qed.

(** ** connect and the errors of the provider *)

Lemma connect_catch_surfaced {A} (e : Error) (w : World) :
  @connect_catch A e w = (w, Threw (surfaced e)).
Proof.
  unfold connect_catch, surfaced.
  destruct (decide (error_code e = Some 4001)) as [H|H].
  - apply code_is_true in H. rewrite H. reflexivity.
  - apply code_is_false in H. rewrite H.
    destruct (decide (error_code e = Some (-32002))) as [H'|H'].
    + apply code_is_true in H'. rewrite H'. reflexivity.
    + apply code_is_false in H'. rewrite H'. reflexivity.
Qed.

(** Where a call stands in a log: a call that [P] excludes, after calls
    that [P] allows, is found at one place only. *)
Lemma first_position (P : Call -> bool) (x : Call)
    (l0 rest before after : list Call) :
  P x = false ->
  forallb P l0 = true ->
  forallb P before = true ->
  (l0 ++ x :: rest = before ++ x :: after)%list ->
  before = l0.
Proof.
  intros Hx. revert before. induction l0 as [|a l0 IH]; intros before H0 Hb E.
  - destruct before as [|b before]; [reflexivity|].
    simpl in E. injection E as <- _. simpl in Hb. rewrite Hx in Hb. discriminate Hb.
  - destruct before as [|b before]; simpl in E.
    + injection E as -> _. simpl in H0. rewrite Hx in H0. discriminate H0.
    + injection E as <- E. simpl in H0, Hb.
      apply andb_true_iff in H0, Hb. f_equal. apply IH; tauto.
Qed.

Lemma only_position (P : Call -> bool) (x : Call)
    (l0 rest before after : list Call) :
  P x = false ->
  forallb P l0 = true ->
  forallb P rest = true ->
  (l0 ++ x :: rest = before ++ x :: after)%list ->
  before = l0.
Proof.
  intros Hx. revert before. induction l0 as [|a l0 IH]; intros before H0 Hr E.
  - destruct before as [|b before]; [reflexivity|].
    simpl in E. injection E as <- E. subst rest.
    rewrite forallb_app in Hr. simpl in Hr. rewrite Hx in Hr.
    rewrite andb_false_r in Hr. discriminate Hr.
  - destruct before as [|b before]; simpl in E.
    + injection E as -> _. simpl in H0. rewrite Hx in H0. discriminate H0.
    + injection E as <- E. simpl in H0. apply andb_true_iff in H0.
      f_equal. apply IH; tauto.
Qed.

Lemma not_in_allowed (P : Call -> bool) (x : Call) (l before after : list Call) :
  P x = false -> forallb P l = true -> l <> (before ++ x :: after)%list.
Proof.
  intros Hx Hl ->. rewrite forallb_app in Hl. simpl in Hl. rewrite Hx in Hl.
  rewrite andb_false_r in Hl. discriminate Hl.
Qed.

(** The first part of a sequence, run apart: it ends the sequence, or hands
    a value to the rest.  The calls since [base] are kept. *)
Lemma run_prefix (P : Call -> bool) {A C} (m : M A) (k : A -> M C)
    (base w : World) (l : list Call) :
  calls w = (calls base ++ l)%list ->
  forallb P l = true ->
  only_calls P m ->
  exists w1 l1,
    calls w1 = (calls base ++ l1)%list
    /\ forallb P l1 = true
    /\ ((exists o, bind m k w = (w1, o)) \/ (exists a, bind m k w = k a w1)).
Proof.
  intros Hl HP Hm. destruct (Hm w) as (l' & Hl' & HP'). unfold bind.
  destruct (m w) as [w1 [a|e|]]; simpl in Hl'; exists w1, (l ++ l')%list;
    (split; [rewrite Hl', Hl, app_assoc; reflexivity|]);
    (split; [rewrite forallb_app, HP, HP'; reflexivity|]); eauto.
Qed.

(** Run apart the first part of the sequence that is applied to [w0]. *)
Ltac prefix P base w0 Hc HP w1 l1 Hc1 HP1 a :=
  let o := fresh "o" in
  let E := fresh "E" in
  match goal with
  | |- context [bind ?m ?k w0] =>
      destruct (run_prefix P m k base w0 _ Hc HP)
        as (w1 & l1 & Hc1 & HP1 & [[o E]|[a E]]);
        [ only_frame
        | exists w1, l1; split; [exact Hc1|]; split; [exact HP1|]; left; eauto
        | rewrite E; clear E ]
  end.

Lemma bind_assoc {A B C} (m : M A) (g : A -> M B) (f : B -> M C) (w : World) :
  bind (bind m g) f w = bind m (fun a => bind (g a) f) w.
Proof. unfold bind. destruct (m w) as [w1 [a|e|]]; reflexivity. Qed.

(** How the accounts of [connect] are found: without [eth_requestAccounts],
    or by that request, made last. *)
Lemma resolveAccounts_asks (p : Provider) (w : World) :
  exists w3 l0,
    calls w3 = (calls w ++ l0)%list
    /\ forallb (fun c => negb (is_eth_requestAccounts c)) l0 = true
    /\ ((exists o, resolveAccounts p w = (w3, o))
        \/ resolveAccounts p w
           = (do accounts_ <- request env p eth_requestAccounts;
              lift (map_getAddress imports accounts_)) w3).
Proof.
  unfold Injected.resolveAccounts.
  set (P := fun c => negb (is_eth_requestAccounts c)).
  assert (Hc0 : calls w = (calls w ++ [])%list) by (rewrite app_nil_r; reflexivity).
  assert (HP0 : forallb P [] = true) by reflexivity.
  prefix P w w Hc0 HP0 w1 l1 Hc1 HP1 t.
  prefix P w w1 Hc1 HP1 w2 l2 Hc2 HP2 isDisconnected.
  prefix P w w2 Hc2 HP2 w3 l3 Hc3 HP3 found.
  exists w3, l3. split; [exact Hc3|]. split; [exact HP3|].
  destruct found as [[|a rest]|]; [right; reflexivity | | right; reflexivity].
  left. eexists. reflexivity.
Qed.

(** The same for [wallet_requestPermissions]: it is not sent, or the
    selection is made with accounts in hand and all that follows is the end
    of [resolveAccounts]. *)
Lemma resolveAccounts_selects (p : Provider) (w : World) :
  exists w3 l0,
    calls w3 = (calls w ++ l0)%list
    /\ forallb (fun c => negb (asks_permissions c)) l0 = true
    /\ ((exists o, resolveAccounts p w = (w3, o))
        \/ exists accounts,
             resolveAccounts p w
             = (do accounts <- selectAccounts imports env p accounts;
                match accounts with
                | Some (a :: rest) => ret (a :: rest)
                | _ =>
                    do accounts_ <- request env p eth_requestAccounts;
                    lift (map_getAddress imports accounts_)
                end) w3).
Proof.
  unfold Injected.resolveAccounts.
  set (P := fun c => negb (asks_permissions c)).
  assert (Hc0 : calls w = (calls w ++ [])%list) by (rewrite app_nil_r; reflexivity).
  assert (HP0 : forallb P [] = true) by reflexivity.
  prefix P w w Hc0 HP0 w1 l1 Hc1 HP1 t.
  prefix P w w1 Hc1 HP1 w2 l2 Hc2 HP2 isDisconnected.
  set (rest_of := fun accounts : option (list Address) =>
                    match accounts with
                    | Some (a :: rest) => ret (a :: rest)
                    | _ =>
                        do accounts_ <- request env p eth_requestAccounts;
                        lift (map_getAddress imports accounts_)
                    end).
  assert (Hrest : forall accounts,
             only_calls (fun c => negb (asks_permissions c)) (rest_of accounts)).
  { intros accounts. unfold rest_of. only_frame. }
  assert (Hend : forall accounts w0 l,
             calls w0 = (calls w ++ l)%list ->
             forallb (fun c => negb (asks_permissions c)) l = true ->
             exists w3 l0,
               calls w3 = (calls w ++ l0)%list
               /\ forallb (fun c => negb (asks_permissions c)) l0 = true
               /\ exists o, rest_of accounts w0 = (w3, o)).
  { intros accounts w0 l Hl HP. destruct (Hrest accounts w0) as (l' & Hl' & HP').
    exists (fst (rest_of accounts w0)), (l ++ l')%list.
    split; [rewrite Hl', Hl, app_assoc; reflexivity|].
    split; [rewrite forallb_app, HP, HP'; reflexivity|].
    exists (snd (rest_of accounts w0)). apply surjective_pairing. }
  destruct (_ && isDisconnected).
  - rewrite bind_assoc.
    prefix P w w2 Hc2 HP2 w3 l3 Hc3 HP3 found.
    destruct (nonempty found).
    + exists w3, l3. split; [exact Hc3|]. split; [exact HP3|].
      right. exists found. reflexivity.
    + destruct (Hend found w3 l3 Hc3 HP3) as (w4 & l4 & Hc4 & HP4 & o & E).
      exists w4, l4. split; [exact Hc4|]. split; [exact HP4|]. left. exists o.
      exact E.
  - destruct (Hend None w2 l2 Hc2 HP2) as (w4 & l4 & Hc4 & HP4 & o & E).
    exists w4, l4. split; [exact Hc4|]. split; [exact HP4|]. left. exists o.
    exact E.
Qed.

(** [connect], from the accounts on. *)
Lemma connect_after (P : Call -> bool) (c : option Z) (p : Provider)
    (w w1 : World) (o1 : Outcome (list Address)) :
  getProvider w = (w, Returned (Some p)) ->
  resolveAccounts p w = (w1, o1) ->
  (forall a : list Address,
     only_calls P
       (do _ <- subscribe p;
        do currentChainId <- getChainId;
        do currentChainId <- switchIfRequested c currentChainId;
        do _ <- when shimDisconnect (storage_setConnected imports parameters);
        ret {| accounts := a; chainId := currentChainId |})) ->
  exists rest,
    calls (fst (connect c w)) = (calls w1 ++ rest)%list
    /\ forallb P rest = true
    /\ (forall e, o1 = Threw e -> connect c w = (w1, Threw (surfaced e))).
Proof.
  intros Hp Hres Hrest.
  assert (E : connect c w = try_catch (connect_try p c) connect_catch w).
  { unfold Injected.connect, bind. rewrite Hp. reflexivity. }
  assert (Et : connect_try p c w
               = match o1 with
                 | Returned a =>
                     (do _ <- subscribe p;
                      do currentChainId <- getChainId;
                      do currentChainId <- switchIfRequested c currentChainId;
                      do _ <- when shimDisconnect
                                (storage_setConnected imports parameters);
                      ret {| accounts := a; chainId := currentChainId |}) w1
                 | Threw e => (w1, Threw e)
                 | Pending => (w1, Pending)
                 end).
  { unfold Injected.connect_try. unfold bind at 1. rewrite Hres.
    destruct o1; reflexivity. }
  rewrite E. unfold try_catch. rewrite Et. clear E Et. destruct o1 as [a|e|].
  - destruct (Hrest a w1) as (l & Hl & HP). exists l.
    destruct (bind (subscribe p) _ w1) as [w2 [r|e|]]; simpl in Hl;
      rewrite ?connect_catch_surfaced; (split; [exact Hl|]);
      (split; [exact HP|]); intros e0; discriminate.
  - rewrite connect_catch_surfaced. exists []. rewrite app_nil_r.
    split; [reflexivity|]. split; [reflexivity|]. intros e0 [= <-]. reflexivity.
  - exists []. rewrite app_nil_r.
    split; [reflexivity|]. split; [reflexivity|]. intros e0. discriminate.
Qed.

(** [subscribe] returns, makes listener calls only and leaves the window
    alone. *)
Lemma subscribe_returns (p : Provider) (w : World) :
  exists w' l,
    subscribe p w = (w', Returned tt)
    /\ window w' = window w
    /\ calls w' = (calls w ++ l)%list
    /\ forallb listener_call l = true.
Proof.
  unfold subscribe, bind, bind_this, removeListener, on, modify.
  eexists. eexists. split; [reflexivity|]. split; [reflexivity|].
  simpl. rewrite <- !app_assoc. simpl. split; reflexivity.
Qed.

(** [connect] when the accounts are not selected again. *)
Lemma connect_direct (c : option Z) (p : Provider) (w : World) :
  getProvider w = (w, Returned (Some p)) ->
  shimDisconnect = false
  \/ (forall t fs, getWindowProvider = inr t -> features t = Some fs ->
                   existsb (String.eqb "wallet_requestPermissions") fs = false) ->
  resolveAccounts p w
  = (do accounts_ <- request env p eth_requestAccounts;
     lift (map_getAddress imports accounts_)) w.
Proof.
  intros Hp Hno. destruct (getProvider_found w p Hp) as [t Ht].
  unfold Injected.resolveAccounts. unfold bind at 1. rewrite Ht. cbn [lift ret].
  unfold bind at 1. rewrite (read_shim w t Ht).
  destruct Hno as [Hoff|Hfeat].
  - rewrite Hoff. cbn [andb]. rewrite andb_false_r. reflexivity.
  - assert (Hcan : match features t with
                   | Some fs => existsb (String.eqb "wallet_requestPermissions") fs
                   | None => false
                   end = false).
    { destruct (features t) as [fs|] eqn:Ef; [|reflexivity].
      apply (Hfeat t fs Ht Ef). }
    rewrite Hcan. reflexivity.
Qed.

(** What [connect] does once it has its accounts: listener calls, the read
    of the chain and the chain switch. *)
Lemma only_after_accounts (P : Call -> bool) (p : Provider) (c : option Z)
    (a : list Address) :
  (forall q ev h, P (CallOn q ev h) = true) ->
  (forall q ev h, P (CallRemoveListener q ev h) = true) ->
  (forall q, P (CallRequest q eth_chainId) = true) ->
  (forall q x, P (CallRequest q (wallet_switchEthereumChain x)) = true) ->
  (forall q x, P (CallRequest q (wallet_addEthereumChain x)) = true) ->
  only_calls P
    (do _ <- subscribe p;
     do currentChainId <- getChainId;
     do currentChainId <- switchIfRequested c currentChainId;
     do _ <- when shimDisconnect (storage_setConnected imports parameters);
     ret {| accounts := a; chainId := currentChainId |}).
Proof.
  intros H1 H2 H3 H4 H5.
  unfold Injected.switchIfRequested, Injected.switchChain, Injected.addChain.
  repeat first
    [ apply only_request; solve [auto]
    | apply only_log; solve [auto]
    | only_step ].
Qed.

(** A rejected [eth_requestAccounts] ends [connect]. *)
Lemma connect_requestAccounts_rejected
    (w : World) (chainId : option Z) (p : Provider) (error : Error)
    (before : list Call) :
  getProvider w = (w, Returned (Some p)) ->
  rejected_after env w (fst (connect chainId w)) before p eth_requestAccounts error ->
  snd (connect chainId w) = Threw (surfaced error).
Proof.
  intros Hp. set (w' := fst (connect chainId w)). set (out := snd (connect chainId w)).
  intros [[after Hcalls] Hrej].
  set (P := fun c => negb (is_eth_requestAccounts c)).
  assert (HK : forall a : list Address,
             only_calls P
               (do _ <- subscribe p;
                do currentChainId <- getChainId;
                do currentChainId <- switchIfRequested chainId currentChainId;
                do _ <- when shimDisconnect
                          (storage_setConnected imports parameters);
                ret {| accounts := a; chainId := currentChainId |}))
    by (intros a; apply only_after_accounts; reflexivity).
  destruct (resolveAccounts_asks p w) as (w3 & l0 & Hc3 & HP0 & [[o E]|E]).
  - exfalso.
    destruct (connect_after P chainId p w w3 o Hp E HK) as (rest & Hc & HPr & _).
    fold w' in Hc. rewrite Hc, Hc3, <- app_assoc in Hcalls.
    apply app_inv_head in Hcalls. revert Hcalls.
    apply (not_in_allowed P); [reflexivity|].
    rewrite forallb_app. apply andb_true_iff. split; assumption.
  - set (w4 := log_call (CallRequest (pid p) eth_requestAccounts) w3).
    assert (E' : exists o,
               resolveAccounts p w = (w4, o)
               /\ (forall e, reply env (pid p) (calls w3) eth_requestAccounts
                             = Threw e -> o = Threw e)).
    { rewrite E. unfold bind, request. fold w4.
      destruct (reply env (pid p) (calls w3) eth_requestAccounts) as [accts|e|].
      - exists (snd (lift (map_getAddress imports accts) w4)).
        split; [|intros e; discriminate].
        destruct (map_getAddress imports accts); reflexivity.
      - eexists. split; [reflexivity|]. intros e0 [= <-]. reflexivity.
      - eexists. split; [reflexivity|]. intros e0. discriminate. }
    destruct E' as (o & Eo & Hthrew).
    destruct (connect_after P chainId p w w4 o Hp Eo HK) as (rest & Hc & HPr & Hend).
    fold w' in Hc. unfold w4 in Hc. simpl in Hc.
    rewrite Hc, Hc3, <- !app_assoc in Hcalls. simpl in Hcalls.
    apply app_inv_head in Hcalls.
    assert (before = l0) as ->
      by (apply (only_position P (CallRequest (pid p) eth_requestAccounts)
                   l0 rest before after eq_refl HP0 HPr Hcalls)).
    rewrite <- Hc3 in Hrej. unfold out.
    rewrite (Hend error (Hthrew error Hrej)). reflexivity.
Qed.

(** So does a rejected first [eth_chainId]. *)
Lemma connect_chainId_rejected
    (w : World) (chainId : option Z) (p : Provider) (error : Error)
    (before : list Call) :
  getProvider w = (w, Returned (Some p)) ->
  forallb (fun c => negb (is_eth_chainId c)) before = true ->
  rejected_after env w (fst (connect chainId w)) before p eth_chainId error ->
  snd (connect chainId w) = Threw (surfaced error).
Proof.
  intros Hp. set (w' := fst (connect chainId w)). set (out := snd (connect chainId w)).
  intros Hfirst [[after Hcalls] Hrej].
  set (P := fun c => negb (is_eth_chainId c)).
  assert (Hres : only_calls P (resolveAccounts p)) by (unfold P; only_frame).
  destruct (Hres w) as (l & Hl & HP).
  assert (Kw : window (fst (resolveAccounts p w)) = window w)
    by (apply (field_resolveAccounts window); reflexivity).
  assert (E : connect chainId w = try_catch (connect_try p chainId) connect_catch w).
  { unfold Injected.connect, bind. rewrite Hp. reflexivity. }
  destruct (resolveAccounts p w) as [w1 [a|e|]] eqn:E1; simpl in Hl, Kw.
  - destruct (subscribe_returns p w1) as (w2 & ls & Hs & Hw2 & Hc2 & HPs).
    assert (Hp2 : getProvider w2 = (w2, Returned (Some p))).
    { rewrite (getProvider_eq w2), (getProvider_window w2 w) by congruence.
      rewrite Hp. reflexivity. }
    set (w3 := log_call (CallRequest (pid p) eth_chainId) w2).
    assert (Hgrow : exists rest,
               calls w' = (calls w3 ++ rest)%list
               /\ (forall e0, reply env (pid p) (calls w2) eth_chainId = Threw e0 ->
                              out = Threw (surfaced e0))).
    { assert (Et : connect_try p chainId w
                   = match reply env (pid p) (calls w2) eth_chainId with
                     | Returned hex =>
                         (do currentChainId <-
                            switchIfRequested chainId
                              (normalizeChainId imports hex);
                          do _ <- when shimDisconnect
                                    (storage_setConnected imports parameters);
                          ret {| accounts := a; chainId := currentChainId |}) w3
                     | Threw e => (w3, Threw e)
                     | Pending => (w3, Pending)
                     end).
      { unfold Injected.connect_try. unfold bind at 1. rewrite E1.
        unfold bind at 1. rewrite Hs.
        unfold bind at 1. rewrite (getChainId_found w2 p Hp2). fold w3.
        destruct (reply env (pid p) (calls w2) eth_chainId); reflexivity. }
      unfold w', out. rewrite E. unfold try_catch. rewrite Et. clear Et.
      destruct (reply env (pid p) (calls w2) eth_chainId) as [hex|e|].
      - assert (Hmore : forall current,
                   only_calls (fun _ => true)
                     (do currentChainId <- switchIfRequested chainId current;
                      do _ <- when shimDisconnect
                                (storage_setConnected imports parameters);
                      ret {| accounts := a; chainId := currentChainId |})).
        { intros current. unfold Injected.switchIfRequested,
            Injected.switchChain, Injected.addChain. only_frame. }
        destruct (Hmore (normalizeChainId imports hex) w3) as (rest & Hr & _).
        exists rest. split; [|intros e0; discriminate].
        destruct (bind (switchIfRequested chainId _) _ w3) as [w4 [r|e|]];
          simpl in Hr; rewrite ?connect_catch_surfaced; exact Hr.
      - rewrite connect_catch_surfaced. exists []. rewrite app_nil_r.
        split; [reflexivity|]. intros e0 [= <-]. reflexivity.
      - exists []. rewrite app_nil_r. split; [reflexivity|].
        intros e0. discriminate. }
    destruct Hgrow as (rest & Hc & Hend).
    unfold w3 in Hc. simpl in Hc.
    rewrite Hc, Hc2, Hl, <- !app_assoc in Hcalls. simpl in Hcalls.
    apply app_inv_head in Hcalls. rewrite app_assoc in Hcalls.
    assert (before = (l ++ ls)%list) as ->.
    { apply (first_position P (CallRequest (pid p) eth_chainId)
               (l ++ ls)%list rest before after eq_refl);
        [|exact Hfirst | exact Hcalls].
      rewrite forallb_app, HP. simpl.
      clear -HPs. induction ls as [|x ls IH]; [reflexivity|].
      simpl in *. apply andb_true_iff in HPs. destruct HPs as [Hx Hls].
      rewrite (IH Hls), andb_true_r. destruct x; try reflexivity; discriminate Hx. }
    apply Hend. rewrite Hc2, Hl, <- app_assoc. exact Hrej.
  - exfalso. unfold w' in Hcalls. rewrite E in Hcalls. unfold try_catch in Hcalls.
    assert (Et : connect_try p chainId w = (w1, Threw e)).
    { unfold Injected.connect_try, bind. rewrite E1. reflexivity. }
    rewrite Et, connect_catch_surfaced in Hcalls. simpl in Hcalls.
    rewrite Hl in Hcalls. apply app_inv_head in Hcalls. revert Hcalls.
    apply (not_in_allowed P); [reflexivity | exact HP].
  - exfalso. unfold w' in Hcalls. rewrite E in Hcalls. unfold try_catch in Hcalls.
    assert (Et : connect_try p chainId w = (w1, Pending)).
    { unfold Injected.connect_try, bind. rewrite E1. reflexivity. }
    rewrite Et in Hcalls. simpl in Hcalls.
    rewrite Hl in Hcalls. apply app_inv_head in Hcalls. revert Hcalls.
    apply (not_in_allowed P); [reflexivity | exact HP].
Qed.

(** A [wallet_requestPermissions] rejected with a code that the inner
    [catch] lets through ends [connect] as well. *)
Lemma connect_permissions_rejected
    (w : World) (chainId : option Z) (p : Provider) (error : Error)
    (before : list Call) :
  getProvider w = (w, Returned (Some p)) ->
  rejected_after env w (fst (connect chainId w)) before p
    wallet_requestPermissions error ->
  (error_code error = Some 4001 ->
   snd (connect chainId w)
   = Threw (UserRejectedRequestError (UserRejectedRequestError error)))
  /\ (error_code error = Some (-32002) ->
      snd (connect chainId w) = Threw (ResourceUnavailableRpcError error)).
Proof.
  intros Hp. set (w' := fst (connect chainId w)). set (out := snd (connect chainId w)).
  intros [[after Hcalls] Hrej].
  set (P := fun c => negb (asks_permissions c)).
  assert (HK : forall a : list Address,
             only_calls P
               (do _ <- subscribe p;
                do currentChainId <- getChainId;
                do currentChainId <- switchIfRequested chainId currentChainId;
                do _ <- when shimDisconnect
                          (storage_setConnected imports parameters);
                ret {| accounts := a; chainId := currentChainId |}))
    by (intros a; apply only_after_accounts; reflexivity).
  destruct (resolveAccounts_selects p w)
    as (w3 & l0 & Hc3 & HP0 & [[o E]|[accounts E]]).
  - exfalso.
    destruct (connect_after P chainId p w w3 o Hp E HK) as (rest & Hc & HPr & _).
    fold w' in Hc. rewrite Hc, Hc3, <- app_assoc in Hcalls.
    apply app_inv_head in Hcalls. revert Hcalls.
    apply (not_in_allowed P); [reflexivity|].
    rewrite forallb_app. apply andb_true_iff. split; assumption.
  - set (w4 := log_call (CallRequest (pid p) wallet_requestPermissions) w3).
    assert (E' : exists w5 o l1,
               resolveAccounts p w = (w5, o)
               /\ calls w5 = (calls w4 ++ l1)%list
               /\ forallb P l1 = true
               /\ (forall e,
                     reply env (pid p) (calls w3) wallet_requestPermissions
                     = Threw e ->
                     (error_code e = Some 4001 ->
                      (w5, o) = (w4, Threw (UserRejectedRequestError e)))
                     /\ (error_code e = Some (-32002) ->
                         (w5, o) = (w4, Threw e)))).
    { assert (Hsel : exists so,
                 selectAccounts imports env p accounts w3 = (w4, so)
                 /\ (forall e,
                       reply env (pid p) (calls w3) wallet_requestPermissions
                       = Threw e ->
                       (error_code e = Some 4001 ->
                        so = Threw (UserRejectedRequestError e))
                       /\ (error_code e = Some (-32002) -> so = Threw e))).
      { exists (snd (selectAccounts imports env p accounts w3)). split.
        - rewrite (surjective_pairing (selectAccounts imports env p accounts w3)).
          f_equal. unfold selectAccounts, try_catch, bind, request. fold w4.
          destruct (reply env (pid p) (calls w3) wallet_requestPermissions)
            as [permissions|e|]; [| |reflexivity].
          + destruct (first_caveat_value permissions) as [addresses|];
              [|reflexivity].
            unfold lift.
            destruct (map_getAddress imports addresses) as [e|selected];
              [|reflexivity].
            unfold throw.
            destruct (code_is (error_code e) 4001); [reflexivity|].
            destruct (same_code _ _); reflexivity.
          + destruct (code_is (error_code e) 4001); [reflexivity|].
            destruct (same_code _ _); reflexivity.
        - intros e He. unfold selectAccounts, try_catch, bind, request.
          rewrite He. split.
          + intros Hc. apply code_is_true in Hc. rewrite Hc. reflexivity.
          + intros Hc.
            assert (H1 : code_is (error_code e) 4001 = false).
            { apply code_is_false. rewrite Hc. discriminate. }
            rewrite H1. unfold same_code. cbn [error_code]. rewrite Hc.
            reflexivity. }
      destruct Hsel as (so & Hsel & Hso).
      set (rest_of := fun found : option (list Address) =>
                        match found with
                        | Some (a :: rest) => ret (a :: rest)
                        | _ =>
                            do accounts_ <- request env p eth_requestAccounts;
                            lift (map_getAddress imports accounts_)
                        end) in E.
      assert (Hf : forall found, only_calls P (rest_of found))
        by (intros found; unfold rest_of, P; only_frame).
      rewrite E. unfold bind at 1. rewrite Hsel.
      destruct so as [a'|e|].
      - destruct (Hf a' w4) as (l1 & Hl1 & HP1).
        exists (fst (rest_of a' w4)), (snd (rest_of a' w4)), l1.
        split; [apply surjective_pairing|]. split; [exact Hl1|].
        split; [exact HP1|].
        intros e He. destruct (Hso e He) as [H1 H2].
        split; intros Hc; [specialize (H1 Hc) | specialize (H2 Hc)]; discriminate.
      - exists w4, (Threw e), []. rewrite app_nil_r.
        split; [reflexivity|]. split; [reflexivity|]. split; [reflexivity|].
        intros e0 He. destruct (Hso e0 He) as [H1 H2].
        split; intros Hc; [specialize (H1 Hc) | specialize (H2 Hc)]; congruence.
      - exists w4, Pending, []. rewrite app_nil_r.
        split; [reflexivity|]. split; [reflexivity|]. split; [reflexivity|].
        intros e0 He. destruct (Hso e0 He) as [H1 H2].
        split; intros Hc; [specialize (H1 Hc) | specialize (H2 Hc)]; discriminate. }
    destruct E' as (w5 & o & l1 & Eo & Hc5 & HP1 & Hthrew).
    destruct (connect_after P chainId p w w5 o Hp Eo HK) as (rest & Hc & HPr & Hend).
    fold w' in Hc. unfold w4 in Hc5. simpl in Hc5.
    rewrite Hc, Hc5, Hc3, <- !app_assoc in Hcalls. simpl in Hcalls.
    apply app_inv_head in Hcalls.
    assert (before = l0) as ->.
    { apply (only_position P (CallRequest (pid p) wallet_requestPermissions)
               l0 (l1 ++ rest)%list before after eq_refl HP0);
        [|exact Hcalls].
      rewrite forallb_app, HP1, HPr. reflexivity. }
    rewrite <- Hc3 in Hrej. destruct (Hthrew error Hrej) as [H1 H2].
    split; intros Hcode.
    + specialize (H1 Hcode). injection H1 as -> ->.
      unfold out. rewrite (Hend _ eq_refl). reflexivity.
    + specialize (H2 Hcode). injection H2 as -> ->.
      unfold out. rewrite (Hend _ eq_refl). cbn [snd].
      unfold surfaced. rewrite Hcode. reflexivity.
Qed.

(** C2, as the code has it.  Take a [connect] that has found its provider.
    - If the wallet rejects the [eth_requestAccounts] that [connect] sends,
      [connect] ends there: the caller gets a [UserRejectedRequestError]
      when the code is 4001, a [ResourceUnavailableRpcError] when it is
      -32002, and the wallet's error as it is otherwise.  When the accounts
      are not selected again (shim off, or a target without
      [wallet_requestPermissions]) this request is the first thing [connect]
      does.
    - The same holds when the wallet rejects the first [eth_chainId] of
      [connect], the one that reads the current chain.
    - If the wallet rejects [wallet_requestPermissions] with code 4001 the
      caller gets a [UserRejectedRequestError], and with code -32002 a
      [ResourceUnavailableRpcError].
    - Whenever [connect] throws, the storage is what it was before the
      call: the shim entry has not been written.
    (The errors that [connect] absorbs are those of its best-effort steps:
    the [eth_accounts] read before the selection, a
    [wallet_requestPermissions] rejected with another code, and the chain
    switch.) *)
Theorem C2_connect_errors
    (w : World) (chainId : option Z) (p : Provider) (error : Error) :
  getProvider w = (w, Returned (Some p)) ->
  let w' := fst (connect chainId w) in
  let out := snd (connect chainId w) in
  (forall before,
     rejected_after env w w' before p eth_requestAccounts error ->
     out = Threw (surfaced error))
  /\ ((shimDisconnect = false
       \/ (forall t fs, getWindowProvider = inr t -> features t = Some fs ->
                        existsb (String.eqb "wallet_requestPermissions") fs = false)) ->
      reply env (pid p) (calls w) eth_requestAccounts = Threw error ->
      connect chainId w
      = (log_call (CallRequest (pid p) eth_requestAccounts) w,
         Threw (surfaced error)))
  /\ (forall before,
        forallb (fun c => negb (is_eth_chainId c)) before = true ->
        rejected_after env w w' before p eth_chainId error ->
        out = Threw (surfaced error))
  /\ (forall before,
        rejected_after env w w' before p wallet_requestPermissions error ->
        (error_code error = Some 4001 ->
         out = Threw (UserRejectedRequestError (UserRejectedRequestError error)))
        /\ (error_code error = Some (-32002) ->
            out = Threw (ResourceUnavailableRpcError error)))
  /\ (forall e, out = Threw e -> storage w' = storage w).
Proof.
  intros Hp w' out. split; [|split; [|split; [|split]]].
  - intros before. apply connect_requestAccounts_rejected, Hp.
  - intros Hno Hr.
    unfold Injected.connect, bind at 1. rewrite Hp.
    unfold try_catch, Injected.connect_try. unfold bind at 1.
    rewrite (connect_direct chainId p w Hp Hno).
    unfold bind, request. rewrite Hr. apply connect_catch_surfaced.
  - intros before Hfirst. apply connect_chainId_rejected; assumption.
  - intros before. apply connect_permissions_rejected, Hp.
  - intros e H. destruct (sets_connect chainId w) as [Hs|[_ [r Hr]]].
    + exact Hs.
    + unfold out in H. rewrite H in Hr. discriminate Hr.
Qed.

End Properties.

(** * Worked configurations *)

(** For a target without a descriptor of its own, [getProvider] looks for
    the provider with a condition that is always true. *)
Lemma getProvider_synthesized
    (imports : Imports) (parameters : InjectedParameters) (t capitalized : string)
    (w : World) (win : Window) :
  target parameters = Some (TargetId t) ->
  targetMap t = None ->
  capitalize (upperCase imports) t = inr capitalized ->
  window w = Some win ->
  getWindowProvider imports parameters
  = inr {| id := t; name := Some capitalized;
           provider := ByFlag ("is" ++ capitalized); features := None |}
  /\ getProvider imports parameters w
     = (w, Returned (findProvider (Some win) (fun _ => true))).
Proof.
  intros Ht Hm Hc Hw.
  assert (E : getWindowProvider imports parameters
              = inr {| id := t; name := Some capitalized;
                       provider := ByFlag ("is" ++ capitalized); features := None |}).
  { unfold getWindowProvider. rewrite Ht, Hm, Hc. reflexivity. }
  split; [exact E|].
  unfold getProvider, bind, gets. rewrite Hw, E. reflexivity.
Qed.

(** C4, where the code departs from it.  The target ["rainbow"] has no
    descriptor of its own: the one that is made asks for the flag
    [isRainbow].  [getProvider] does not use it.  From a list of
    sub-providers it returns the first entry, here MetaMask, which does not
    have the flag, and not the first entry that has it; a single ambient
    provider without the flag is returned as well. *)
Theorem C4_getProvider_ignores_flag :
  getWindowProvider Sample.imports Sample.rainbow_parameters
  = inr {| id := "rainbow"; name := Some "Rainbow"; provider := ByFlag "isRainbow";
           features := None |}
  /\ flag Sample.metaMask "isRainbow" = false
  /\ (let win := Sample.several Sample.metaMask [Sample.metaMask; Sample.rainbow] in
      snd (getProvider Sample.imports Sample.rainbow_parameters (Sample.world_of (Some win) None))
      = Returned (Some Sample.metaMask)
      /\ findProvider (Some win) (flag_condition "isRainbow") = Some Sample.rainbow)
  /\ (let win := Sample.single Sample.metaMask in
      snd (getProvider Sample.imports Sample.rainbow_parameters (Sample.world_of (Some win) None))
      = Returned (Some Sample.metaMask)
      /\ findProvider (Some win) (flag_condition "isRainbow") = None).
Proof. repeat split; reflexivity. Qed.

(** C8 as it is written fails in two places.  Without a provider the call
    throws [ProviderNotFoundError] before the registry is looked at.  And an
    error with code 4001 that carries 4902 at [data.originalError.code] goes
    to the add-chain step, which here returns the chain. *)
Lemma C8_counterexample :
  (List.find (fun x => chain_id x =? 5) Sample.chains = None
   /\ snd (switchChain Sample.imports Sample.wallet Sample.metaMask_parameters
             Sample.chains 5 Sample.headless)
      = Threw ProviderNotFoundError
   /\ snd (switchChain Sample.imports Sample.wallet Sample.metaMask_parameters
             Sample.chains 5 Sample.headless)
      <> Threw (SwitchChainError ChainNotConfiguredError))
  /\ (reply Sample.nesting_wallet 1 (calls Sample.fresh)
        (wallet_switchEthereumChain (numberToHex Sample.imports 137))
      = Threw (ProviderRpc (Some 4001) (Some 4902))
      /\ error_code (ProviderRpc (Some 4001) (Some 4902)) = Some 4001
      /\ snd (switchChain Sample.imports Sample.nesting_wallet
                Sample.metaMask_parameters Sample.chains 137 Sample.fresh)
         = Returned Sample.polygon
      /\ ~ user_rejection
            (snd (switchChain Sample.imports Sample.nesting_wallet
                    Sample.metaMask_parameters Sample.chains 137 Sample.fresh))).
Proof.
  split; [split; [reflexivity | split; [reflexivity | discriminate]]|].
  split; [reflexivity | split; [reflexivity | split; [reflexivity|]]].
  intros [cause H]. discriminate H.
Qed.

(** ** The statements at work *)

(** MetaMask is picked out of a list that starts with another wallet, and is
    passed over once it also says [isOkxWallet]. *)
Lemma C3_witness :
  metaMask_provider
    (Some (listing Sample.rainbow [Sample.rainbow; Sample.metaMask]))
  = Some Sample.metaMask
  /\ metaMask_provider
       (Some (listing Sample.rainbow
                [Sample.rainbow; with_flag "isOkxWallet" Sample.metaMask]))
     = None.
Proof.
  apply (proj2 (proj2 (C3_metaMask_predicate Sample.metaMask))
           eq_refl
           (proj1 (existsb_false (flag Sample.metaMask) impersonation_flags) eq_refl)
           (fun _ => or_introl eq_refl)
           Sample.rainbow [Sample.rainbow] []).
  intros q [<-|[]]. reflexivity.
Defined.

(** Polygon is unknown to the wallet: it is added, and the switch succeeds. *)
Lemma C1_witness :
  getProvider Sample.imports Sample.metaMask_parameters Sample.fresh
  = (Sample.fresh, Returned (Some Sample.metaMask))
  /\ calls (fst (switchChain Sample.imports Sample.wallet Sample.metaMask_parameters
                  Sample.chains 137 Sample.fresh))
     = [ CallRequest 1 (wallet_switchEthereumChain "0x89");
         CallRequest 1
           (wallet_addEthereumChain
              {| p_chainId := "0x89";
                 p_chainName := "Polygon";
                 p_nativeCurrency := nativeCurrency Sample.polygon;
                 p_rpcUrls := ["https://polygon-rpc.com"];
                 p_blockExplorerUrls :=
                   ["https://polygonscan.com"; "https://polygon.blockscout.com"] |});
         CallRequest 1 eth_chainId ]
  /\ snd (switchChain Sample.imports Sample.wallet Sample.metaMask_parameters
            Sample.chains 137 Sample.fresh)
     = Returned Sample.polygon.
Proof.
  split; [reflexivity|].
  exact (C1_switchChain_adds_unrecognized_chain
           Sample.imports Sample.wallet Sample.metaMask_parameters Sample.chains
           Sample.fresh Sample.metaMask Sample.polygon 137
           (ProviderRpc (Some 4902) None)
           eq_refl eq_refl eq_refl (or_introl eq_refl)).
Defined.

(** C2 as it is written fails on the errors that [connect] absorbs.  Here
    MetaMask answers [wallet_requestPermissions] with the code -32601 and the
    switch to Polygon with the code 4001: neither reaches the caller,
    [connect] returns, and the shim entry is written.  The same happens when
    it is the [eth_accounts] read before the selection that is rejected, with
    the code 4001. *)
Lemma C2_counterexample :
  (calls (fst (connect Sample.imports Sample.declining Sample.metaMask_parameters
                 Sample.chains (Some 137) Sample.fresh))
   = [ CallRequest 1 eth_accounts;
       CallRequest 1 wallet_requestPermissions;
       CallRemoveListener 1 connect_ (Bound connect_ 0);
       CallOn 1 accountsChanged (Bound accountsChanged 1);
       CallOn 1 chainChanged OnChainChanged;
       CallOn 1 disconnect_ (Bound disconnect_ 2);
       CallRequest 1 eth_chainId;
       CallRequest 1 (wallet_switchEthereumChain "0x89") ]
   /\ reply Sample.declining 1 [CallRequest 1 eth_accounts] wallet_requestPermissions
      = Threw (ProviderRpc (Some (-32601)) None)
   /\ (forall h, reply Sample.declining 1 h (wallet_switchEthereumChain "0x89")
                = Threw (ProviderRpc (Some 4001) None))
   /\ snd (connect Sample.imports Sample.declining Sample.metaMask_parameters
             Sample.chains (Some 137) Sample.fresh)
      = Returned {| accounts := ["0xA0Cf798816D4b9b9866b5330EEa46a18382f251e"];
                    chainId := 1 |}
   /\ stored Sample.fresh "metaMask.connected" = None
   /\ stored (fst (connect Sample.imports Sample.declining
                     Sample.metaMask_parameters Sample.chains (Some 137)
                     Sample.fresh))
        "metaMask.connected"
      = Some true)
  /\ (calls (fst (connect Sample.imports Sample.guarded Sample.metaMask_parameters
                    Sample.chains None Sample.fresh))
      = [ CallRequest 1 eth_accounts;
          CallRequest 1 eth_requestAccounts;
          CallRemoveListener 1 connect_ (Bound connect_ 0);
          CallOn 1 accountsChanged (Bound accountsChanged 1);
          CallOn 1 chainChanged OnChainChanged;
          CallOn 1 disconnect_ (Bound disconnect_ 2);
          CallRequest 1 eth_chainId ]
      /\ reply Sample.guarded 1 (calls Sample.fresh) eth_accounts
         = Threw (ProviderRpc (Some 4001) None)
      /\ snd (connect Sample.imports Sample.guarded Sample.metaMask_parameters
                Sample.chains None Sample.fresh)
         = Returned {| accounts := ["0xA0Cf798816D4b9b9866b5330EEa46a18382f251e"];
                       chainId := 1 |}
      /\ stored (fst (connect Sample.imports Sample.guarded
                        Sample.metaMask_parameters Sample.chains None
                        Sample.fresh))
           "metaMask.connected"
         = Some true).
Proof.
  split.
  - split; [reflexivity|]. split; [reflexivity|].
    split; [intros h; reflexivity|]. repeat split; reflexivity.
  - repeat split; reflexivity.
Qed.

(** The user rejects [eth_requestAccounts]: [connect] throws a
    [UserRejectedRequestError] and the storage is still empty.  With the
    target ['metaMask'] the rejection of [eth_accounts] that comes first is
    absorbed, and the one of [eth_requestAccounts] reaches the caller.  A
    dismissed account selection reaches the caller as a user rejection, and
    a wallet too busy to tell its chain as a resource-unavailable error. *)
Lemma C2_witness :
  let rejected :=
    log_call (CallRequest 1 eth_requestAccounts) Sample.fresh in
  (connect Sample.imports (Sample.rejecting Sample.user_rejected)
     (Sample.parameters_of None) Sample.chains None Sample.fresh
   = (rejected, Threw (UserRejectedRequestError Sample.user_rejected))
   /\ storage rejected = storage Sample.fresh)
  /\ (calls (fst (connect Sample.imports (Sample.rejecting Sample.user_rejected)
                    Sample.metaMask_parameters Sample.chains None Sample.fresh))
      = [CallRequest 1 eth_accounts; CallRequest 1 eth_requestAccounts]
      /\ snd (connect Sample.imports (Sample.rejecting Sample.user_rejected)
                Sample.metaMask_parameters Sample.chains None Sample.fresh)
         = Threw (UserRejectedRequestError Sample.user_rejected))
  /\ (calls (fst (connect Sample.imports Sample.dismissing
                    Sample.metaMask_parameters Sample.chains None Sample.fresh))
      = [CallRequest 1 eth_accounts; CallRequest 1 wallet_requestPermissions]
      /\ snd (connect Sample.imports Sample.dismissing
                Sample.metaMask_parameters Sample.chains None Sample.fresh)
         = Threw (UserRejectedRequestError
                    (UserRejectedRequestError Sample.user_rejected)))
  /\ snd (connect Sample.imports Sample.busy (Sample.parameters_of None)
            Sample.chains None Sample.fresh)
     = Threw (ResourceUnavailableRpcError Sample.busy_error).
Proof.
  intros rejected.
  pose proof (C2_connect_errors Sample.imports
                (Sample.rejecting Sample.user_rejected)
                (Sample.parameters_of None) Sample.chains Sample.fresh None
                Sample.metaMask Sample.user_rejected eq_refl)
    as (_ & Hdirect & _ & _ & Hkeep).
  pose proof (C2_connect_errors Sample.imports
                (Sample.rejecting Sample.user_rejected)
                Sample.metaMask_parameters Sample.chains Sample.fresh None
                Sample.metaMask Sample.user_rejected eq_refl)
    as (Hsent & _).
  pose proof (C2_connect_errors Sample.imports Sample.dismissing
                Sample.metaMask_parameters Sample.chains Sample.fresh None
                Sample.metaMask Sample.user_rejected eq_refl)
    as (_ & _ & _ & Hprompt & _).
  pose proof (C2_connect_errors Sample.imports Sample.busy
                (Sample.parameters_of None) Sample.chains Sample.fresh None
                Sample.metaMask Sample.busy_error eq_refl)
    as (_ & _ & Hchain & _).
  assert (Hd : connect Sample.imports (Sample.rejecting Sample.user_rejected)
                 (Sample.parameters_of None) Sample.chains None Sample.fresh
               = (rejected, Threw (UserRejectedRequestError Sample.user_rejected))).
  { apply Hdirect; [|reflexivity].
    right. intros t fs [= <-] Hf. discriminate Hf. }
  split; [split; [exact Hd|]|split; [split; [reflexivity|]|split; [split; [reflexivity|]|]]].
  - apply (Hkeep (UserRejectedRequestError Sample.user_rejected)).
    rewrite Hd. reflexivity.
  - apply (Hsent [CallRequest 1 eth_accounts]).
    split; [exists []; reflexivity | reflexivity].
  - apply (Hprompt [CallRequest 1 eth_accounts]);
      [split; [exists []; reflexivity | reflexivity] | reflexivity].
  - apply (Hchain [ CallRequest 1 eth_requestAccounts;
                    CallRemoveListener 1 connect_ (Bound connect_ 0);
                    CallOn 1 accountsChanged (Bound accountsChanged 1);
                    CallOn 1 chainChanged OnChainChanged;
                    CallOn 1 disconnect_ (Bound disconnect_ 2) ]);
      [reflexivity | split; [exists []; reflexivity | reflexivity]].
Defined.

(** After [disconnect], [isAuthorized] says no, although the wallet still
    holds an account; and it says no to a wallet that rejects [eth_accounts],
    although the shim says connected. *)
Lemma C5_witness :
  let w' := fst (disconnect Sample.imports Sample.metaMask_parameters Sample.connected) in
  (reply Sample.wallet 1 (calls w') eth_accounts
   = Returned ["0xA0Cf798816D4b9b9866b5330EEa46a18382f251e"]
   /\ disconnect Sample.imports Sample.metaMask_parameters Sample.connected
      = (w', Returned tt)
   /\ isAuthorized Sample.imports Sample.wallet Sample.metaMask_parameters w'
      = (w', Returned false))
  /\ stored Sample.connected "metaMask.connected" = Some true
  /\ reply (Sample.rejecting Sample.user_rejected) 1 (calls Sample.connected)
       eth_accounts
     = Threw Sample.user_rejected
  /\ snd (isAuthorized Sample.imports (Sample.rejecting Sample.user_rejected)
            Sample.metaMask_parameters Sample.connected)
     = Returned false.
Proof.
  intros w'.
  pose proof (C5_isAuthorized_false Sample.imports Sample.wallet
                Sample.metaMask_parameters Sample.connected)
    as (_ & _ & _ & _ & _ & _ & _ & _ & Hafter).
  pose proof (C5_isAuthorized_false Sample.imports
                (Sample.rejecting Sample.user_rejected)
                Sample.metaMask_parameters Sample.connected)
    as (_ & _ & _ & Hrejected & _).
  split; [split; [reflexivity | split; [reflexivity|]]|].
  - exact (Hafter eq_refl w' eq_refl).
  - split; [reflexivity|]. split; [reflexivity|].
    exact (Hrejected Sample.metaMask Sample.user_rejected eq_refl eq_refl).
Defined.

(** A [connect] that returns is what made the entry appear. *)
Lemma C6_witness :
  let w' := fst (run Sample.imports Sample.wallet Sample.metaMask_parameters
                   Sample.chains (OpConnect None) Sample.fresh) in
  stored Sample.fresh "metaMask.connected" = None
  /\ stored w' "metaMask.connected" = Some true
  /\ ((exists c r, OpConnect None = OpConnect c
                   /\ snd (connect Sample.imports Sample.wallet
                             Sample.metaMask_parameters Sample.chains c Sample.fresh)
                      = Returned r)
      \/ (exists connectInfo, OpConnect None = OpOnConnect connectInfo)
      \/ (exists accts, OpConnect None = OpOnAccountsChanged accts
            /\ accts <> [] /\ connectListenerCount Sample.fresh <> 0%nat)).
Proof.
  intros w'. split; [reflexivity|].
  apply (proj1 (C6_shim_entry_writers Sample.imports Sample.wallet
                  Sample.metaMask_parameters Sample.chains (OpConnect None)
                  Sample.fresh "metaMask.connected")).
  - vm_compute. discriminate.
  - vm_compute. discriminate.
Defined.

(** The user declines the switch to Polygon: [connect] returns on chain 1. *)
Lemma C7_witness :
  let w1 := fst (resolveAccounts Sample.imports Sample.declining
                   Sample.metaMask_parameters Sample.metaMask Sample.fresh) in
  let w2 := fst (subscribe Sample.metaMask w1) in
  let w3 := fst (getChainId Sample.imports Sample.declining
                   Sample.metaMask_parameters w2) in
  snd (switchChain Sample.imports Sample.declining Sample.metaMask_parameters
         Sample.chains 137 w3)
  = Threw (UserRejectedRequestError Sample.user_rejected)
  /\ exists w5,
       connect Sample.imports Sample.declining Sample.metaMask_parameters
         Sample.chains (Some 137) Sample.fresh
       = (w5, Returned {| accounts := ["0xA0Cf798816D4b9b9866b5330EEa46a18382f251e"];
                          chainId := 1 |}).
Proof.
  intros w1 w2 w3. split; [reflexivity|].
  apply (C7_connect_survives_switch_failure Sample.imports Sample.declining
           Sample.metaMask_parameters Sample.chains
           Sample.fresh w1 w2 w3
           (fst (switchChain Sample.imports Sample.declining
                   Sample.metaMask_parameters Sample.chains 137 w3))
           Sample.metaMask ["0xA0Cf798816D4b9b9866b5330EEa46a18382f251e"]
           1 137 (UserRejectedRequestError Sample.user_rejected));
    first [reflexivity | discriminate].
Defined.

(** A declined switch, and a chain that is not configured. *)
Lemma C8_witness :
  getProvider Sample.imports Sample.metaMask_parameters Sample.fresh
  = (Sample.fresh, Returned (Some Sample.metaMask))
  /\ switchChain Sample.imports Sample.declining Sample.metaMask_parameters
       Sample.chains 5 Sample.fresh
     = (Sample.fresh, Threw (SwitchChainError ChainNotConfiguredError))
  /\ snd (switchChain Sample.imports Sample.declining Sample.metaMask_parameters
            Sample.chains 137 Sample.fresh)
     = Threw (UserRejectedRequestError Sample.user_rejected).
Proof.
  split; [reflexivity|].
  pose proof (C8_switchChain_errors Sample.imports Sample.declining
                Sample.metaMask_parameters Sample.chains Sample.fresh
                Sample.metaMask) as H.
  split.
  - exact (proj1 (H 5 eq_refl) eq_refl).
  - apply (proj2 (H 137 eq_refl) Sample.polygon Sample.user_rejected eq_refl eq_refl);
      first [discriminate | reflexivity].
Defined.

(** On a page without a wallet the timer wins, and the listener is left. *)
Lemma C9_witness :
  getProvider Sample.imports Sample.async_parameters Sample.bare = (Sample.bare, Returned None)
  /\ snd (isAuthorized Sample.imports Sample.wallet Sample.async_parameters Sample.bare)
     = Returned false
  /\ windowListeners
       (fst (isAuthorized Sample.imports Sample.wallet Sample.async_parameters
               Sample.bare))
     = [{| closure := 1; once := true |}].
Proof.
  split; [reflexivity|]. split; [reflexivity|].
  apply (proj2 (C9_timeout_leaves_listener Sample.imports Sample.wallet
                  Sample.async_parameters Sample.bare
                  (Sample.window_of None) (Sample.window_of None) 1000
                  eq_refl (or_introl eq_refl) eq_refl eq_refl eq_refl)).
  constructor.
Defined.

(** Every further call leaves one more. *)
Example listeners_pile_up :
  length (windowListeners
            (execute Sample.imports Sample.wallet Sample.async_parameters
               Sample.chains [OpIsAuthorized; OpIsAuthorized; OpIsAuthorized]
               Sample.bare))
  = 3%nat.
Proof. reflexivity. Qed.

(** A locked wallet fires ['connect']: one request, and nothing else. *)
Lemma C10_witness :
  reply Sample.locked 1 (calls Sample.fresh) eth_accounts = Returned []
  /\ onConnect Sample.imports Sample.locked Sample.metaMask_parameters "0x1"
       Sample.fresh
     = (log_call (CallRequest 1 eth_accounts) Sample.fresh, Returned tt).
Proof.
  split; [reflexivity|].
  exact (proj1 (C10_onConnect_without_accounts Sample.imports Sample.locked
                  Sample.metaMask_parameters Sample.fresh Sample.metaMask "0x1"
                  eq_refl eq_refl)).
Defined.

(** ** The further properties at work *)

Lemma X1_witness :
  findProvider (Some (Sample.several Sample.rainbow [Sample.metaMask]))
    (flag_condition "isRainbow")
  = None.
Proof.
  apply (proj2 (X1_findProvider_sound
                  (Some (Sample.several Sample.rainbow [Sample.metaMask]))
                  (flag_condition "isRainbow"))
           (Sample.several Sample.rainbow [Sample.metaMask])
           {| self := Sample.rainbow; providers := Some [Sample.metaMask] |}
           [Sample.metaMask] eq_refl eq_refl eq_refl).
  intros q [<-|[]]. reflexivity.
Defined.

Lemma X2_witness :
  getProvider Sample.imports Sample.metaMask_parameters Sample.fresh
  = (Sample.fresh, Returned (Some Sample.metaMask))
  /\ flag Sample.metaMask "isMetaMask" = true
  /\ (forall f, In f impersonation_flags -> flag Sample.metaMask f = false)
  /\ (flag Sample.metaMask "isBraveWallet" = true ->
      _events Sample.metaMask = true \/ _state Sample.metaMask = true).
Proof.
  split; [reflexivity|].
  exact (X2_metaMask_target_sound Sample.imports Sample.metaMask_parameters Sample.fresh
           Sample.fresh Sample.metaMask eq_refl eq_refl).
Defined.

Lemma X3_witness :
  flag Sample.rainbow "isCoinbaseWallet" = false
  /\ getProvider Sample.imports Sample.coinbase_parameters Sample.with_extension
     = (Sample.with_extension, Returned (Some Sample.rainbow)).
Proof.
  split; [reflexivity|].
  refine (proj1 (proj1 (X3_extension_slots_first Sample.imports
                          Sample.coinbase_parameters
                          Sample.with_extension _ eq_refl) eq_refl)
            Sample.rainbow eq_refl).
Defined.

Lemma X4_witness :
  connect Sample.imports Sample.wallet Sample.metaMask_parameters Sample.chains
    (Some 137) Sample.headless
  = (Sample.headless, Threw ProviderNotFoundError).
Proof.
  exact (proj1 (proj2 (proj2 (X4_without_window Sample.imports Sample.wallet
                                Sample.metaMask_parameters Sample.chains
                                Sample.headless eq_refl)))
           (Some 137)).
Defined.

Lemma X5_witness :
  emitted (fst (run Sample.imports Sample.wallet Sample.metaMask_parameters
                  Sample.chains (OpConnect (Some 137)) Sample.fresh))
  = emitted Sample.fresh.
Proof.
  exact (X5_methods_do_not_emit Sample.imports Sample.wallet
           Sample.metaMask_parameters Sample.chains (OpConnect (Some 137))
           Sample.fresh eq_refl).
Defined.

Lemma X6_witness :
  exists t,
    getWindowProvider Sample.imports Sample.metaMask_parameters = inr t
    /\ storage (fst (connect Sample.imports Sample.wallet
                       Sample.metaMask_parameters Sample.chains None Sample.fresh))
       = Some (<[id t ++ ".connected" := true]> ∅)
    /\ stored (fst (connect Sample.imports Sample.wallet
                      Sample.metaMask_parameters Sample.chains None Sample.fresh))
         (id t ++ ".connected")
       = Some true
    /\ (forall key, key <> id t ++ ".connected" ->
          stored (fst (connect Sample.imports Sample.wallet
                         Sample.metaMask_parameters Sample.chains None Sample.fresh))
            key
          = stored Sample.fresh key).
Proof.
  refine (X6_connect_writes_entry Sample.imports Sample.wallet
            Sample.metaMask_parameters Sample.chains None Sample.fresh
            (fst (connect Sample.imports Sample.wallet
                    Sample.metaMask_parameters Sample.chains None Sample.fresh))
            {| accounts := [Sample.account]; chainId := 1 |} ∅ _ _ _).
  - vm_compute. reflexivity.
  - reflexivity.
  - reflexivity.
Defined.

Lemma X7_witness :
  exists t,
    getWindowProvider Sample.imports Sample.metaMask_parameters = inr t
    /\ storage
         (fst (disconnect Sample.imports Sample.metaMask_parameters
                 (fst (connect Sample.imports Sample.wallet
                         Sample.metaMask_parameters Sample.chains None
                         Sample.fresh))))
       = storage Sample.fresh.
Proof.
  assert (H1 : connect Sample.imports Sample.wallet Sample.metaMask_parameters
                 Sample.chains None Sample.fresh
               = (fst (connect Sample.imports Sample.wallet
                         Sample.metaMask_parameters Sample.chains None
                         Sample.fresh),
                  Returned {| accounts := [Sample.account]; chainId := 1 |})).
  { vm_compute. reflexivity. }
  assert (H2 : disconnect Sample.imports Sample.metaMask_parameters
                 (fst (connect Sample.imports Sample.wallet
                         Sample.metaMask_parameters Sample.chains None
                         Sample.fresh))
               = (fst (disconnect Sample.imports Sample.metaMask_parameters
                         (fst (connect Sample.imports Sample.wallet
                                 Sample.metaMask_parameters Sample.chains None
                                 Sample.fresh))),
                  Returned tt)).
  { vm_compute. reflexivity. }
  destruct (X7_connect_disconnect_storage Sample.imports Sample.wallet
              Sample.metaMask_parameters Sample.chains None Sample.fresh _ _ _
              H1 H2) as (t & Ht & _ & _ & Hback).
  exists t. split; [exact Ht|]. apply Hback.
  injection Ht as <-. reflexivity.
Defined.

Lemma X8_witness :
  storage (execute Sample.imports Sample.wallet Sample.async_parameters
             Sample.chains [OpConnect None; OpOnConnect "0x1"; OpDisconnect]
             Sample.fresh)
  = storage Sample.fresh.
Proof.
  exact (X8_shim_off_storage_untouched Sample.imports Sample.wallet
           Sample.async_parameters Sample.chains
           [OpConnect None; OpOnConnect "0x1"; OpDisconnect] Sample.fresh eq_refl).
Defined.

Lemma X9_witness :
  snd (isAuthorized Sample.imports Sample.wallet Sample.metaMask_parameters
         Sample.fresh)
  = Returned false
  /\ snd (isAuthorized Sample.imports Sample.wallet Sample.metaMask_parameters
            (fst (connect Sample.imports Sample.wallet
                    Sample.metaMask_parameters Sample.chains None Sample.fresh)))
     = Returned true.
Proof.
  split; [vm_compute; reflexivity|].
  assert (H1 : connect Sample.imports Sample.wallet Sample.metaMask_parameters
                 Sample.chains None Sample.fresh
               = (fst (connect Sample.imports Sample.wallet
                         Sample.metaMask_parameters Sample.chains None
                         Sample.fresh),
                  Returned {| accounts := [Sample.account]; chainId := 1 |})).
  { vm_compute. reflexivity. }
  rewrite (X9_connect_then_isAuthorized Sample.imports Sample.wallet
             Sample.metaMask_parameters Sample.chains None Sample.fresh _ _
             Sample.metaMask [Sample.account] [Sample.account]
             H1 (fun _ => ltac:(discriminate)) eq_refl eq_refl eq_refl).
  reflexivity.
Defined.

Lemma X12_witness :
  only_calls (fun x => negb (asks_chain x))
    (connect Sample.imports Sample.wallet Sample.metaMask_parameters
       Sample.chains (Some 0)).
Proof.
  exact (X12_connect_without_chain Sample.imports Sample.wallet
           Sample.metaMask_parameters Sample.chains (Some 0) eq_refl).
Defined.

Lemma X13_witness :
  snd (switchChain Sample.imports Sample.wallet Sample.metaMask_parameters
         Sample.chains 137 Sample.fresh)
  = Returned Sample.polygon
  /\ In Sample.polygon Sample.chains /\ chain_id Sample.polygon = 137.
Proof.
  split; [reflexivity|].
  exact (X13_switchChain_returns_requested Sample.imports Sample.wallet
           Sample.metaMask_parameters Sample.chains 137 Sample.fresh
           (fst (switchChain Sample.imports Sample.wallet
                   Sample.metaMask_parameters Sample.chains 137 Sample.fresh))
           Sample.polygon eq_refl).
Defined.

Lemma X14_witness :
  snd (switchChain Sample.imports Sample.confirming Sample.metaMask_parameters
         Sample.chains 1 Sample.fresh)
  = Returned Sample.mainnet
  /\ snd (switchChain Sample.imports Sample.wallet Sample.metaMask_parameters
            Sample.chains 1 Sample.fresh)
     = Pending.
Proof.
  split.
  - exact (f_equal snd
             (proj1 (X14_switchChain_waits_for_change Sample.imports
                       Sample.confirming Sample.metaMask_parameters Sample.chains
                       Sample.fresh Sample.metaMask Sample.mainnet 1
                       eq_refl eq_refl eq_refl) eq_refl)).
  - exact (f_equal snd
             (proj2 (X14_switchChain_waits_for_change Sample.imports
                       Sample.wallet Sample.metaMask_parameters Sample.chains
                       Sample.fresh Sample.metaMask Sample.mainnet 1
                       eq_refl eq_refl eq_refl) ltac:(discriminate))).
Defined.

Lemma X15_witness :
  onDisconnect Sample.imports Sample.wallet Sample.metaMask_parameters
    (Some (ProviderRpc (Some 1013) None)) Sample.fresh
  = (log_call (CallRequest 1 eth_accounts) Sample.fresh, Returned tt)
  /\ emitted (fst (onDisconnect Sample.imports Sample.wallet
                     Sample.metaMask_parameters None Sample.fresh))
     = [EmitDisconnect].
Proof.
  pose proof (X15_onDisconnect Sample.imports Sample.wallet
                Sample.metaMask_parameters Sample.fresh Sample.metaMask eq_refl)
    as [Hwait Hgo].
  split.
  - exact (Hwait (ProviderRpc (Some 1013) None) [Sample.account] Sample.account []
             eq_refl eq_refl eq_refl).
  - exact (proj1 (proj2 (Hgo None I))).
Defined.

Lemma two_at_their_positions :
  checksummed_by_position Sample.imports
    [Sample.account; Sample.second_account] Sample.two_checksummed.
Proof.
  split; [reflexivity|].
  intros [|[|i]] x H; simpl in H; try discriminate H;
    injection H as <-; eexists; split; reflexivity.
Qed.

(** The second account of the event comes back as [getAddress] gives it with
    the chain id 1. *)
Lemma X16_witness :
  emitted (fst (onAccountsChanged Sample.imports Sample.wallet
                  Sample.metaMask_parameters [] Sample.fresh))
  = [EmitDisconnect]
  /\ onAccountsChanged Sample.imports Sample.wallet Sample.metaMask_parameters
       [Sample.account; Sample.second_account] Sample.fresh
     = (log_emit (EmitChangeAccounts Sample.two_checksummed) Sample.fresh,
        Returned tt)
  /\ Sample.two_checksummed
     <> [Sample.account; Sample.second_account].
Proof.
  pose proof (X16_onAccountsChanged Sample.imports Sample.wallet
                Sample.metaMask_parameters Sample.fresh) as (Hnone & Hsome & _).
  split; [|split].
  - exact (proj1 (proj2 (Hnone (Some Sample.metaMask) eq_refl))).
  - exact (Hsome Sample.account [Sample.second_account] Sample.two_checksummed
             eq_refl two_at_their_positions).
  - discriminate.
Defined.

Lemma X17_witness :
  reply Sample.two_accounts 1 [CallRequest 1 eth_accounts] wallet_requestPermissions
  = Threw (ProviderRpc (Some (-32601)) None)
  /\ resolveAccounts Sample.imports Sample.two_accounts Sample.metaMask_parameters
       Sample.metaMask Sample.fresh
     = (log_call (CallRequest 1 wallet_requestPermissions)
          (log_call (CallRequest 1 eth_accounts) Sample.fresh),
        Returned Sample.two_checksummed).
Proof.
  split; [reflexivity|].
  apply (proj2 (proj2 (X17_reselection_errors Sample.imports Sample.two_accounts
                         Sample.metaMask_parameters Sample.chains Sample.fresh
                         Sample.metaMask metaMask_target
                         ["wallet_requestPermissions"]
                         [Sample.account; Sample.second_account]
                         Sample.account [Sample.second_account ++ "@0x1"]
                         (ProviderRpc (Some (-32601)) None) None
                         eq_refl eq_refl eq_refl eq_refl eq_refl eq_refl eq_refl
                         two_at_their_positions eq_refl)));
    discriminate.
Defined.

Lemma X18_witness :
  calls (fst (isAuthorized Sample.imports Sample.wallet Sample.async_parameters
                Sample.bare))
  = []
  /\ snd (isAuthorized Sample.imports Sample.wallet Sample.async_parameters
            Sample.bare)
     = Returned false.
Proof.
  exact (X18_injection_race_result Sample.imports Sample.wallet
           Sample.async_parameters Sample.bare
           (Sample.window_of None) (Sample.window_of None) 1000 Timeout
           eq_refl (or_introl eq_refl) eq_refl eq_refl eq_refl).
Defined.

Lemma X19_witness :
  In (CallOn 1 accountsChanged (Bound accountsChanged 1))
    (calls (execute Sample.imports Sample.wallet Sample.metaMask_parameters
              Sample.chains [OpConnect None; OpDisconnect] Sample.fresh))
  /\ forall p ev,
       ~ In (CallRemoveListener p ev (Bound accountsChanged 1))
           (calls (execute Sample.imports Sample.wallet
                     Sample.metaMask_parameters Sample.chains
                     [OpConnect None; OpDisconnect] Sample.fresh)).
Proof.
  assert (Hon : In (CallOn 1 accountsChanged (Bound accountsChanged 1))
                  (calls (execute Sample.imports Sample.wallet
                            Sample.metaMask_parameters Sample.chains
                            [OpConnect None; OpDisconnect] Sample.fresh))).
  { vm_compute. tauto. }
  split; [exact Hon|]. intros p ev.
  exact (proj2 (X19_bound_listeners_never_reused Sample.imports Sample.wallet
                  Sample.metaMask_parameters Sample.chains
                  [OpConnect None; OpDisconnect] Sample.fresh
                  (conj (NoDup_nil_2 : NoDup (bound_numbers (calls Sample.fresh)))
                        (Forall_nil_2 _)))
           1%nat accountsChanged p ev accountsChanged 1%nat Hon).
Defined.

Lemma X20_witness :
  snd (getAccounts Sample.imports Sample.two_accounts Sample.metaMask_parameters
         Sample.fresh)
  = Returned Sample.two_checksummed.
Proof.
  apply (proj1 (X20_getAccounts_in_order Sample.imports Sample.two_accounts
                  Sample.metaMask_parameters Sample.fresh Sample.metaMask
                  [Sample.account; Sample.second_account] eq_refl eq_refl)).
  exact two_at_their_positions.
Defined.

Lemma X22_witness :
  emitted (fst (onConnect Sample.imports Sample.two_accounts
                  Sample.metaMask_parameters "0x89" Sample.fresh))
  = [EmitConnect Sample.two_checksummed 137]
  /\ stored (fst (onConnect Sample.imports Sample.two_accounts
                    Sample.metaMask_parameters "0x89" Sample.fresh))
       "metaMask.connected"
     = Some true.
Proof.
  destruct (X22_onConnect_with_accounts Sample.imports Sample.two_accounts
              Sample.metaMask_parameters Sample.fresh Sample.metaMask
              metaMask_target "0x89" [Sample.account; Sample.second_account]
              Sample.account [Sample.second_account ++ "@0x1"]
              eq_refl eq_refl eq_refl two_at_their_positions) as (_ & He & _ & Hs).
  split; [exact He|]. unfold stored. rewrite Hs. reflexivity.
Defined.

Lemma X23_witness :
  only_calls (fun x => negb (asks_permissions x || is_eth_accounts x))
    (connect Sample.imports Sample.wallet Sample.async_parameters Sample.chains
       (Some 137)).
Proof.
  exact (X23_no_reselection Sample.imports Sample.wallet Sample.async_parameters
           Sample.chains (Some 137) (or_introl eq_refl)).
Defined.
